(** * Session state, memory, tracing, metrics and the coordinator life cycle

    A shallow embedding of the stateful core of the analytics agent:
    [src/memory/session_manager.py], [src/memory/memory_bank.py],
    [src/observability/tracer.py], [src/observability/metrics.py], the
    request life cycle of [src/coordinator.py] with the [try] blocks of
    the two agents, and two of the tools, [src/tools/statistical.py]
    ([group_by_analysis]) and [src/tools/report_formatter.py].

    Conventions of the embedding.
    - Python [str] is [string], the text in its UTF-8 encoding.  [lower]
      is [str.lower] on the letters A-Z and serves where a text is compared
      with ASCII keywords; where lowered texts of any kind are compared with
      each other ([MemoryBank.search]) or kept ([create_report]),
      [str.lower] is a parameter, [str_lower].
    - An exception is an [Exception], which [except Exception] catches, or
      a [BaseException] outside that class ([KeyboardInterrupt],
      [SystemExit]), which passes through every handler of this code.
    - Clock readings ([datetime.now], [time.time], [pd.Timestamp.now]) are
      integers ([Z], microsecond ticks); a duration in seconds is a
      rational.
    - A Python [dict] is an association list in insertion order
      ([PyDict.t]); assignment to a present key keeps its position.
    - Objects that are shared by reference (trace spans) live in a store and
      are named by their index in it. *)

From Stdlib Require Import ZArith QArith Lia Bool Ascii String.
From stdpp Require Import base list strings pretty sorting.

Set Warnings "-register-all".
Local Open Scope string_scope.
Local Open Scope list_scope.

(* ===================================================================== *)
(** * Python dictionaries *)
(* ===================================================================== *)

Module PyDict.
Section Dict.
Context {V : Type}.

Definition t := list (string * V).

Definition empty : t := [].

(** [d.get(k)] *)
Fixpoint get (k : string) (d : t) : option V :=
  match d with
  | [] => None
  | (k', v) :: d' => if String.eqb k k' then Some v else get k d'
  end.

(** [k in d] *)
Definition contains (k : string) (d : t) : bool :=
  match get k d with Some _ => true | None => false end.

(** [d[k] = v]: a present key keeps its place, a new key goes last. *)
Fixpoint set (k : string) (v : V) (d : t) : t :=
  match d with
  | [] => [(k, v)]
  | (k', v') :: d' =>
      if String.eqb k k' then (k', v) :: d' else (k', v') :: set k v d'
  end.

(** [del d[k]]; [None] stands for [KeyError]. *)
Fixpoint del (k : string) (d : t) : option t :=
  match d with
  | [] => None
  | (k', v') :: d' =>
      if String.eqb k k' then Some d'
      else match del k d' with
           | Some r => Some ((k', v') :: r)
           | None => None
           end
  end.

Definition keys (d : t) : list string := fst <$> d.
Definition values (d : t) : list V := snd <$> d.
Definition items (d : t) : list (string * V) := d.
End Dict.
Arguments t : clear implicits.
End PyDict.

(* ===================================================================== *)
(** * Python values that travel through result dictionaries *)
(* ===================================================================== *)

Inductive pyval : Type :=
| VNone
| VBool (b : bool)
| VInt (n : Z)
| VFloat (q : Q)
| VStr (s : string)
| VTime (t : Z)                     (* an ISO-8601 rendering of clock reading [t] *)
| VList (l : list pyval)
| VDict (d : list (string * pyval)).

Abbreviation dict := (PyDict.t pyval).

(** Python truthiness, as used by [if x:] and [x or y]. *)
Definition truthy (v : pyval) : bool :=
  match v with
  | VNone => false
  | VBool b => b
  | VInt n => negb (n =? 0)%Z
  | VFloat q => negb (Qeq_bool q 0)
  | VStr s => negb (String.eqb s "")
  | VTime _ => true
  | VList l => match l with [] => false | _ => true end
  | VDict d => match d with [] => false | _ => true end
  end.

(** [d.get(k)] seen as a condition: a missing key reads [None]. *)
Definition truthy_get (k : string) (d : dict) : bool :=
  match PyDict.get k d with Some v => truthy v | None => false end.

(** [d.get(k)] as a value. *)
Definition get_or_none (k : string) (d : dict) : pyval :=
  match PyDict.get k d with Some v => v | None => VNone end.

(** [metadata or {}] *)
Definition or_empty (m : option dict) : dict :=
  match m with Some d => d | None => [] end.

(** [type(v).__name__] *)
Definition type_name (v : pyval) : string :=
  match v with
  | VNone => "NoneType"
  | VBool _ => "bool"
  | VInt _ => "int"
  | VFloat _ => "float"
  | VStr _ => "str"
  | VTime _ => "str"
  | VList _ => "list"
  | VDict _ => "dict"
  end.

(** The text of the [AttributeError] that [v.name] raises. *)
Definition no_attribute (v : pyval) (name : string) : string :=
  String.append "'"
    (String.append (type_name v)
       (String.append "' object has no attribute '" (String.append name "'"))).

(* ===================================================================== *)
(** * Strings *)
(* ===================================================================== *)

Definition lower_ascii (c : ascii) : ascii :=
  let n := nat_of_ascii c in
  if (65 <=? n)%nat && (n <=? 90)%nat then ascii_of_nat (n + 32) else c.

(** [s.lower()] on ASCII letters: the letters A-Z are mapped, every other
    character is kept.  This is [str.lower] as far as the keywords of this
    code go ([data], [report], [analyze] and the names of the
    aggregations): no character outside A-Z lowers to a letter of theirs
    alone. *)
Fixpoint lower (s : string) : string :=
  match s with
  | EmptyString => EmptyString
  | String c s' => String (lower_ascii c) (lower s')
  end.

(** [hay.startswith(p)] *)
Fixpoint startswith (p hay : string) : bool :=
  match p, hay with
  | EmptyString, _ => true
  | String a p', String b hay' => Ascii.eqb a b && startswith p' hay'
  | String _ _, EmptyString => false
  end.

(** [needle in hay] *)
Fixpoint str_in (needle hay : string) : bool :=
  startswith needle hay ||
  match hay with
  | EmptyString => false
  | String _ hay' => str_in needle hay'
  end.

(** [s.endswith(suffix)] *)
Fixpoint endswith (suffix s : string) : bool :=
  String.eqb suffix s ||
  match s with
  | EmptyString => false
  | String _ s' => endswith suffix s'
  end.

(* ===================================================================== *)
(** * Python slices *)
(* ===================================================================== *)

(** [l[start:]] *)
Definition slice_from {A} (start : Z) (l : list A) : list A :=
  let n := Z.of_nat (length l) in
  if (start <? 0)%Z then drop (Z.to_nat (Z.max (n + start) 0)) l
  else drop (Z.to_nat (Z.min start n)) l.

(** [l[:stop]] *)
Definition slice_to {A} (stop : Z) (l : list A) : list A :=
  let n := Z.of_nat (length l) in
  if (stop <? 0)%Z then take (Z.to_nat (Z.max (n + stop) 0)) l
  else take (Z.to_nat (Z.min stop n)) l.

(* ===================================================================== *)
(** * [collections.deque] *)
(* ===================================================================== *)

Module Deque.
Section Deque.
Context {A : Type}.

Record t := mk { maxlen : option nat; elems : list A }.

(** [deque(maxlen=m)] *)
Definition new (m : option nat) : t := mk m [].

(** [d.append(x)]: the item is added on the right, then the deque is
    trimmed on the left when it is longer than [maxlen]. *)
Definition append (x : A) (d : t) : t :=
  let l := elems d ++ [x] in
  match maxlen d with
  | Some m => if (m <? length l)%nat then mk (Some m) (tail l) else mk (Some m) l
  | None => mk None l
  end.

(** [d.extend(xs)] *)
Definition extend (xs : list A) (d : t) : t :=
  fold_left (fun d x => append x d) xs d.

(** [d.clear()] *)
Definition clear (d : t) : t := mk (maxlen d) [].
End Deque.
Arguments t : clear implicits.
End Deque.

(* ===================================================================== *)
(** * Sessions ([session_manager.py]) *)
(* ===================================================================== *)

Module session_manager.

Record Message := mkMessage {
  role : string;
  content : string;
  timestamp : Z;
  metadata : dict
}.

Record Session := mkSession {
  id : string;
  user_id : string;
  created_at : Z;
  messages : Deque.t Message;
  session_metadata : dict
}.

(** The capacity given by the field's default factory, [deque(maxlen=100)]. *)
Definition capacity : nat := 100.

(** [Session(id=.., user_id=.., metadata=..)] with the default factories;
    [now] is the reading of [datetime.now]. *)
Definition new_session (sid uid : string) (md : dict) (now : Z) : Session :=
  mkSession sid uid now (Deque.new (Some capacity)) md.

Definition set_messages (s : Session) (d : Deque.t Message) : Session :=
  mkSession (id s) (user_id s) (created_at s) d (session_metadata s).

(** [Session.add_message]; [now] is the timestamp default. *)
Definition add_message (s : Session) (r c : string) (md : option dict) (now : Z)
  : Session :=
  set_messages s (Deque.append (mkMessage r c now (or_empty md)) (messages s)).

(** [Session.get_context] *)
Definition get_context (s : Session) (max_messages : Z) : list dict :=
  let recent_messages := slice_from (- max_messages) (Deque.elems (messages s)) in
  map (fun msg => [("role", VStr (role msg)); ("content", VStr (content msg))])
      recent_messages.

(** [Session.compact_context] *)
Definition compact_context (s : Session) (keep_recent : Z) : Session :=
  if (keep_recent <? Z.of_nat (length (Deque.elems (messages s))))%Z then
    let recent := slice_from (- keep_recent) (Deque.elems (messages s)) in
    set_messages s (Deque.extend recent (Deque.clear (messages s)))
  else s.

(** Python's [sorted(xs, key=k)]: a stable sort, written as an insertion
    sort that places an item before the first item whose key is not
    smaller. *)
Fixpoint insert_by {A} (k : A -> Z) (x : A) (l : list A) : list A :=
  match l with
  | [] => [x]
  | y :: l' => if (k x <=? k y)%Z then x :: y :: l' else y :: insert_by k x l'
  end.

Definition sorted {A} (k : A -> Z) (l : list A) : list A :=
  fold_right (insert_by k) [] l.

Record SessionManager := mkManager {
  sessions : PyDict.t Session;
  max_sessions : Z
}.

(** [SessionManager(max_sessions)] *)
Definition new_manager (max : Z) : SessionManager := mkManager [] max.

(** [for session_id, _ in victims: del self.sessions[session_id]];
    [None] stands for the [KeyError] of [del]. *)
Definition del_all (victims : list (string * Session)) (d : PyDict.t Session)
  : option (PyDict.t Session) :=
  fold_left (fun acc v => match acc with
                          | Some d' => PyDict.del (fst v) d'
                          | None => None
                          end) victims (Some d).

(** [SessionManager._cleanup_old_sessions] *)
Definition _cleanup_old_sessions (m : SessionManager) : option SessionManager :=
  let len := Z.of_nat (length (sessions m)) in
  if (len <=? max_sessions m)%Z then Some m
  else
    let sorted_sessions := sorted (fun x => created_at (snd x)) (PyDict.items (sessions m)) in
    let to_remove := (len - max_sessions m)%Z in
    match del_all (slice_to to_remove sorted_sessions) (sessions m) with
    | Some d => Some (mkManager d (max_sessions m))
    | None => None
    end.

(** [SessionManager.create_session]; [session_id] is the value of
    [str(uuid.uuid4())] and [now] the reading of [datetime.now]. *)
Definition create_session (m : SessionManager) (session_id : string)
    (uid : string) (md : option dict) (now : Z)
  : option (Session * SessionManager) :=
  let session := new_session session_id uid (or_empty md) now in
  let m1 := mkManager (PyDict.set session_id session (sessions m)) (max_sessions m) in
  if (max_sessions m1 <? Z.of_nat (length (sessions m1)))%Z then
    match _cleanup_old_sessions m1 with
    | Some m2 => Some (session, m2)
    | None => None
    end
  else Some (session, m1).

(** [SessionManager.get_session] *)
Definition get_session (m : SessionManager) (session_id : string) : option Session :=
  PyDict.get session_id (sessions m).

(** [SessionManager.update_session]; a session object is always truthy, so
    the message is added whenever the id is known. *)
Definition update_session (m : SessionManager) (session_id r c : string)
    (md : option dict) (now : Z) : SessionManager :=
  match get_session m session_id with
  | Some session =>
      mkManager (PyDict.set session_id (add_message session r c md now) (sessions m))
                (max_sessions m)
  | None => m
  end.

(** [SessionManager.delete_session] *)
Definition delete_session (m : SessionManager) (session_id : string) : SessionManager :=
  if PyDict.contains session_id (sessions m) then
    match PyDict.del session_id (sessions m) with
    | Some d => mkManager d (max_sessions m)
    | None => m
    end
  else m.

End session_manager.

(* ===================================================================== *)
(** * Outcomes of calls that may raise *)
(* ===================================================================== *)

(** An exception object, as far as this code tells exceptions apart: an
    instance of [Exception] or of a subclass, or an instance of
    [BaseException] that is not an [Exception] ([KeyboardInterrupt],
    [SystemExit], [GeneratorExit]).  The text is [str(e)]. *)
Inductive exn : Type :=
| Exception (msg : string)
| BaseException (msg : string).

(** A text in the place of an exception stands for an [Exception] with
    that text. *)
Coercion Exception : string >-> exn.

Inductive behaviour (A : Type) : Type :=
| Returns (a : A)
| Raises (e : exn).
Arguments Returns {A} a.
Arguments Raises {A} e.

(** Sequencing of calls that may raise. *)
#[export] Instance behaviour_ret : MRet behaviour := fun A a => Returns a.

#[export] Instance behaviour_bind : MBind behaviour := fun A B f b =>
  match b with
  | Returns a => f a
  | Raises e => Raises e
  end.

(** [try: body except Exception as e: handler(e)] around a call. *)
Definition except_Exception {A} (body : behaviour A) (handler : string -> behaviour A)
  : behaviour A :=
  match body with
  | Raises (Exception e) => handler e
  | _ => body
  end.

(* ===================================================================== *)
(** * The memory bank ([memory_bank.py]) *)
(* ===================================================================== *)

Module memory_bank.

Record MemoryEntry := mkEntry {
  key : string;
  value : string;
  category : string;
  timestamp : Z;
  metadata : dict
}.

Record MemoryBank := mkBank {
  storage_path : string;
  memories : PyDict.t MemoryEntry
}.

(** What the file at [storage_path] holds: the dump of a mapping, or what
    an interrupted dump has left (opening the file for writing empties it,
    and only a part of the text has reached it). *)
Inductive Document : Type :=
| Dumped (d : PyDict.t MemoryEntry)
| Partial.

(** What lies outside the process: the file at [storage_path] (absent
    until first written), the lines printed so far, and the faults the
    file system answers with: [mkdir_error] to [Path.mkdir], [open_error]
    to building the data or opening the file, [dump_error] to [json.dump]
    into the opened file.  These are errors of the operating system or of
    the encoder, instances of [Exception]. *)
Record Storage := mkStorage {
  document : option Document;
  printed : list string;
  mkdir_error : option string;
  open_error : option string;
  dump_error : option string
}.

Definition set_document (st : Storage) (d : Document) : Storage :=
  mkStorage (Some d) (printed st) (mkdir_error st) (open_error st) (dump_error st).

Definition print (st : Storage) (line : string) : Storage :=
  mkStorage (document st) (printed st ++ [line]) (mkdir_error st) (open_error st)
            (dump_error st).

(** [MemoryBank._save_memories]: [mkdir] runs before the [try]; whatever
    the [try] block raises is printed and dropped.  When [json.dump]
    raises, the file has been opened with mode ['w'] already. *)
Definition _save_memories (b : MemoryBank) (st : Storage) : behaviour unit * Storage :=
  match mkdir_error st with
  | Some e => (Raises e, st)
  | None =>
      match open_error st with
      | Some e => (Returns tt, print st ("Error saving memories: " ++ e))
      | None =>
          match dump_error st with
          | Some e =>
              (Returns tt, print (set_document st Partial) ("Error saving memories: " ++ e))
          | None => (Returns tt, set_document st (Dumped (memories b)))
          end
      end
  end.

(** [MemoryBank.store]; [now] is the reading of [datetime.now]. *)
Definition store (b : MemoryBank) (k v : string) (cat : string)
    (md : option dict) (now : Z) (st : Storage)
  : behaviour unit * MemoryBank * Storage :=
  let entry := mkEntry k v cat now (or_empty md) in
  let b' := mkBank (storage_path b) (PyDict.set k entry (memories b)) in
  let '(r, st') := _save_memories b' st in
  (r, b', st').

(** [MemoryBank.retrieve] *)
Definition retrieve (b : MemoryBank) (k : string) : option string :=
  match PyDict.get k (memories b) with
  | Some entry => Some (value entry)
  | None => None
  end.

(** Truthiness of an optional string argument: [None] and [""] are false. *)
Definition given (s : option string) : bool :=
  match s with
  | Some s' => negb (String.eqb s' "")
  | None => false
  end.

Definition arg (s : option string) : string :=
  match s with Some s' => s' | None => "" end.

Section Search.
(** [str.lower], which maps the cased characters of every script. *)
Variable str_lower : string -> string.

(** The loop body of [MemoryBank.search]: [true] when the entry is
    appended, [false] when one of the two [continue]s is taken. *)
Definition search_keeps (cat query : option string) (entry : MemoryEntry) : bool :=
  if given cat && negb (String.eqb (category entry) (arg cat)) then false
  else if given query && negb (str_in (str_lower (arg query)) (str_lower (value entry)))
  then false
  else true.

(** [MemoryBank.search] *)
Definition search (b : MemoryBank) (cat query : option string) : list MemoryEntry :=
  fold_left (fun results entry =>
               if search_keeps cat query entry then results ++ [entry] else results)
            (PyDict.values (memories b)) [].
End Search.

(** [MemoryBank.get_user_preferences] *)
Definition get_user_preferences (b : MemoryBank) (uid : pyval -> bool) : PyDict.t string :=
  fold_left (fun preferences entry =>
               if String.eqb (category entry) "preference"
                  && match PyDict.get "user_id" (metadata entry) with
                     | Some u => uid u
                     | None => false
                     end
               then PyDict.set (key entry) (value entry) preferences
               else preferences)
            (PyDict.values (memories b)) [].

(** The key of [store_insight], [insight_%Y%m%d_%H%M%S]: one key per
    second of the clock, rendered here as the count of whole seconds. *)
Definition insight_key (now : Z) : string :=
  "insight_" ++ pretty (now / 1000000)%Z.

(** [MemoryBank.store_insight]; the clock is read twice, for the key and
    for the entry. *)
Definition store_insight (b : MemoryBank) (insight : string) (md : option dict)
    (now_key now_entry : Z) (st : Storage)
  : behaviour string * MemoryBank * Storage :=
  let k := insight_key now_key in
  let '(r, b', st') := store b k insight "insight" md now_entry st in
  match r with
  | Returns _ => (Returns k, b', st')
  | Raises e => (Raises e, b', st')
  end.

End memory_bank.

(* ===================================================================== *)
(** * The metrics collector ([metrics.py]) *)
(* ===================================================================== *)

Module metrics.

Record Metric := mkMetric {
  name : string;
  value : Q;
  timestamp : Z;
  tags : dict
}.

Record MetricsCollector := mkCollector {
  enabled : bool;
  metrics : list Metric;
  counters : PyDict.t Z;
  timers : PyDict.t (list Q)
}.

(** [MetricsCollector(enabled)] *)
Definition new (en : bool) : MetricsCollector := mkCollector en [] [] [].

(** Reading [self.counters[name]] of a [defaultdict(int)]. *)
Definition counter (c : MetricsCollector) (nm : string) : Z :=
  match PyDict.get nm (counters c) with Some n => n | None => 0%Z end.

(** Reading [self.timers[name]] of a [defaultdict(list)]. *)
Definition timer (c : MetricsCollector) (nm : string) : list Q :=
  match PyDict.get nm (timers c) with Some l => l | None => [] end.

(** [MetricsCollector.increment]; [now] stamps the log record. *)
Definition increment (c : MetricsCollector) (nm : string) (v : Z)
    (tg : option dict) (now : Z) : MetricsCollector :=
  if negb (enabled c) then c
  else
    let total := (counter c nm + v)%Z in
    mkCollector (enabled c)
      (metrics c ++ [mkMetric (nm ++ ".count") (inject_Z total) now (or_empty tg)])
      (PyDict.set nm total (counters c))
      (timers c).

(** [MetricsCollector.record_timing] *)
Definition record_timing (c : MetricsCollector) (nm : string) (duration : Q)
    (tg : option dict) (now : Z) : MetricsCollector :=
  if negb (enabled c) then c
  else
    mkCollector (enabled c)
      (metrics c ++ [mkMetric (nm ++ ".duration") duration now (or_empty tg)])
      (counters c)
      (PyDict.set nm (timer c nm ++ [duration]) (timers c)).

(** [MetricsCollector.gauge] *)
Definition gauge (c : MetricsCollector) (nm : string) (v : Q)
    (tg : option dict) (now : Z) : MetricsCollector :=
  if negb (enabled c) then c
  else
    mkCollector (enabled c)
      (metrics c ++ [mkMetric nm v now (or_empty tg)])
      (counters c) (timers c).

(** [a < b] on durations. *)
Definition Qltb (a b : Q) : bool := negb (Qle_bool b a).

(** [min(xs)], [max(xs)] and [sum(xs)] of a non-empty list whose first
    item is [x]. *)
Definition py_min (x : Q) (xs : list Q) : Q :=
  fold_left (fun best y => if Qltb y best then y else best) xs x.

Definition py_max (x : Q) (xs : list Q) : Q :=
  fold_left (fun best y => if Qltb best y then y else best) xs x.

Definition py_sum (xs : list Q) : Q := fold_left Qplus xs 0%Q.

(** The statistics stored for one timer. *)
Definition timer_stats (x : Q) (xs : list Q) : dict :=
  let timings := x :: xs in
  [("count", VInt (Z.of_nat (length timings)));
   ("min", VFloat (py_min x xs));
   ("max", VFloat (py_max x xs));
   ("avg", VFloat (py_sum timings / inject_Z (Z.of_nat (length timings)))%Q);
   ("total", VFloat (py_sum timings))].

(** [MetricsCollector.get_summary]; [now] is the reading of [datetime.now]
    rendered into the [timestamp] field. *)
Definition get_summary (c : MetricsCollector) (now : Z) : dict :=
  if negb (enabled c) then []
  else
    [("counters", VDict (map (fun kv => (fst kv, VInt (snd kv))) (counters c)));
     ("timers",
      VDict (fold_left
               (fun acc kv =>
                  match snd kv with
                  | x :: xs => PyDict.set (fst kv) (VDict (timer_stats x xs)) acc
                  | [] => acc
                  end)
               (PyDict.items (timers c)) []));
     ("timestamp", VTime now)].

(** [MetricsCollector.clear] *)
Definition clear (c : MetricsCollector) : MetricsCollector :=
  mkCollector (enabled c) [] [] [].

End metrics.

(* ===================================================================== *)
(** * The tracer ([tracer.py]) *)
(* ===================================================================== *)

(** Seconds in a difference of two clock readings. *)
Definition total_seconds (d : Z) : Q := (d # 1000000)%Q.

Module tracer.

(** A span object in the store; [children] holds references (indices of
    the store), as the Python list holds references to span objects. *)
Record TraceSpan := mkSpan {
  name : string;
  start_time : Z;
  end_time : option Z;
  metadata : dict;
  children : list nat
}.

(** [TraceSpan.duration]: [if self.end_time:] is false for [None] and for
    a reading equal to zero. *)
Definition duration (s : TraceSpan) : option Z :=
  match end_time s with
  | Some e => if (e =? 0)%Z then None else Some (e - start_time s)%Z
  | None => None
  end.

Record Tracer := mkTracer {
  enabled : bool;
  heap : list TraceSpan;          (* every span object created so far *)
  spans : list nat;               (* [self.spans], the root list *)
  active_spans : list nat         (* [self.active_spans], innermost last *)
}.

(** [Tracer(enabled)] *)
Definition new (en : bool) : Tracer := mkTracer en [] [] [].

Definition add_child (r : nat) (s : TraceSpan) : TraceSpan :=
  mkSpan (name s) (start_time s) (end_time s) (metadata s) (children s ++ [r]).

Definition set_end_time (e : Z) (s : TraceSpan) : TraceSpan :=
  mkSpan (name s) (start_time s) (Some e) (metadata s) (children s).

(** [Tracer.span] up to its [yield]: the span object is created, attached
    to the innermost active span or to the root list, and pushed.  The
    reference to the new object is returned with the tracer. *)
Definition span_enter (t : Tracer) (nm : string) (md : option dict) (now : Z)
  : Tracer * nat :=
  let r := length (heap t) in
  let span := mkSpan nm now None (or_empty md) [] in
  let heap1 := heap t ++ [span] in
  match last (active_spans t) with
  | Some parent =>
      (mkTracer (enabled t) (alter (add_child r) parent heap1) (spans t)
                (active_spans t ++ [r]), r)
  | None =>
      (mkTracer (enabled t) heap1 (spans t ++ [r]) (active_spans t ++ [r]), r)
  end.

(** The [finally] block of [Tracer.span]: [span.end_time = time.time()],
    then [self.active_spans.pop()]; an empty list makes [pop] raise. *)
Definition span_exit (t : Tracer) (r : nat) (now : Z) : behaviour unit * Tracer :=
  let heap1 := alter (set_end_time now) r (heap t) in
  match active_spans t with
  | [] => (Raises "pop from empty list", mkTracer (enabled t) heap1 (spans t) [])
  | _ :: _ =>
      (Returns tt, mkTracer (enabled t) heap1 (spans t) (removelast (active_spans t)))
  end.

(** [summarize_span] of [get_trace_summary]; the recursion over children
    follows references, so it is bounded by [fuel]: out of fuel, or on a
    reference to no object, the summary is [None]. *)
Fixpoint summarize_span (fuel : nat) (h : list TraceSpan) (r : nat) : pyval :=
  match fuel with
  | O => VNone
  | S fuel' =>
      match h !! r with
      | Some span =>
          VDict [("name", VStr (name span));
                 ("duration", match duration span with
                              | Some d => VFloat (total_seconds d)
                              | None => VNone
                              end);
                 ("metadata", VDict (metadata span));
                 ("children", VList (map (summarize_span fuel' h) (children span)))]
      | None => VNone
      end
  end.

(** [Tracer.get_trace_summary]; the fuel given is the number of span
    objects, which the recursion cannot use up ([summarize_span_unfold]). *)
Definition get_trace_summary (t : Tracer) (now : Z) : dict :=
  if negb (enabled t) then []
  else
    [("spans", VList (map (summarize_span (length (heap t)) (heap t)) (spans t)));
     ("total_spans", VInt (Z.of_nat (length (spans t))));
     ("timestamp", VTime now)].

End tracer.

(* ===================================================================== *)
(** * The process state and the monad of stateful, fallible code *)
(* ===================================================================== *)

(** The process-wide singletons of the observability modules, the
    attributes of the coordinator object, the clock and the storage. *)
Record World := mkWorld {
  clock : nat -> Z;                                  (* the i-th reading of the clock *)
  ticks : nat;                                       (* readings taken so far *)
  _global_tracer : tracer.Tracer;
  _global_metrics : metrics.MetricsCollector;
  self_session_manager : session_manager.SessionManager;
  self_session_id : string;                          (* [self.session.id] *)
  self_memory_bank : memory_bank.MemoryBank;
  storage : memory_bank.Storage
}.

Definition set_ticks (w : World) (n : nat) : World :=
  mkWorld (clock w) n (_global_tracer w) (_global_metrics w)
          (self_session_manager w) (self_session_id w) (self_memory_bank w) (storage w).

Definition set_tracer (w : World) (t : tracer.Tracer) : World :=
  mkWorld (clock w) (ticks w) t (_global_metrics w)
          (self_session_manager w) (self_session_id w) (self_memory_bank w) (storage w).

Definition set_metrics (w : World) (c : metrics.MetricsCollector) : World :=
  mkWorld (clock w) (ticks w) (_global_tracer w) c
          (self_session_manager w) (self_session_id w) (self_memory_bank w) (storage w).

Definition set_session_manager (w : World) (m : session_manager.SessionManager) : World :=
  mkWorld (clock w) (ticks w) (_global_tracer w) (_global_metrics w)
          m (self_session_id w) (self_memory_bank w) (storage w).

Definition set_memory (w : World) (b : memory_bank.MemoryBank)
    (st : memory_bank.Storage) : World :=
  mkWorld (clock w) (ticks w) (_global_tracer w) (_global_metrics w)
          (self_session_manager w) (self_session_id w) b st.

Definition M (A : Type) : Type := World -> behaviour A * World.

#[export] Instance M_ret : MRet M := fun A a w => (Returns a, w).

#[export] Instance M_bind : MBind M := fun A B f m w =>
  match m w with
  | (Returns a, w') => f a w'
  | (Raises e, w') => (Raises e, w')
  end.

(** [raise] *)
Definition raise {A} (e : exn) : M A := fun w => (Raises e, w).

(** The outcome of a call into the environment. *)
Definition lift {A} (b : behaviour A) : M A := fun w => (b, w).

(** [try: body except Exception as e: handler(e)]; the handler is given
    [str(e)].  What is not an [Exception] is not caught. *)
Definition try_except {A} (body : M A) (handler : string -> M A) : M A := fun w =>
  match body w with
  | (Returns a, w') => (Returns a, w')
  | (Raises (Exception e), w') => handler e w'
  | (Raises (BaseException e), w') => (Raises (BaseException e), w')
  end.

(** One reading of the clock. *)
Definition read_clock (w : World) : Z * World :=
  (clock w (ticks w), set_ticks w (S (ticks w))).

Definition time_now : M Z := fun w =>
  let '(now, w') := read_clock w in (Returns now, w').

(** [with tracer.span(name, metadata): body].  A disabled tracer yields at
    once; otherwise the [finally] block runs however the body ends, and
    the body's outcome is the outcome of the statement unless [finally]
    itself raises. *)
Definition with_span {A} (nm : string) (md : option dict) (body : M A) : M A := fun w =>
  if negb (tracer.enabled (_global_tracer w)) then body w
  else
    let '(start, w1) := read_clock w in
    let '(t1, r) := tracer.span_enter (_global_tracer w1) nm md start in
    let '(res, w2) := body (set_tracer w1 t1) in
    let '(stop, w3) := read_clock w2 in
    let '(out, t3) := tracer.span_exit (_global_tracer w3) r stop in
    match out with
    | Returns _ => (res, set_tracer w3 t3)
    | Raises e => (Raises e, set_tracer w3 t3)
    end.

(** [tracer.get_trace_summary()] *)
Definition trace_summary : M dict := fun w =>
  if negb (tracer.enabled (_global_tracer w)) then (Returns [], w)
  else
    let '(now, w1) := read_clock w in
    (Returns (tracer.get_trace_summary (_global_tracer w1) now), w1).

(** [metrics.increment(name)]; a disabled collector returns before the
    log record, and so before the clock, is touched. *)
Definition metrics_increment (nm : string) : M unit := fun w =>
  if negb (metrics.enabled (_global_metrics w)) then (Returns tt, w)
  else
    let '(now, w1) := read_clock w in
    (Returns tt, set_metrics w1 (metrics.increment (_global_metrics w1) nm 1 None now)).

(** [metrics.record_timing(name, duration)] *)
Definition metrics_record_timing (nm : string) (d : Q) : M unit := fun w =>
  if negb (metrics.enabled (_global_metrics w)) then (Returns tt, w)
  else
    let '(now, w1) := read_clock w in
    (Returns tt, set_metrics w1 (metrics.record_timing (_global_metrics w1) nm d None now)).

(** [metrics.get_summary()] *)
Definition metrics_summary : M dict := fun w =>
  if negb (metrics.enabled (_global_metrics w)) then (Returns [], w)
  else
    let '(now, w1) := read_clock w in
    (Returns (metrics.get_summary (_global_metrics w1) now), w1).

(* ===================================================================== *)
(** * Code that uses the tracer *)
(* ===================================================================== *)

(** The shapes of code around [Tracer.span]: nested [with] blocks,
    sequences, operations that raise an exception of either kind,
    [try: .. except Exception: ..] statements, and calls of
    [get_trace_summary]. *)
Inductive stmt : Type :=
| Pass
| Seq (s1 s2 : stmt)
| Span (nm : string) (md : option dict) (body : stmt)
| Raise (e : exn)
| TryExcept (body handler : stmt)
| GetTraceSummary.

Fixpoint exec (s : stmt) : M unit :=
  match s with
  | Pass => mret tt
  | Seq s1 s2 => exec s1 ;; exec s2
  | Span nm md body => with_span nm md (exec body)
  | Raise e => raise e
  | TryExcept body handler => try_except (exec body) (fun _ => exec handler)
  | GetTraceSummary => trace_summary ;; mret tt
  end.

(* ===================================================================== *)
(** * The collaborators of the coordinator *)
(* ===================================================================== *)

(** The object held in [self.data_analyst]: the repository's
    [DataAnalystAgent], whose [try] block (statistics and the model call)
    ends with the insights, the statistics and the data shape or raises;
    or a stand-in whose [analyze_data] answers with a fixed outcome. *)
Inductive DataAnalyst : Type :=
| DataAnalystAgent (block : option pyval -> string -> behaviour (string * pyval * pyval))
| AnalystDouble (reply : behaviour dict).

(** The object held in [self.report_generator]: the repository's
    [ReportGeneratorAgent], whose [try] block ends with the formatter's
    result and the number of sections or raises; or a stand-in. *)
Inductive ReportGenerator : Type :=
| ReportGeneratorAgent (block : pyval -> dict -> behaviour (pyval * Z))
| ReportDouble (reply : behaviour dict).

(** What the environment answers during one request. *)
Record Env := mkEnv {
  generate_content : behaviour string;               (* the planning call of [self.model] *)
  load_csv : string -> behaviour dict;               (* [self.data_loader.load_csv] *)
  load_json : string -> behaviour dict;              (* [self.data_loader.load_json] *)
  DataFrame : pyval -> behaviour pyval;              (* [pd.DataFrame] *)
  data_analyst : DataAnalyst;
  report_generator : ReportGenerator;
  str : dict -> string                               (* [str(response)] *)
}.

(** The body of the [with] statement of [DataAnalystAgent.analyze_data]. *)
Definition analyze_data_body
    (block : option pyval -> string -> behaviour (string * pyval * pyval))
    (data : option pyval) (query : string) : M dict :=
  metrics_increment "data_analyst.analysis_requests" ;;
  try_except
    ('(insights, statistics, data_shape) ← lift (block data query);
     metrics_increment "data_analyst.analysis_success" ;;
     mret [("success", VBool true);
           ("query", VStr query);
           ("insights", VStr insights);
           ("statistics", statistics);
           ("data_shape", data_shape)])
    (fun e =>
       metrics_increment "data_analyst.analysis_errors" ;;
       mret [("success", VBool false); ("error", VStr e)]).

(** [self.data_analyst.analyze_data(data, query)] *)
Definition analyze_data (a : DataAnalyst) (data : option pyval) (query : string) : M dict :=
  match a with
  | DataAnalystAgent block =>
      with_span "data_analysis" (Some [("query", VStr query)])
                (analyze_data_body block data query)
  | AnalystDouble reply => lift reply
  end.

(** The body of the [with] statement of
    [ReportGeneratorAgent.generate_report]. *)
Definition generate_report_body (block : pyval -> dict -> behaviour (pyval * Z))
    (title : pyval) (analysis_results : dict) : M dict :=
  metrics_increment "report_generator.report_requests" ;;
  try_except
    ('(report_result, sections) ← lift (block title analysis_results);
     metrics_increment "report_generator.report_success" ;;
     mret [("success", VBool true);
           ("report", report_result);
           ("sections", VInt sections)])
    (fun e =>
       metrics_increment "report_generator.report_errors" ;;
       mret [("success", VBool false); ("error", VStr e)]).

(** [self.report_generator.generate_report(title, analysis_results, format)] *)
Definition generate_report (g : ReportGenerator) (title : pyval) (analysis_results : dict)
  : M dict :=
  match g with
  | ReportGeneratorAgent block =>
      with_span "report_generation" (Some [("title", title)])
                (generate_report_body block title analysis_results)
  | ReportDouble reply => lift reply
  end.

(* ===================================================================== *)
(** * The coordinator ([coordinator.py]) *)
(* ===================================================================== *)

Module coordinator.

(** Truthiness of [data_file]: [None] and [""] are false. *)
Definition given (f : option string) : bool := memory_bank.given f.

(** [data_file is not None] *)
Definition is_not_None (f : option string) : bool :=
  match f with Some _ => true | None => false end.

Definition report_title_default : string := "Business Analytics Report".

(** The plan made when the model has been asked, and the fixed plan of
    the [except] clause. *)
Definition planned (query : string) (data_file : option string) : dict :=
  [("needs_data", VBool (is_not_None data_file || str_in "data" (lower query)));
   ("perform_analysis", VBool true);
   ("generate_report",
    VBool (str_in "report" (lower query) || str_in "analyze" (lower query)));
   ("report_title", VStr report_title_default)].

Definition default_plan (data_file : option string) : dict :=
  [("needs_data", VBool (is_not_None data_file));
   ("perform_analysis", VBool true);
   ("generate_report", VBool true);
   ("report_title", VStr report_title_default)].

(** [CoordinatorAgent._plan_workflow]: the model's reply is not read; when
    the call raises an [Exception] the fixed plan is used. *)
Definition _plan_workflow (env : Env) (query : string) (data_file : option string)
  : behaviour dict :=
  except_Exception
    (_ ← generate_content env; mret (planned query data_file))
    (fun _ => mret (default_plan data_file)).

(** The [if result.get("success")] statement of [_load_data]. *)
Definition loaded_frame (env : Env) (result : dict) : behaviour (option pyval) :=
  if truthy_get "success" result then
    match PyDict.get "data" result with
    | Some d => data ← DataFrame env d; mret (Some data)
    | None => Raises "'data'"                        (* [result["data"]] *)
    end
  else mret None.

(** The [try] statement of [_load_data]; every [Exception] gives [None]. *)
Definition load_result (env : Env) (file_path : option string)
  : behaviour (option pyval) :=
  except_Exception
    match file_path with
    | None => Raises "'NoneType' object has no attribute 'endswith'"
    | Some p =>
        if endswith ".csv" p then result ← load_csv env p; loaded_frame env result
        else if endswith ".json" p then result ← load_json env p; loaded_frame env result
        else mret None
    end
    (fun _ => mret None).

(** [CoordinatorAgent._load_data] *)
Definition _load_data (env : Env) (file_path : option string) : M (option pyval) :=
  with_span "data_loading"
    (Some [("file", match file_path with Some p => VStr p | None => VNone end)])
    (lift (load_result env file_path)).

(** [v.get(k)] on a value that need not be a dictionary. *)
Definition attr_get (v : pyval) (k : string) : M pyval :=
  match v with
  | VDict d => mret (get_or_none k d)
  | _ => raise (Exception (no_attribute v "get"))
  end.

(** [CoordinatorAgent._compile_response] *)
Definition _compile_response (query : string) (analysis_results report_results workflow : dict)
  : M dict :=
  sid ← (fun w => (Returns (self_session_id w), w));
  let response :=
    [("success", VBool true);
     ("query", VStr query);
     ("session_id", VStr sid);
     ("workflow", VDict workflow)] in
  let response :=
    if truthy_get "success" analysis_results then
      PyDict.set "analysis"
        (VDict [("insights", get_or_none "insights" analysis_results);
                ("statistics", get_or_none "statistics" analysis_results)])
        response
    else response in
  response ←
    (if truthy_get "success" report_results then
       let report := match PyDict.get "report" report_results with
                     | Some v => v
                     | None => VDict []
                     end in
       filepath ← attr_get report "filepath";
       format ← attr_get report "format";
       mret (PyDict.set "report" (VDict [("filepath", filepath); ("format", format)])
                        response)
     else mret response);
  trace ← trace_summary;
  let response := PyDict.set "trace" (VDict trace) response in
  metrics ← metrics_summary;
  mret (PyDict.set "metrics" (VDict metrics) response).

(** [self.session_manager.update_session(self.session.id, role, content)] *)
Definition update_session (r c : string) : M unit := fun w =>
  match session_manager.get_session (self_session_manager w) (self_session_id w) with
  | Some _ =>
      let '(now, w1) := read_clock w in
      (Returns tt,
       set_session_manager w1
         (session_manager.update_session (self_session_manager w1) (self_session_id w1)
                                         r c None now))
  | None => (Returns tt, w)
  end.

(** The text kept for an insight: [insights] is the model's reply, a
    string; only a stand-in can hand over another kind of value, which is
    kept here as the empty text. *)
Definition text_of (v : pyval) : string :=
  match v with
  | VStr s => s
  | _ => ""
  end.

(** [self.memory_bank.store_insight(insight, metadata)] *)
Definition store_insight (insight : string) (md : dict) : M string := fun w =>
  let '(now_key, w1) := read_clock w in
  let '(now_entry, w2) := read_clock w1 in
  let '(r, b, st) :=
    memory_bank.store_insight (self_memory_bank w2) insight (Some md)
                              now_key now_entry (storage w2) in
  (r, set_memory w2 b st).

(** Step 3 of [analyze] (lines 133-147): the analyst is called, and the
    insights of a successful analysis are stored. *)
Definition step3_analysis (env : Env) (query : string) (workflow : dict)
    (data : option pyval) : M dict :=
  if truthy_get "perform_analysis" workflow then
    analysis_results ← analyze_data (data_analyst env) data query;
    (if truthy_get "success" analysis_results
        && PyDict.contains "insights" analysis_results then
       sid ← (fun w => (Returns (self_session_id w), w));
       store_insight (text_of (get_or_none "insights" analysis_results))
                     [("query", VStr query); ("session_id", VStr sid)] ;;
       mret tt
     else mret tt) ;;
    mret analysis_results
  else mret [].

(** Step 4 of [analyze] (lines 149-158) *)
Definition step4_report (env : Env) (workflow analysis_results : dict) : M dict :=
  if truthy_get "generate_report" workflow then
    let report_title := match PyDict.get "report_title" workflow with
                        | Some v => v
                        | None => VStr report_title_default
                        end in
    generate_report (report_generator env) report_title analysis_results
  else mret [].

(** The end of the [try] block (lines 168-182): the response goes to the
    session, the duration and the success are recorded. *)
Definition wrap_up (env : Env) (response : dict) (start_time : Z) : M dict :=
  update_session "assistant" (str env response) ;;
  stop ← time_now;
  let duration := total_seconds (stop - start_time) in
  metrics_record_timing "coordinator.analysis_duration" duration ;;
  metrics_increment "coordinator.analysis_success" ;;
  mret response.

(** Steps 3 to 5 and the end of the [try] block. *)
Definition finish (env : Env) (query : string) (workflow : dict) (data : option pyval)
    (start_time : Z) : M dict :=
  analysis_results ← step3_analysis env query workflow data;
  report_results ← step4_report env workflow analysis_results;
  response ← _compile_response query analysis_results report_results workflow;
  wrap_up env response start_time.

(** The path handed to [_load_data]: [data_file or workflow.get("data_file")],
    where no plan has a [data_file] key. *)
Definition path_to_load (data_file : option string) : option string :=
  if given data_file then data_file else None.

(** The [try] block of [analyze] (lines 112-182). *)
Definition orchestrate (env : Env) (query : string) (data_file : option string)
    (start_time : Z) : M dict :=
  update_session "user" query ;;
  (* Step 1 *)
  workflow ← lift (_plan_workflow env query data_file);
  (* Step 2 *)
  if given data_file || truthy_get "needs_data" workflow then
    data ← _load_data env (path_to_load data_file);
    match data with
    | None => mret [("success", VBool false); ("error", VStr "Failed to load data")]
    | Some _ => finish env query workflow data start_time
    end
  else finish env query workflow None start_time.

(** The [except] block of [analyze] (lines 184-190). *)
Definition on_exception (e : string) : M dict :=
  metrics_increment "coordinator.analysis_errors" ;;
  mret [("success", VBool false); ("error", VStr e)].

(** The body of the [with] statement of [analyze] (lines 108-190). *)
Definition request (env : Env) (query : string) (data_file : option string) : M dict :=
  metrics_increment "coordinator.analysis_requests" ;;
  start_time ← time_now;
  try_except (orchestrate env query data_file start_time) on_exception.

(** [CoordinatorAgent.analyze] *)
Definition analyze (env : Env) (query : string) (data_file : option string) : M dict :=
  with_span "coordinator.analyze" (Some [("query", VStr query)])
            (request env query data_file).

End coordinator.

(* ===================================================================== *)
(** * Vocabulary of the statements *)
(* ===================================================================== *)

(** One call [session.add_message(role, content, metadata)] together with
    the clock reading that stamps the message. *)
Record AddMessage := mkAddMessage {
  call_role : string;
  call_content : string;
  call_metadata : option dict;
  call_now : Z
}.

(** The message object a call creates. *)
Definition message_of (c : AddMessage) : session_manager.Message :=
  session_manager.mkMessage (call_role c) (call_content c) (call_now c)
                            (or_empty (call_metadata c)).

(** A sequence of [add_message] calls on one session. *)
Definition add_messages (s : session_manager.Session) (calls : list AddMessage)
  : session_manager.Session :=
  fold_left (fun s c => session_manager.add_message s (call_role c) (call_content c)
                                                    (call_metadata c) (call_now c))
            calls s.

(** The sort key of [_cleanup_old_sessions], [lambda x: x[1].created_at]. *)
Definition by_created_at (kv : string * session_manager.Session) : Z :=
  session_manager.created_at (snd kv).

(** What [query.lower() in value.lower()] tests: the lowered [q] is a
    stretch of the lowered [v]. *)
Definition occurs_lowered (str_lower : string -> string) (q v : string) : Prop :=
  exists pre post, str_lower v = pre +:+ str_lower q +:+ post.

(** "A case-insensitive substring match against value", for texts in
    which only the letters A-Z have another case: some stretch of [v] is
    [q] up to the case of its letters. *)
Definition occurs_ignoring_case (q v : string) : Prop :=
  exists pre mid post, v = pre +:+ mid +:+ post /\ lower mid = lower q.

(** The role/content pair [get_context] makes of a message. *)
Definition context_entry (msg : session_manager.Message) : dict :=
  [("role", VStr (session_manager.role msg));
   ("content", VStr (session_manager.content msg))].

(** The clock does not run backwards. *)
Definition monotone_clock (w : World) : Prop :=
  forall i j, i <= j -> (clock w i <= clock w j)%Z.

(** [grown sp sp']: [sp'] is the span object [sp] some time later; nothing
    but its list of children has changed, and that list only at its end. *)
Record grown (sp sp' : tracer.TraceSpan) : Prop := mkGrown {
  grown_name : tracer.name sp' = tracer.name sp;
  grown_start : tracer.start_time sp' = tracer.start_time sp;
  grown_end : tracer.end_time sp' = tracer.end_time sp;
  grown_metadata : tracer.metadata sp' = tracer.metadata sp;
  grown_children : tracer.children sp `prefix_of` tracer.children sp'
}.

(** Every open span is a span object of the store. *)
Definition refs_valid (w : World) : Prop :=
  Forall (fun r => r < length (tracer.heap (_global_tracer w)))
         (tracer.active_spans (_global_tracer w)).

(** The children of a span object were all created after it. *)
Definition heap_ordered (t : tracer.Tracer) : Prop :=
  forall r sp, tracer.heap t !! r = Some sp ->
               Forall (fun c => r < c < length (tracer.heap t)) (tracer.children sp).

(** The two properties every references-to-objects store of Python has, and
    that the store of indices has to be shown to keep. *)
Definition tidy (w : World) : Prop :=
  refs_valid w /\ heap_ordered (_global_tracer w).

(** [scoped w w']: what a piece of code that uses the tracer only through
    [with tracer.span(..)] and [get_trace_summary] can have done to it
    between [w] and [w']. *)
Record scoped (w w' : World) : Prop := mkScoped {
  scoped_clock : clock w' = clock w;
  scoped_ticks : ticks w <= ticks w';
  scoped_enabled :
    tracer.enabled (_global_tracer w') = tracer.enabled (_global_tracer w);
  (* the stack of open spans is as it was *)
  scoped_active :
    tracer.active_spans (_global_tracer w') = tracer.active_spans (_global_tracer w);
  (* the root list only grows, and not at all under an open span *)
  scoped_roots :
    tracer.spans (_global_tracer w) `prefix_of` tracer.spans (_global_tracer w');
  scoped_roots_nested :
    tracer.active_spans (_global_tracer w) <> [] ->
    tracer.spans (_global_tracer w') = tracer.spans (_global_tracer w);
  (* span objects are never dropped; only the innermost open one can have
     got children *)
  scoped_old : forall r sp,
    tracer.heap (_global_tracer w) !! r = Some sp ->
    exists sp', tracer.heap (_global_tracer w') !! r = Some sp' /\ grown sp sp' /\
                (last (tracer.active_spans (_global_tracer w)) <> Some r ->
                 tracer.children sp' = tracer.children sp);
  (* every span object created in between is closed, its start and end
     being two readings of the clock taken in that order *)
  scoped_new : forall r sp',
    length (tracer.heap (_global_tracer w)) <= r ->
    tracer.heap (_global_tracer w') !! r = Some sp' ->
    exists j k, ticks w <= j /\ j < k /\ k < ticks w' /\
                tracer.start_time sp' = clock w j /\
                tracer.end_time sp' = Some (clock w k);
  (* the store stays tidy *)
  scoped_tidy : tidy w -> tidy w'
}.

(** [Run R m]: every run of [m] takes a world to one that is [R]-related
    to it, whatever the outcome. *)
Definition Run {A} (R : relation World) (m : M A) : Prop :=
  forall w res w', m w = (res, w') -> R w w'.

(** A computation all of whose runs are [scoped]. *)
Abbreviation Scoped := (Run scoped).

(** The world in which the body of a [with] statement starts. *)
Definition entered (w : World) (nm : string) (md : option dict) : World :=
  set_tracer (set_ticks w (S (ticks w)))
             (fst (tracer.span_enter (_global_tracer w) nm md (clock w (ticks w)))).

(** The world the [finally] block leaves, [w2] being the world the body
    ended in and [r] the span. *)
Definition exited (w2 : World) (r : nat) (active : list nat) : World :=
  set_tracer (set_ticks w2 (S (ticks w2)))
             (tracer.mkTracer (tracer.enabled (_global_tracer w2))
                       (alter (tracer.set_end_time (clock w2 (ticks w2))) r
                              (tracer.heap (_global_tracer w2)))
                       (tracer.spans (_global_tracer w2))
                       active).



(** Where the new span is attached, seen when the statement is left. *)
Definition attached (w w' : World) (r : nat) : Prop :=
  match last (tracer.active_spans (_global_tracer w)) with
  | Some p =>
      tracer.spans (_global_tracer w') = tracer.spans (_global_tracer w) /\
      exists parent parent',
        tracer.heap (_global_tracer w) !! p = Some parent /\
        tracer.heap (_global_tracer w') !! p = Some parent' /\
        tracer.children parent' = tracer.children parent ++ [r]
  | None => tracer.spans (_global_tracer w') = tracer.spans (_global_tracer w) ++ [r]
  end.


(** A process that has just started: nothing traced, counted or stored,
    default capacities, and a clock that shows the number of its readings. *)
Definition world0 : World :=
  mkWorld Z.of_nat 0 (tracer.new true) (metrics.new true)
          (session_manager.new_manager 1000) "session-0"
          (memory_bank.mkBank "data/memory_bank.json" [])
          (memory_bank.mkStorage None [] None None None).

(** The same process on a machine whose clock is being set back: every
    reading is lower than the one before. *)
Definition world_clock_back : World :=
  mkWorld (fun i => (10 - Z.of_nat i)%Z) 0 (tracer.new true) (metrics.new true)
          (session_manager.new_manager 1000) "session-0"
          (memory_bank.mkBank "data/memory_bank.json" [])
          (memory_bank.mkStorage None [] None None None).

(** ** The coordinator's own metrics *)

Definition requests (w : World) : Z :=
  metrics.counter (_global_metrics w) "coordinator.analysis_requests".
Definition successes (w : World) : Z :=
  metrics.counter (_global_metrics w) "coordinator.analysis_success".
Definition errors (w : World) : Z :=
  metrics.counter (_global_metrics w) "coordinator.analysis_errors".
Definition durations (w : World) : list Q :=
  metrics.timer (_global_metrics w) "coordinator.analysis_duration".

(** [steady w w']: between [w] and [w'] nothing was recorded under the
    names the coordinator records a request with, and the coordinator
    still points at the same session. *)
Record steady (w w' : World) : Prop := mkSteady {
  steady_enabled : metrics.enabled (_global_metrics w') = metrics.enabled (_global_metrics w);
  steady_requests : requests w' = requests w;
  steady_successes : successes w' = successes w;
  steady_errors : errors w' = errors w;
  steady_durations : durations w' = durations w;
  steady_session : self_session_id w' = self_session_id w
}.

(** [quiet w w']: the tracer was used in the scoped way and the
    coordinator's records are [steady]. *)
Definition quiet (w w' : World) : Prop := scoped w w' /\ steady w w'.

(** ** What the collaborators and [_compile_response] hand back *)

(** The outcome of [analyze_data], which does not depend on the state of
    the process: the repository's agent turns an [Exception] of its [try]
    block into a result, a stand-in answers as it is told. *)
Definition analysis_outcome (a : DataAnalyst) (data : option pyval) (query : string)
  : behaviour dict :=
  match a with
  | DataAnalystAgent block =>
      match block data query with
      | Returns (insights, statistics, data_shape) =>
          Returns [("success", VBool true);
                   ("query", VStr query);
                   ("insights", VStr insights);
                   ("statistics", statistics);
                   ("data_shape", data_shape)]
      | Raises (Exception e) => Returns [("success", VBool false); ("error", VStr e)]
      | Raises (BaseException e) => Raises (BaseException e)
      end
  | AnalystDouble reply => reply
  end.

(** The outcome of [generate_report]. *)
Definition report_outcome (g : ReportGenerator) (title : pyval) (analysis_results : dict)
  : behaviour dict :=
  match g with
  | ReportGeneratorAgent block =>
      match block title analysis_results with
      | Returns (report_result, sections) =>
          Returns [("success", VBool true);
                   ("report", report_result);
                   ("sections", VInt sections)]
      | Raises (Exception e) => Returns [("success", VBool false); ("error", VStr e)]
      | Raises (BaseException e) => Raises (BaseException e)
      end
  | ReportDouble reply => reply
  end.

(** The title handed to the report generator. *)
Definition title_of (workflow : dict) : pyval :=
  match PyDict.get "report_title" workflow with
  | Some v => v
  | None => VStr coordinator.report_title_default
  end.

(** The [report] section [_compile_response] makes of the report results:
    none without success, and an exception when [report] is not a
    dictionary. *)
Definition report_section (report_results : dict) : behaviour (option pyval) :=
  if truthy_get "success" report_results then
    match PyDict.get "report" report_results with
    | None => Returns (Some (VDict [("filepath", VNone); ("format", VNone)]))
    | Some (VDict r) =>
        Returns (Some (VDict [("filepath", get_or_none "filepath" r);
                              ("format", get_or_none "format" r)]))
    | Some v => Raises (Exception (no_attribute v "get"))
    end
  else Returns None.

(** The [analysis] section. *)
Definition analysis_section (analysis_results : dict) : option pyval :=
  if truthy_get "success" analysis_results then
    Some (VDict [("insights", get_or_none "insights" analysis_results);
                 ("statistics", get_or_none "statistics" analysis_results)])
  else None.

Definition with_section (k : string) (sec : option pyval) (response : dict) : dict :=
  match sec with
  | Some v => PyDict.set k v response
  | None => response
  end.

(** The response [_compile_response] returns. *)
Definition compiled_response (query sid : string) (workflow : dict)
    (analysis report : option pyval) (trace metrics : dict) : dict :=
  PyDict.set "metrics" (VDict metrics)
    (PyDict.set "trace" (VDict trace)
       (with_section "report" report
          (with_section "analysis" analysis
             [("success", VBool true);
              ("query", VStr query);
              ("session_id", VStr sid);
              ("workflow", VDict workflow)]))).

(** The trace summary taken in world [w], and the world after it. *)
Definition trace_at (w : World) : dict :=
  if tracer.enabled (_global_tracer w)
  then tracer.get_trace_summary (_global_tracer w) (clock w (ticks w))
  else [].

Definition after_trace_summary (w : World) : World :=
  if tracer.enabled (_global_tracer w) then set_ticks w (S (ticks w)) else w.

(** The metrics summary taken in world [w], and the world after it. *)
Definition metrics_at (w : World) : dict :=
  if metrics.enabled (_global_metrics w)
  then metrics.get_summary (_global_metrics w) (clock w (ticks w))
  else [].

Definition after_metrics_summary (w : World) : World :=
  if metrics.enabled (_global_metrics w) then set_ticks w (S (ticks w)) else w.

(** The two responses of a request that does not reach [_compile_response]. *)
Definition load_failure : dict :=
  [("success", VBool false); ("error", VStr "Failed to load data")].

Definition failure (e : string) : dict :=
  [("success", VBool false); ("error", VStr e)].

(** How step 2 of [analyze] ends when it does not raise: the request
    goes on with the data for the agents ([None] where it needs none), or
    it ends in the early [return] of a failed load. *)
Inductive Step2 : Type :=
| GoesOn (data : option pyval)
| LoadFailed.

(** The condition of step 2, [data_file or workflow.get("needs_data")]. *)
Definition needs_load (workflow : dict) (data_file : option string) : bool :=
  coordinator.given data_file || truthy_get "needs_data" workflow.

Definition step2_value (env : Env) (workflow : dict) (data_file : option string)
  : behaviour Step2 :=
  if needs_load workflow data_file then
    data ← coordinator.load_result env (coordinator.path_to_load data_file);
    match data with
    | Some d => mret (GoesOn (Some d))
    | None => mret LoadFailed
    end
  else mret (GoesOn None).

(** [Yields m r]: the outcome of [m] is [r] in every world. *)
Definition Yields {A} (m : M A) (r : behaviour A) : Prop :=
  forall w, fst (m w) = r.

(** The world in which the body of a [with] statement starts, and the one
    the statement leaves, for either setting of the tracer. *)
Definition span_entered (w : World) (nm : string) (md : option dict) : World :=
  if tracer.enabled (_global_tracer w) then entered w nm md else w.

Definition span_exited (w w2 : World) : World :=
  if tracer.enabled (_global_tracer w)
  then exited w2 (length (tracer.heap (_global_tracer w)))
              (tracer.active_spans (_global_tracer w))
  else w2.

(** The results steps 3 and 4 work with. *)
Definition step3_value (env : Env) (query : string) (workflow : dict)
    (data : option pyval) : behaviour dict :=
  if truthy_get "perform_analysis" workflow
  then analysis_outcome (data_analyst env) data query
  else Returns [].

Definition step4_value (env : Env) (workflow analysis_results : dict) : behaviour dict :=
  if truthy_get "generate_report" workflow
  then report_outcome (report_generator env) (title_of workflow) analysis_results
  else Returns [].

(** Step 3 stores the insights of these results. *)
Definition stores_insight (analysis_results : dict) : bool :=
  truthy_get "success" analysis_results && PyDict.contains "insights" analysis_results.

(** [success_recorded w w']: the end of the [try] block has recorded one
    duration and one success, and nothing else of the coordinator's. *)
Record success_recorded (w w' : World) : Prop := mkRecorded {
  recorded_enabled : metrics.enabled (_global_metrics w') = metrics.enabled (_global_metrics w);
  recorded_requests : requests w' = requests w;
  recorded_errors : errors w' = errors w;
  recorded_successes :
    successes w' = if metrics.enabled (_global_metrics w) then (successes w + 1)%Z
                   else successes w;
  recorded_durations :
    if metrics.enabled (_global_metrics w)
    then exists d, durations w' = durations w ++ [d]
    else durations w' = durations w;
  recorded_session : self_session_id w' = self_session_id w
}.

(** [error_recorded w w']: the [except] block has recorded one error. *)
Record error_recorded (w w' : World) : Prop := mkErrorRecorded {
  error_enabled : metrics.enabled (_global_metrics w') = metrics.enabled (_global_metrics w);
  error_requests : requests w' = requests w;
  error_errors :
    errors w' = if metrics.enabled (_global_metrics w) then (errors w + 1)%Z else errors w;
  error_successes : successes w' = successes w;
  error_durations : durations w' = durations w;
  error_session : self_session_id w' = self_session_id w
}.

(** [request_recorded w w']: the entry of [analyze] has counted the request. *)
Record request_recorded (w w' : World) : Prop := mkRequestRecorded {
  request_enabled : metrics.enabled (_global_metrics w') = metrics.enabled (_global_metrics w);
  request_requests :
    requests w' = if metrics.enabled (_global_metrics w) then (requests w + 1)%Z
                  else requests w;
  request_errors : errors w' = errors w;
  request_successes : successes w' = successes w;
  request_durations : durations w' = durations w;
  request_session : self_session_id w' = self_session_id w
}.

(** Why steps 3 to 5 can end in an exception [e]: the analyst raised it,
    storing the insights of a successful analysis raised it (an error of
    the file system), the report generator raised it, or its [report]
    entry is not a dictionary. *)
Definition raise_reason (env : Env) (query : string) (workflow : dict)
    (data : option pyval) (e : exn) : Prop :=
  step3_value env query workflow data = Raises e \/
  exists ar,
    step3_value env query workflow data = Returns ar /\
    ((stores_insight ar = true /\ exists msg, e = Exception msg) \/
     step4_value env workflow ar = Raises e \/
     exists rr, step4_value env workflow ar = Returns rr /\ report_section rr = Raises e).

(** How the [try] block of [analyze], started in world [w0], can end: at
    its end, in the early [return] of step 2, or in an exception, which
    the planning call, the loading or one of the later steps has raised. *)
Inductive try_end (env : Env) (query : string) (data_file : option string) (w0 : World)
  : behaviour dict -> World -> Prop :=
| try_finished workflow data ar rr sec wc w' :
    coordinator._plan_workflow env query data_file = Returns workflow ->
    step2_value env workflow data_file = Returns (GoesOn data) ->
    step3_value env query workflow data = Returns ar ->
    step4_value env workflow ar = Returns rr ->
    report_section rr = Returns sec ->
    quiet w0 wc -> scoped wc w' -> success_recorded wc w' ->
    try_end env query data_file w0
      (Returns (compiled_response query (self_session_id w0) workflow
                                  (analysis_section ar) sec
                                  (trace_at wc) (metrics_at (after_trace_summary wc))))
      w'
| try_load_failed workflow w' :
    coordinator._plan_workflow env query data_file = Returns workflow ->
    step2_value env workflow data_file = Returns LoadFailed ->
    quiet w0 w' ->
    try_end env query data_file w0 (Returns load_failure) w'
| try_plan_raised e w' :
    coordinator._plan_workflow env query data_file = Raises e ->
    quiet w0 w' ->
    try_end env query data_file w0 (Raises e) w'
| try_load_raised workflow e w' :
    coordinator._plan_workflow env query data_file = Returns workflow ->
    step2_value env workflow data_file = Raises e ->
    quiet w0 w' ->
    try_end env query data_file w0 (Raises e) w'
| try_raised workflow data e w' :
    coordinator._plan_workflow env query data_file = Returns workflow ->
    step2_value env workflow data_file = Returns (GoesOn data) ->
    raise_reason env query workflow data e ->
    quiet w0 w' ->
    try_end env query data_file w0 (Raises e) w'.

(** [civil b]: the call does not end in an exception outside
    [Exception]. *)
Definition civil {A} (b : behaviour A) : Prop :=
  forall msg, b <> Raises (BaseException msg).

(** An environment none of whose calls ends in such an exception: nobody
    interrupts the process, and no collaborator asks it to exit. *)
Record uninterrupted (env : Env) : Prop := mkUninterrupted {
  civil_model : civil (generate_content env);
  civil_csv : forall p, civil (load_csv env p);
  civil_json : forall p, civil (load_json env p);
  civil_frame : forall d, civil (DataFrame env d);
  civil_analyst : forall data query,
    civil (analysis_outcome (data_analyst env) data query);
  civil_reports : forall title analysis_results,
    civil (report_outcome (report_generator env) title analysis_results)
}.

(** ** Environments of the examples *)

(** An environment in which the planning call answers, no file can be
    read, and the two collaborators are the given ones. *)
Definition env_with (a : DataAnalyst) (g : ReportGenerator) : Env :=
  mkEnv (Returns "plan")
        (fun _ => Returns [("success", VBool false); ("error", VStr "File not found")])
        (fun _ => Returns [("success", VBool false); ("error", VStr "File not found")])
        (fun d => Returns d)
        a g
        (fun _ => "response").

(** The repository's analyst whose model call fails. *)
Definition failing_analyst : DataAnalyst :=
  DataAnalystAgent (fun _ _ => Raises "model unavailable").

(** A stand-in analyst that throws. *)
Definition throwing_analyst : DataAnalyst := AnalystDouble (Raises "boom").

(** A stand-in analyst during whose call the user presses Ctrl-C. *)
Definition interrupted_analyst : DataAnalyst :=
  AnalystDouble (Raises (BaseException "KeyboardInterrupt")).

(** A stand-in report generator that returns
    [{success: True, report: {filepath: "x.md"}}]. *)
Definition reporting_double : ReportGenerator :=
  ReportDouble (Returns [("success", VBool true);
                         ("report", VDict [("filepath", VStr "x.md")])]).

(** ** Further vocabulary and examples *)

(** The order of the keys of a sort. *)
Definition key_le {A} (k : A -> Z) (x y : A) : Prop := (k x <= k y)%Z.

(** The two entries of the search example of the specification. *)
Definition two_entries : memory_bank.MemoryBank :=
memory_bank.mkBank "data/memory_bank.json"
       [("k1", memory_bank.mkEntry "k1" "sales up" "insight" 1 []);
        ("k2", memory_bank.mkEntry "k2" "likes sales" "preference" 2 [])].

(** A collector that has counted one request. *)
Definition one_request : metrics.MetricsCollector :=
metrics.increment (metrics.new true) "coordinator.analysis_requests" 1 None 0.

(** An outer span with two inner ones, the second of which wraps an
  operation that raises. *)
Definition nested_example : stmt :=
Span "outer" None
     (Seq (Span "first" None Pass)
          (TryExcept (Span "second" None (Raise "boom")) Pass)).

(** The names under which the agents count are not the coordinator's. *)
Definition foreign (nm : string) : Prop :=
nm <> "coordinator.analysis_requests" /\
nm <> "coordinator.analysis_success" /\
nm <> "coordinator.analysis_errors".
(* ===================================================================== *)
(** * Further vocabulary: what the stores keep *)
(* ===================================================================== *)

(** The history of a session is the deque of the default factory, within
    its capacity. *)
Definition session_ok (s : session_manager.Session) : Prop :=
  Deque.maxlen (session_manager.messages s) = Some session_manager.capacity /\
  length (Deque.elems (session_manager.messages s)) <= session_manager.capacity.

(** What holds of the store of a manager: it is a dictionary (no key
    twice), every session is filed under its own id, and every history is
    within its capacity. *)
Record manager_ok (m : session_manager.SessionManager) : Prop := mkManagerOk {
  ok_keys : NoDup (PyDict.keys (session_manager.sessions m));
  ok_ids : Forall (fun kv => session_manager.id (snd kv) = fst kv)
                  (session_manager.sessions m);
  ok_histories : Forall (fun kv => session_ok (snd kv)) (session_manager.sessions m)
}.

(** What holds of the mapping of a memory bank that [store] has built: it
    is a dictionary, and every entry is filed under its own key. *)
Record bank_ok (b : memory_bank.MemoryBank) : Prop := mkBankOk {
  bank_keys : NoDup (PyDict.keys (memory_bank.memories b));
  bank_ids : Forall (fun kv => memory_bank.key (snd kv) = fst kv) (memory_bank.memories b)
}.

(** [v == user_id] for a string [user_id]: only the same string is equal
    to it. *)
Definition eq_str (s : string) (v : pyval) : bool :=
  match v with
  | VStr s' => String.eqb s' s
  | _ => false
  end.

(** The condition of the loop of [get_user_preferences]. *)
Definition is_preference_of (user_id : string) (entry : memory_bank.MemoryEntry) : bool :=
  String.eqb (memory_bank.category entry) "preference"
  && match PyDict.get "user_id" (memory_bank.metadata entry) with
     | Some u => eq_str user_id u
     | None => false
     end.

(** The entries of category [insight], in the order of the mapping. *)
Definition insights (b : memory_bank.MemoryBank) : list memory_bank.MemoryEntry :=
  List.filter (fun entry => String.eqb (memory_bank.category entry) "insight")
              (PyDict.values (memory_bank.memories b)).

(** The dictionary [get_memory_insights] makes of an entry;
    [timestamp.isoformat()] is the rendering of the clock reading. *)
Definition insight_record (entry : memory_bank.MemoryEntry) : dict :=
  [("key", VStr (memory_bank.key entry));
   ("value", VStr (memory_bank.value entry));
   ("timestamp", VTime (memory_bank.timestamp entry))].

(** [CoordinatorAgent.get_memory_insights] on the coordinator's bank;
    [str_lower] is [str.lower], which [search] has no use for here. *)
Definition get_memory_insights (str_lower : string -> string)
    (b : memory_bank.MemoryBank) (limit : Z) : list dict :=
  let insights := memory_bank.search str_lower b (Some "insight") None in
  map (fun entry => [("key", VStr (memory_bank.key entry));
                     ("value", VStr (memory_bank.value entry));
                     ("timestamp", VTime (memory_bank.timestamp entry))])
      (slice_from (- limit) insights).

(** One call [collector.increment(name, value, tags)] together with the
    clock reading that stamps its record. *)
Record Increment := mkIncrement {
  inc_name : string;
  inc_value : Z;
  inc_tags : option dict;
  inc_now : Z
}.

(** A sequence of [increment] calls on one collector. *)
Definition increments (c : metrics.MetricsCollector) (calls : list Increment)
  : metrics.MetricsCollector :=
  fold_left (fun c i => metrics.increment c (inc_name i) (inc_value i) (inc_tags i) (inc_now i))
            calls c.

(** The sum of the values the calls give for one name. *)
Definition total_of (nm : string) (calls : list Increment) : Z :=
  foldr (fun i acc => if String.eqb (inc_name i) nm then (inc_value i + acc)%Z else acc)
        0%Z calls.

(** [int(value)] of a float: the fraction is cut off. *)
Definition py_int (q : Q) : Z := Z.quot (Qnum q) (Z.pos (Qden q)).

(** [collect_metric(name, value, metric_type, tags)], on the global
    collector; the methods it calls read the clock for their record when
    the collector is enabled. *)
Definition collect_metric (nm : string) (v : Q) (metric_type : string)
    (tg : option dict) : M unit := fun w =>
  if negb (metrics.enabled (_global_metrics w)) then (Returns tt, w)
  else
    let '(now, w1) := read_clock w in
    let c := _global_metrics w1 in
    (Returns tt,
     set_metrics w1
       (if String.eqb metric_type "counter" then metrics.increment c nm (py_int v) tg now
        else if String.eqb metric_type "timer" then metrics.record_timing c nm v tg now
        else metrics.gauge c nm v tg now)).

(** [keeps p w w']: the part [p] of the process state is in [w'] what it
    was in [w]. *)
Definition keeps {X} (p : World -> X) : relation World := fun w w' => p w' = p w.

(** The coordinator's hold on its session: the store and the id. *)
Definition session_state (w : World) : session_manager.SessionManager * string :=
  (self_session_manager w, self_session_id w).

(** The memory bank with the file system under it. *)
Definition memory_state (w : World) : memory_bank.MemoryBank * memory_bank.Storage :=
  (self_memory_bank w, storage w).

(** [said r c w w']: between [w] and [w'] one message of role [r] and
    content [c] went to the coordinator's session (to no session, if the
    store does not know the coordinator's id), and nothing else happened
    to the store. *)
Definition said (r c : string) (w w' : World) : Prop :=
  self_session_id w' = self_session_id w /\
  exists now,
    self_session_manager w'
    = session_manager.update_session (self_session_manager w) (self_session_id w)
                                     r c None now.

(** The metadata [analyze] files an insight with. *)
Definition insight_metadata (query sid : string) : dict :=
  [("query", VStr query); ("session_id", VStr sid)].

(** A process like [world0] whose coordinator has its session in the
    store. *)
Definition world1 : World :=
  set_session_manager world0
    (session_manager.mkManager
       [("session-0", session_manager.new_session "session-0" "demo_user" [] 0)] 1000).

(** The repository's analyst whose model call answers. *)
Definition answering_analyst : DataAnalyst :=
  DataAnalystAgent (fun _ _ => Returns ("sales rose", VDict [], VList [VInt 0; VInt 0])).

(** Code that leaves the coordinator's sessions, or its memory, alone. *)
Definition sessions_kept : relation World := keeps session_state.
Definition memory_kept : relation World := keeps memory_state.

(** [stored_by query ar w w' res]: the insight of the results [ar] went to
    the memory bank of state [w], which is the bank of [w']; and when the
    bank raised, so does [res]. *)
Definition stored_by (query : string) (ar : dict) (w w' : World) (res : behaviour dict)
  : Prop :=
  exists now_key now_entry,
    let '(r, b, st) :=
      memory_bank.store_insight (self_memory_bank w)
        (coordinator.text_of (get_or_none "insights" ar))
        (Some (insight_metadata query (self_session_id w)))
        now_key now_entry (storage w) in
    memory_state w' = (b, st) /\
    forall e, r = Raises e -> res = Raises e.

(** A process like [world0] on a file system that lets no directory be
    made. *)
Definition world_readonly : World :=
  set_memory world0 (memory_bank.mkBank "data/memory_bank.json" [])
             (memory_bank.mkStorage None [] (Some "Permission denied") None None).

(** The counter of a name in the global collector. *)
Definition count (nm : string) (w : World) : Z :=
  metrics.counter (_global_metrics w) nm.

(** [trace_execution(name, metadata)(func)], the decorated function: the
    call runs inside a span of the global tracer. *)
Definition trace_execution {A B} (nm : string) (md : option dict) (func : A -> M B)
  : A -> M B :=
  fun args => with_span nm md (func args).

(* ===================================================================== *)
(** * More of the coordinator ([coordinator.py]) *)
(* ===================================================================== *)

Definition set_session (w : World) (m : session_manager.SessionManager) (sid : string)
  : World :=
  mkWorld (clock w) (ticks w) (_global_tracer w) (_global_metrics w)
          m sid (self_memory_bank w) (storage w).

(** [self.session_manager = m; self.session = session] *)
Definition set_self_session (m : session_manager.SessionManager)
    (session : session_manager.Session) : M unit := fun w =>
  (Returns tt, set_session w m (session_manager.id session)).

(** [self.memory_bank = MemoryBank()]: [load] gives, for the storage as
    it is, the bank that [_load_memories] fills and the storage afterwards
    (a failed load prints a line). *)
Definition set_self_memory_bank
    (load : memory_bank.Storage -> memory_bank.MemoryBank * memory_bank.Storage)
  : M unit := fun w =>
  let '(bank, st) := load (storage w) in
  (Returns tt, set_memory w bank st).

(** [CoordinatorAgent.__init__].  [GEMINI_API_KEY] is what [os.getenv]
    gives, [configure] the outcome of [genai.configure], [uuid4] the id a
    new session gets, [load] the work of [MemoryBank()], and
    [collaborators] the outcome of making the two agents, the loader and
    the model. *)
Definition __init__ (session_id user_id api_key : option string)
    (GEMINI_API_KEY : option string) (configure : behaviour unit) (uuid4 : string)
    (load : memory_bank.Storage -> memory_bank.MemoryBank * memory_bank.Storage)
    (collaborators : behaviour unit) : M unit :=
  (* [api_key or os.getenv("GEMINI_API_KEY")] *)
  let self_api_key := if memory_bank.given api_key then api_key else GEMINI_API_KEY in
  if negb (memory_bank.given self_api_key)
  then raise "GEMINI_API_KEY not found in environment variables"
  else
    lift configure ;;
    let manager := session_manager.new_manager 1000 in
    (if memory_bank.given session_id then
       match session_manager.get_session manager (memory_bank.arg session_id) with
       | Some session => set_self_session manager session
       | None => raise ("Session " +:+ memory_bank.arg session_id +:+ " not found")
       end
     else
       now ← time_now;
       match session_manager.create_session manager uuid4
               (if memory_bank.given user_id then memory_bank.arg user_id
                else "default_user")
               None now with
       | Some (session, manager') => set_self_session manager' session
       | None => raise "KeyError"
       end) ;;
    set_self_memory_bank load ;;
    lift collaborators ;;
    metrics_increment "coordinator.initializations".

(** [CoordinatorAgent.get_session_context], of the session object the
    coordinator holds. *)
Definition get_session_context (session : session_manager.Session) : dict :=
  [("session_id", VStr (session_manager.id session));
   ("user_id", VStr (session_manager.user_id session));
   ("message_count",
    VInt (Z.of_nat (length (Deque.elems (session_manager.messages session)))));
   ("context", VList (map VDict (session_manager.get_context session 20)))].

(* ===================================================================== *)
(** * The statistics tool ([tools/statistical.py]) *)
(* ===================================================================== *)

Module statistical.

(** A [pandas.DataFrame] as [group_by_analysis] sees it: the labels of
    its columns, and what
    [data.groupby(group_by)[agg_column].agg(func).to_dict()] gives or
    raises. *)
Record DataFrame := mkDataFrame {
  columns : list string;
  groupby_agg : string -> string -> string -> behaviour pyval
}.

(** [label in data.columns] *)
Definition has_column (label : string) (data : DataFrame) : bool :=
  existsb (String.eqb label) (columns data).

Definition agg_func_map : PyDict.t string :=
  [("sum", "sum"); ("mean", "mean"); ("count", "count"); ("max", "max"); ("min", "min")].

(** [StatisticalAnalysisTool.group_by_analysis] *)
Definition group_by_analysis (data : DataFrame) (group_by agg_column agg_func : string)
  : behaviour dict :=
  except_Exception
    (if negb (has_column group_by data) || negb (has_column agg_column data) then
       mret [("success", VBool false); ("error", VStr "Required columns not found")]
     else
       let func := match PyDict.get (lower agg_func) agg_func_map with
                   | Some f => f
                   | None => "sum"
                   end in
       results ← groupby_agg data group_by agg_column func;
       mret [("success", VBool true);
             ("results", results);
             ("group_by", VStr group_by);
             ("aggregation", VStr agg_func)])
    (fun e => mret [("success", VBool false); ("error", VStr e)]).

End statistical.

(** The names of the aggregations [group_by_analysis] knows. *)
Definition aggregations : list string := ["sum"; "mean"; "count"; "max"; "min"].

(* ===================================================================== *)
(** * The report formatter ([tools/report_formatter.py]) *)
(* ===================================================================== *)

(** The line feed, [chr(10)]. *)
Definition LF : ascii := ascii_of_nat 10.
Definition nl : string := String LF "".

(** The double quote. *)
Definition dq : string := String (ascii_of_nat 34) "".

(** [s.replace(old, new)] for a pattern [old] of one character. *)
Fixpoint replace_char (old : ascii) (new : string) (s : string) : string :=
  match s with
  | EmptyString => EmptyString
  | String c s' =>
      if Ascii.eqb c old then new +:+ replace_char old new s'
      else String c (replace_char old new s')
  end.

(** ['#' * n] *)
Fixpoint hashes (n : nat) : string :=
  match n with
  | O => ""
  | S n' => String "#" (hashes n')
  end.

Module report_formatter.

(** The file system as [save_report] meets it: [path_str name] is
    [str(self.output_dir / name)]; [open_error path] is the error that
    [open(path, 'w')] raises, if any; [write_error path] the error that
    [f.write] raises, if any, with the part of the text that has reached
    the file by then; [written] lists the files opened for writing so
    far, each with what it was left holding (the last entry of a path is
    the file as it is). *)
Record Files := mkFiles {
  path_str : string -> string;
  open_error : string -> option string;
  write_error : string -> option (string * string);
  written : list (string * string)
}.

Definition write (fs : Files) (path content : string) : Files :=
  mkFiles (path_str fs) (open_error fs) (write_error fs) (written fs ++ [(path, content)]).

Section Formatter.
(** [str(v)], as an f-string formats a value, and [str.lower]. *)
Variable str_of : pyval -> string.
Variable str_lower : string -> string.

(** [section.get(k, default)], for a section that need not be a dictionary. *)
Definition section_get (k : string) (default : pyval) (section : pyval) : behaviour pyval :=
  match section with
  | VDict d => Returns (match PyDict.get k d with Some v => v | None => default end)
  | _ => Raises (Exception (no_attribute section "get"))
  end.

(** ['#' * level]: a sequence is multiplied by an [int] ([bool] is one),
    and by nothing else. *)
Definition times_hash (level : pyval) : behaviour string :=
  match level with
  | VInt n => Returns (hashes (Z.to_nat n))
  | VBool b => Returns (if b then "#" else "")
  | _ => Raises (Exception ("can't multiply sequence by non-int of type '"
                            +:+ type_name level +:+ "'"))
  end.

(** The three reads at the head of the loop over the sections. *)
Definition section_fields (section : pyval) : behaviour (pyval * pyval * pyval) :=
  match section_get "heading" (VStr "") section with
  | Raises e => Raises e
  | Returns heading =>
      match section_get "content" (VStr "") section with
      | Raises e => Raises e
      | Returns content =>
          match section_get "level" (VInt 2) section with
          | Raises e => Raises e
          | Returns level => Returns (heading, content, level)
          end
      end
  end.

(** The [**Generated:**] line is written for a non-empty [metadata];
    [stamp] is the default, [datetime.now().strftime(..)]. *)
Definition timestamp_of (metadata : option dict) (stamp : string) : option pyval :=
  match metadata with
  | Some ((_ :: _) as d) =>
      Some (match PyDict.get "timestamp" d with Some v => v | None => VStr stamp end)
  | _ => None
  end.

(** The loop of [format_markdown]. *)
Fixpoint markdown_sections (sections : list pyval) (md : string) : behaviour string :=
  match sections with
  | [] => Returns md
  | section :: rest =>
      match section_fields section with
      | Raises e => Raises e
      | Returns (heading, content, level) =>
          match times_hash level with
          | Raises e => Raises e
          | Returns h =>
              markdown_sections rest
                (md +:+ h +:+ " " +:+ str_of heading +:+ nl +:+ nl
                    +:+ str_of content +:+ nl +:+ nl)
          end
      end
  end.

(** [ReportFormatterTool.format_markdown] *)
Definition format_markdown (title : string) (sections : list pyval)
    (metadata : option dict) (stamp : string) : behaviour string :=
  let md := "# " +:+ title +:+ nl +:+ nl in
  let md := match timestamp_of metadata stamp with
            | Some t => md +:+ "**Generated:** " +:+ str_of t +:+ nl +:+ nl
            | None => md
            end in
  markdown_sections sections md.

(** [content.replace(chr(10), "<br>")]: only a string has [replace]. *)
Definition with_breaks (content : pyval) : behaviour string :=
  match content with
  | VStr s => Returns (replace_char LF "<br>" s)
  | VTime _ => Returns (replace_char LF "<br>" (str_of content))
  | _ => Raises (Exception (no_attribute content "replace"))
  end.

(** The loop of [format_html]. *)
Fixpoint html_sections (sections : list pyval) (html : string) : behaviour string :=
  match sections with
  | [] => Returns html
  | section :: rest =>
      match section_fields section with
      | Raises e => Raises e
      | Returns (heading, content, level) =>
          match with_breaks content with
          | Raises e => Raises e
          | Returns paragraph =>
              html_sections rest
                (html +:+ "    <div class=" +:+ dq +:+ "section" +:+ dq +:+ ">" +:+ nl
                      +:+ "        <h" +:+ str_of level +:+ ">" +:+ str_of heading
                      +:+ "</h" +:+ str_of level +:+ ">" +:+ nl
                      +:+ "        <p>" +:+ paragraph +:+ "</p>" +:+ nl
                      +:+ "    </div>" +:+ nl)
          end
      end
  end.

(** The head of the page, up to the title line of the body. *)
Definition html_head (title : string) : string :=
  "<!DOCTYPE html>" +:+ nl +:+
  "<html>" +:+ nl +:+
  "<head>" +:+ nl +:+
  "    <title>" +:+ title +:+ "</title>" +:+ nl +:+
  "    <style>" +:+ nl +:+
  "        body { font-family: Arial, sans-serif; margin: 40px; }" +:+ nl +:+
  "        h1 { color: #333; }" +:+ nl +:+
  "        h2 { color: #666; margin-top: 30px; }" +:+ nl +:+
  "        .metadata { color: #888; font-size: 0.9em; }" +:+ nl +:+
  "        .section { margin-bottom: 20px; }" +:+ nl +:+
  "    </style>" +:+ nl +:+
  "</head>" +:+ nl +:+
  "<body>" +:+ nl +:+
  "    <h1>" +:+ title +:+ "</h1>" +:+ nl.

(** [ReportFormatterTool.format_html] *)
Definition format_html (title : string) (sections : list pyval)
    (metadata : option dict) (stamp : string) : behaviour string :=
  let html := html_head title in
  let html := match timestamp_of metadata stamp with
              | Some t =>
                  html +:+ "    <div class=" +:+ dq +:+ "metadata" +:+ dq
                       +:+ ">Generated: " +:+ str_of t +:+ "</div>" +:+ nl
              | None => html
              end in
  match html_sections sections html with
  | Returns html => Returns (html +:+ "</body>" +:+ nl +:+ "</html>")
  | Raises e => Raises e
  end.

(** [ReportFormatterTool.save_report]: the error of [open] or of
    [f.write] comes back as a failure; when [f.write] raises, the file has
    been opened with mode ['w'] already and keeps what has reached it. *)
Definition save_report (content filename format : string) (fs : Files) : dict * Files :=
  let suffix := if String.eqb format "markdown" then Some ".md"
                else if String.eqb format "html" then Some ".html"
                else None in
  match suffix with
  | None =>
      ([("success", VBool false); ("error", VStr ("Unsupported format: " +:+ format))], fs)
  | Some ext =>
      let filepath := path_str fs (filename +:+ ext) in
      match open_error fs filepath with
      | Some e => ([("success", VBool false); ("error", VStr e)], fs)
      | None =>
          match write_error fs filepath with
          | Some (e, part) =>
              ([("success", VBool false); ("error", VStr e)], write fs filepath part)
          | None =>
              ([("success", VBool true); ("filepath", VStr filepath);
                ("format", VStr format)],
               write fs filepath content)
          end
      end
  end.

(** [ReportFormatterTool.create_report]; nothing here catches what the
    formatting raises. *)
Definition create_report (title : string) (sections : list pyval) (format : string)
    (save : bool) (stamp : string) (fs : Files) : behaviour dict * Files :=
  let metadata := Some [("timestamp", VStr stamp)] in
  let formatted :=
    if String.eqb format "markdown" then Some (format_markdown title sections metadata stamp)
    else if String.eqb format "html" then Some (format_html title sections metadata stamp)
    else None in
  match formatted with
  | None =>
      (Returns [("success", VBool false);
                ("error", VStr ("Unsupported format: " +:+ format))], fs)
  | Some (Raises e) => (Raises e, fs)
  | Some (Returns content) =>
      let result := [("success", VBool true);
                     ("content", VStr content);
                     ("format", VStr format)] in
      if save then
        let filename := replace_char " " "_" (str_lower title) in
        let '(save_result, fs') := save_report content filename format fs in
        (Returns (PyDict.set "filepath" (get_or_none "filepath" save_result) result), fs')
      else (Returns result, fs)
  end.
End Formatter.

End report_formatter.

(* ===================================================================== *)
(** * Further vocabulary: the spans of a request *)
(* ===================================================================== *)

(** One complete [with tracer.span(nm, md):] statement around code that
    does not use the tracer: the clock read at its start and at its end. *)
Record SpanCall := mkSpanCall {
  span_nm : string;
  span_md : option dict;
  span_start : Z;
  span_stop : Z
}.

(** What such a statement does to the tracer. *)
Definition spanned (t : tracer.Tracer) (c : SpanCall) : tracer.Tracer :=
  let '(t1, r) := tracer.span_enter t (span_nm c) (span_md c) (span_start c) in
  snd (tracer.span_exit t1 r (span_stop c)).

(** [traced names w w']: between [w] and [w'] the tracer has seen such
    statements, with these names in this order, and nothing else. *)
Definition traced (names : list string) (w w' : World) : Prop :=
  exists calls,
    span_nm <$> calls = names /\
    _global_tracer w' = fold_left spanned calls (_global_tracer w).

(** Code that leaves the tracer alone. *)
Definition tracer_kept : relation World := keeps _global_tracer.

(** The steps of a request with plan [workflow] that run inside a span of
    their own, for the agents of the repository. *)
Definition steps_traced (workflow : dict) (data_file : option string) : list string :=
  (if needs_load workflow data_file then ["data_loading"] else [])
  ++ ["data_analysis"]
  ++ (if truthy_get "generate_report" workflow then ["report_generation"] else []).

(** The name in the summary of a span. *)
Definition span_name (summary : pyval) : option pyval :=
  match summary with
  | VDict d => PyDict.get "name" d
  | _ => None
  end.

(** The children in the summary of a span. *)
Definition span_children (summary : pyval) : option pyval :=
  match summary with
  | VDict d => PyDict.get "children" d
  | _ => None
  end.
(** * Bounded deques *)
Section DequeFacts.
Context {A : Type}.
Implicit Types (d : Deque.t A) (x : A) (xs : list A).

Lemma deque_append_maxlen x d : Deque.maxlen (Deque.append x d) = Deque.maxlen d.
Proof.
  unfold Deque.append. destruct (Deque.maxlen d) as [m|]; [|done].
  by destruct (_ <? _)%nat.
Qed.

Lemma deque_append_elems x d m :
  Deque.maxlen d = Some m -> length (Deque.elems d) <= m ->
  Deque.elems (Deque.append x d)
  = drop (length (Deque.elems d) + 1 - m) (Deque.elems d ++ [x]).
Proof.
  intros Hm Hlen. unfold Deque.append. rewrite Hm, length_app. simpl.
  destruct (Nat.ltb_spec m (length (Deque.elems d) + 1)) as [Hlt|Hge]; simpl.
  - replace (length (Deque.elems d) + 1 - m) with 1 by lia.
    by destruct (Deque.elems d ++ [x]).
  - by replace (length (Deque.elems d) + 1 - m) with 0 by lia.
Qed.

Lemma deque_append_length x d m :
  Deque.maxlen d = Some m -> length (Deque.elems d) <= m ->
  length (Deque.elems (Deque.append x d)) = Nat.min m (length (Deque.elems d) + 1).
Proof.
  intros Hm Hlen. rewrite (deque_append_elems x d m Hm Hlen).
  rewrite length_drop, length_app. simpl. lia.
Qed.

(** Appending [xs] one by one leaves the last [m] items of the whole
    sequence. *)
Lemma deque_extend_elems xs : forall d m,
  Deque.maxlen d = Some m -> length (Deque.elems d) <= m ->
  Deque.elems (Deque.extend xs d)
  = drop (length (Deque.elems d) + length xs - m) (Deque.elems d ++ xs).
Proof.
  induction xs as [|x xs IH]; intros d m Hm Hlen; simpl.
  - rewrite app_nil_r. by replace (length (Deque.elems d) + 0 - m) with 0 by lia.
  - unfold Deque.extend in *. simpl.
    rewrite (IH (Deque.append x d) m).
    + rewrite (deque_append_length x d m Hm Hlen).
      rewrite (deque_append_elems x d m Hm Hlen).
      destruct (decide (length (Deque.elems d) + 1 <= m)) as [Hle|Hgt].
      * replace (length (Deque.elems d) + 1 - m) with 0 by lia. simpl.
        rewrite drop_0, <- app_assoc. simpl. f_equal. lia.
      * replace (length (Deque.elems d) + 1 - m) with 1 by lia.
        rewrite (cons_middle x (Deque.elems d) xs), (app_assoc (Deque.elems d) [x] xs).
        rewrite <- (drop_app_le (Deque.elems d ++ [x]) xs 1)
          by (rewrite length_app; simpl; lia).
        rewrite drop_drop. f_equal. lia.
    + by rewrite deque_append_maxlen.
    + rewrite (deque_append_length x d m Hm Hlen). lia.
Qed.
End DequeFacts.

Section SessionFacts.
Import session_manager.

Lemma add_messages_extend calls : forall s,
  messages (add_messages s calls)
  = Deque.extend (map message_of calls) (messages s).
Proof.
  induction calls as [|c calls IH]; intros s; [done|].
  unfold add_messages in *. simpl. by rewrite IH.
Qed.

Lemma add_messages_app s calls1 calls2 :
  add_messages s (calls1 ++ calls2) = add_messages (add_messages s calls1) calls2.
Proof. unfold add_messages. apply fold_left_app. Qed.

(** A new session keeps the last 100 of the messages added to it. *)
Lemma add_messages_new sid uid md now calls :
  Deque.elems (messages (add_messages (new_session sid uid md now) calls))
  = drop (length calls - 100) (map message_of calls).
Proof.
  rewrite add_messages_extend.
  rewrite (deque_extend_elems _ _ 100) by (done || (simpl; lia)).
  simpl. by rewrite length_map.
Qed.

(** C4 (bounded history).  Take a session as [Session(..)] makes it, with
    [deque(maxlen=100)] for its messages, and whatever messages were added
    to it earlier.  After more than 100 further calls of [add_message] the
    session holds exactly 100 messages: the 100 last added, in the order
    of the calls.  [add_message] has no error branch: eviction is silent. *)
Theorem add_message_bounded_history sid uid md now (earlier calls : list AddMessage) :
  100 < length calls ->
  let s := add_messages (add_messages (new_session sid uid md now) earlier) calls in
  length (Deque.elems (messages s)) = 100 /\
  Deque.elems (messages s) = drop (length calls - 100) (map message_of calls).
Proof.
  intros HN s.
  assert (Hel : Deque.elems (messages s)
                = drop (length calls - 100) (map message_of calls)).
  { subst s. rewrite <- add_messages_app, add_messages_new.
    rewrite map_app, length_app.
    rewrite drop_app_ge by (rewrite length_map; lia).
    f_equal. rewrite length_map. lia. }
  split; [|exact Hel].
  rewrite Hel, length_drop, length_map. lia.
Qed.

Lemma add_message_bounded_history_witness :
  let calls := map (fun n => mkAddMessage "user" (pretty n) None (Z.of_nat n)) (seq 0 101) in
  let s := add_messages (new_session "s" "u" [] 0) calls in
  length (Deque.elems (messages s)) = 100 /\
  Deque.elems (messages s) = drop 1 (map message_of calls).
Proof.
  intros calls.
  apply (add_message_bounded_history "s" "u" [] 0 [] calls).
  vm_compute. lia.
Defined.

Lemma slice_from_neg {A} (n : nat) (l : list A) :
  0 < n -> slice_from (- Z.of_nat n) l = drop (length l - Nat.min n (length l)) l.
Proof.
  intros Hn. unfold slice_from.
  destruct (Z.ltb_spec (- Z.of_nat n) 0) as [_|]; [|lia].
  f_equal. lia.
Qed.

Lemma get_context_positive (s : Session) (n : nat) :
  0 < n ->
  get_context s (Z.of_nat n)
  = map context_entry
      (drop (length (Deque.elems (messages s))
             - Nat.min n (length (Deque.elems (messages s))))
            (Deque.elems (messages s))).
Proof. intros Hn. unfold get_context. by rewrite slice_from_neg. Qed.

(** C8, at [max_messages = 0].  [list(self.messages)[-0:]] is the whole
    list: [get_context(0)] returns every message of the session, not the
    [min(0, length) = 0] most recent ones.  ([get_context_positive] above
    is the claim for [max_messages >= 1].) *)
Theorem get_context_zero_returns_all (s : Session) :
  get_context s 0 = map context_entry (Deque.elems (messages s)).
Proof.
  unfold get_context, slice_from. simpl.
  by rewrite Z.min_l, drop_0 by lia.
Qed.

Lemma get_context_zero_not_empty :
  let s := add_message (new_session "s" "u" [] 0) "user" "hello" None 1 in
  get_context s 0 = [[("role", VStr "user"); ("content", VStr "hello")]].
Proof. reflexivity. Qed.
End SessionFacts.
(** * Dictionaries *)
Section DictFacts.
Context {V : Type}.
Implicit Types (d : list (string * V)) (k : string) (v : V).

Lemma dict_get_None k d : PyDict.get k d = None <-> k ∉ PyDict.keys d.
Proof.
  induction d as [|[k' v'] d IH]; simpl.
  - split; [intros _; apply not_elem_of_nil|done].
  - rewrite not_elem_of_cons. destruct (String.eqb_spec k k') as [->|Hne].
    + split; [done|]. by intros [? _].
    + rewrite IH. split; [by intros ?|by intros [_ ?]].
Qed.

(** Assigning to an absent key appends the pair. *)
Lemma dict_set_fresh k v d : k ∉ PyDict.keys d -> PyDict.set k v d = d ++ [(k, v)].
Proof.
  induction d as [|[k' v'] d IH]; simpl; [done|].
  rewrite not_elem_of_cons. intros [Hne Hnin].
  destruct (String.eqb_spec k k'); [done|]. by rewrite IH.
Qed.

Lemma dict_get_set_eq k v d : PyDict.get k (PyDict.set k v d) = Some v.
Proof.
  induction d as [|[k' v'] d IH]; simpl.
  - by rewrite String.eqb_refl.
  - destruct (String.eqb_spec k k') as [->|Hne]; simpl.
    + by rewrite String.eqb_refl.
    + destruct (String.eqb_spec k k'); [done|]. exact IH.
Qed.

Lemma dict_get_set_ne k k' v d :
  k <> k' -> PyDict.get k' (PyDict.set k v d) = PyDict.get k' d.
Proof.
  intros Hne. induction d as [|[k0 v0] d IH]; simpl.
  - destruct (String.eqb_spec k' k); [congruence|done].
  - destruct (String.eqb_spec k k0) as [->|Hne0]; simpl.
    + destruct (String.eqb_spec k' k0); [congruence|done].
    + destruct (String.eqb_spec k' k0); [done|]. exact IH.
Qed.

Lemma dict_get_app_fresh k v d :
  k ∉ PyDict.keys d -> PyDict.get k (d ++ [(k, v)]) = Some v.
Proof. intros Hk. rewrite <- dict_set_fresh by done. apply dict_get_set_eq. Qed.

Lemma dict_filter_key_absent k d :
  k ∉ PyDict.keys d -> filter (fun kv => fst kv <> k) d = d.
Proof.
  induction d as [|[k' v'] d IH]; [done|].
  cbn [PyDict.keys fmap list_fmap fst]. rewrite not_elem_of_cons. intros [Hne Hnin].
  rewrite filter_cons_True by (simpl; congruence). by rewrite IH.
Qed.

Lemma dict_filter_keys (P : string -> Prop) (Hdec : forall k, Decision (P k)) d :
  PyDict.keys (filter (fun kv => P (fst kv)) d) = filter P (PyDict.keys d).
Proof.
  unfold PyDict.keys. induction d as [|[k' v'] d IH]; [done|].
  rewrite filter_cons. cbn [fmap list_fmap fst]. rewrite filter_cons.
  destruct (decide (P k')); cbn [fmap list_fmap fst]; by rewrite IH.
Qed.

Lemma dict_filter_keys_ne k d :
  PyDict.keys (filter (fun kv => fst kv <> k) d) = filter (fun k' => k' <> k) (PyDict.keys d).
Proof. exact (dict_filter_keys (fun k' => k' <> k) _ d). Qed.

Lemma dict_filter_keys_notin (ks : list string) d :
  PyDict.keys (filter (fun kv => fst kv ∉ ks) d) = filter (fun k' => k' ∉ ks) (PyDict.keys d).
Proof. exact (dict_filter_keys (fun k' => k' ∉ ks) _ d). Qed.

(** Deleting a present key removes its pair and nothing else. *)
Lemma dict_del_present k d :
  NoDup (PyDict.keys d) -> k ∈ PyDict.keys d ->
  PyDict.del k d = Some (filter (fun kv => fst kv <> k) d).
Proof.
  induction d as [|[k' v'] d IH]; cbn [PyDict.keys fmap list_fmap fst PyDict.del].
  - by intros _ ?%elem_of_nil.
  - rewrite NoDup_cons, elem_of_cons. intros [Hnin Hnd] Hin.
    destruct (String.eqb_spec k k') as [->|Hne].
    + rewrite filter_cons_False by (simpl; auto).
      by rewrite dict_filter_key_absent.
    + destruct Hin as [?|Hin]; [done|].
      rewrite IH by done. by rewrite filter_cons_True by (simpl; congruence).
Qed.
End DictFacts.

(** * The stable sort *)
Section SortFacts.
Context {A : Type} (k : A -> Z).
Import session_manager.

Lemma insert_by_perm x l : insert_by k x l ≡ₚ x :: l.
Proof.
  induction l as [|y l IH]; simpl; [done|].
  destruct (k x <=? k y)%Z; [done|].
  rewrite IH. apply Permutation_swap.
Qed.

Lemma sorted_perm l : sorted k l ≡ₚ l.
Proof.
  induction l as [|x l IH]; simpl; [done|].
  unfold sorted in *. simpl. by rewrite insert_by_perm, IH.
Qed.

Lemma insert_by_sorted x l :
  StronglySorted (key_le k) l -> StronglySorted (key_le k) (insert_by k x l).
Proof.
  induction l as [|y l IH]; simpl; intros Hs.
  - repeat constructor.
  - apply StronglySorted_cons in Hs as [Hy Hs].
    destruct (Z.leb_spec (k x) (k y)) as [Hle|Hgt].
    + apply StronglySorted_cons. split.
      * constructor; [done|].
        eapply Forall_impl; [exact Hy|]. unfold key_le. intros; lia.
      * apply StronglySorted_cons. done.
    + apply StronglySorted_cons. split; [|auto].
      rewrite insert_by_perm. constructor; [unfold key_le; lia|done].
Qed.

Lemma sorted_sorted l : StronglySorted (key_le k) (sorted k l).
Proof.
  induction l as [|x l IH]; [constructor|].
  unfold sorted in *. simpl. by apply insert_by_sorted.
Qed.

(** Stability: items with the same key keep their order. *)
Lemma insert_by_stable x l z :
  filter (fun y => k y = z) (insert_by k x l) = filter (fun y => k y = z) (x :: l).
Proof.
  induction l as [|y l IH]; [done|]. cbn [insert_by].
  destruct (Z.leb_spec (k x) (k y)) as [Hle|Hgt]; [done|].
  rewrite filter_cons, IH, !filter_cons.
  destruct (decide (k y = z)), (decide (k x = z)); try done. lia.
Qed.

Lemma sorted_stable l z :
  filter (fun y => k y = z) (sorted k l) = filter (fun y => k y = z) l.
Proof.
  induction l as [|x l IH]; [done|].
  unfold sorted in *. cbn [fold_right]. rewrite insert_by_stable, !filter_cons.
  by rewrite IH.
Qed.

(** An item that is not older than any other and comes last stays last. *)
Lemma insert_by_before_last x l y :
  (k x <= k y)%Z -> insert_by k x (l ++ [y]) = insert_by k x l ++ [y].
Proof.
  intros Hle. induction l as [|z l IH]; simpl.
  - by destruct (Z.leb_spec (k x) (k y)); [|lia].
  - destruct (k x <=? k z)%Z; [done|]. by rewrite IH.
Qed.

Lemma sorted_snoc_max l y :
  Forall (fun x => k x <= k y)%Z l -> sorted k (l ++ [y]) = sorted k l ++ [y].
Proof.
  induction l as [|x l IH]; [done|].
  rewrite Forall_cons. intros [Hx Hl].
  unfold sorted in *. simpl. rewrite IH by done.
  by apply insert_by_before_last.
Qed.
End SortFacts.

(** * Session eviction *)
Section ManagerFacts.
Import session_manager.
Implicit Types (d victims : list (string * Session)).

Lemma filter_notin_nil {A} `{EqDecision B} (f : A -> B) (l : list A) :
  filter (fun x => f x ∉ @nil B) l = l.
Proof.
  induction l as [|x l IH]; [done|].
  rewrite filter_cons_True by apply not_elem_of_nil. by rewrite IH.
Qed.

Lemma del_all_cons v victims d :
  del_all (v :: victims) d
  = match PyDict.del (fst v) d with
    | Some d' => del_all victims d'
    | None => None
    end.
Proof.
  unfold del_all. cbn [fold_left]. destruct (PyDict.del (fst v) d); [done|].
  induction victims as [|? ? IH]; [done|exact IH].
Qed.

(** The loop of [_cleanup_old_sessions] never meets a missing key and
    removes exactly the victims. *)
Lemma del_all_present victims : forall d,
  NoDup (PyDict.keys d) -> NoDup (PyDict.keys victims) ->
  PyDict.keys victims ⊆ PyDict.keys d ->
  del_all victims d = Some (filter (fun kv => fst kv ∉ PyDict.keys victims) d).
Proof.
  induction victims as [|[k s] victims IH]; intros d Hd Hv Hsub.
  - unfold del_all. simpl. f_equal. symmetry. apply (filter_notin_nil fst).
  - cbn [PyDict.keys fmap list_fmap fst] in Hv, Hsub.
    apply NoDup_cons in Hv as [Hk Hv].
    assert (Hkd : k ∈ PyDict.keys d) by (apply Hsub, list_elem_of_here).
    rewrite del_all_cons. cbn [fst]. rewrite (dict_del_present k d Hd Hkd).
    rewrite IH.
    + f_equal. rewrite list_filter_filter. apply list_filter_iff.
      intros [k' s']. cbn [PyDict.keys fmap list_fmap fst].
      rewrite not_elem_of_cons. tauto.
    + rewrite dict_filter_keys_ne. by apply NoDup_filter.
    + done.
    + intros k' Hk'. rewrite dict_filter_keys_ne.
      apply list_elem_of_filter. split.
      * intros ->. done.
      * apply Hsub. by apply list_elem_of_further.
Qed.

Lemma filter_notin_length {B} `{EqDecision B} (l vs : list B) :
  NoDup l -> NoDup vs -> vs ⊆ l ->
  length (filter (fun x => x ∉ vs) l) + length vs = length l.
Proof.
  intros Hl Hvs Hsub.
  rewrite <- (Permutation_length (filter_app_complement (fun x => x ∉ vs) l)).
  rewrite length_app. f_equal.
  apply Permutation_length, NoDup_Permutation; [|by apply NoDup_filter|]; [done|].
  intros x. rewrite list_elem_of_filter. split.
  - intros Hx. split; [tauto|by apply Hsub].
  - intros [Hx _]. by destruct (decide (x ∈ vs)).
Qed.

Lemma dict_filter_length d (ks : list string) :
  NoDup (PyDict.keys d) -> NoDup ks -> ks ⊆ PyDict.keys d ->
  length (filter (fun kv => fst kv ∉ ks) d) + length ks = length d.
Proof.
  intros Hd Hks Hsub.
  rewrite <- (length_fmap fst (filter _ d)).
  change (fst <$> filter (fun kv => fst kv ∉ ks) d)
    with (PyDict.keys (filter (fun kv => fst kv ∉ ks) d)).
  rewrite dict_filter_keys_notin.
  rewrite (filter_notin_length _ _ Hd Hks Hsub).
  unfold PyDict.keys. by rewrite length_fmap.
Qed.

Lemma dict_get_filter (P : string -> Prop) (Hdec : forall k, Decision (P k)) d k :
  P k -> PyDict.get k (filter (fun kv => P (fst kv)) d) = PyDict.get k d.
Proof.
  intros HP. induction d as [|[k' s'] d IH]; [done|].
  rewrite filter_cons. cbn [fst]. destruct (decide (P k')) as [HP'|HP'].
  - cbn [PyDict.get]. by rewrite IH.
  - cbn [PyDict.get]. destruct (String.eqb_spec k k'); [congruence|done].
Qed.
End ManagerFacts.

Section CreateSession.
Import session_manager.

Lemma slice_to_take {A} (stop : Z) (l : list A) :
  (0 <= stop)%Z -> slice_to stop l = take (Z.to_nat stop) l.
Proof.
  intros Hstop. unfold slice_to.
  destruct (Z.ltb_spec stop 0) as [|_]; [lia|].
  destruct (Z.le_ge_cases stop (Z.of_nat (length l))) as [Hle|Hge].
  - by rewrite Z.min_l by done.
  - rewrite Z.min_r, Nat2Z.id by done. rewrite !take_ge; [done|lia|lia].
Qed.

(** C3 (session eviction), for [max_sessions >= 1].  [create_session]
    with a fresh id, at a clock reading not earlier than the creation times
    in the store, returns the new session and leaves a store that
    - holds at most [max_sessions] sessions,
    - is the old store with the new session appended, minus the [evicted]
      ones, which are exactly the [surplus] first sessions of the stable
      sort by creation time: none of them was created after a session that
      is kept,
    - still holds the new session. *)
Theorem create_session_evicts_oldest
    (m : SessionManager) (sid uid : string) (md : option dict) (now : Z) :
  NoDup (PyDict.keys (sessions m)) ->
  sid ∉ PyDict.keys (sessions m) ->
  (1 <= max_sessions m)%Z ->
  Forall (fun kv => (created_at (snd kv) <= now)%Z) (sessions m) ->
  let session := new_session sid uid (or_empty md) now in
  let stored := sessions m ++ [(sid, session)] in
  let surplus := Z.to_nat (Z.of_nat (length stored) - max_sessions m) in
  let evicted := take surplus (sorted by_created_at stored) in
  exists m',
    create_session m sid uid md now = Some (session, m') /\
    max_sessions m' = max_sessions m /\
    (Z.of_nat (length (sessions m')) <= max_sessions m)%Z /\
    sessions m' = filter (fun kv => fst kv ∉ PyDict.keys evicted) stored /\
    length evicted = surplus /\
    length (sessions m') = length stored - surplus /\
    (forall e kv, e ∈ evicted -> kv ∈ sessions m' ->
                  (created_at (snd e) <= created_at (snd kv))%Z) /\
    get_session m' sid = Some session.
Proof.
  intros Hnd Hfresh Hmax Hclock session stored surplus evicted.
  set (d := sessions m) in *.
  assert (Hlen : length stored = S (length d)).
  { unfold stored. rewrite length_app. simpl. lia. }
  assert (Hsurplus : surplus <= length d) by (unfold surplus; lia).
  assert (Hsorted : sorted by_created_at stored = sorted by_created_at d ++ [(sid, session)]).
  { unfold stored. apply sorted_snoc_max.
    eapply Forall_impl; [exact Hclock|]. intros kv Hkv. exact Hkv. }
  assert (Hperm : sorted by_created_at d ≡ₚ d) by apply sorted_perm.
  assert (Hev : evicted = take surplus (sorted by_created_at d)).
  { unfold evicted. rewrite Hsorted. apply take_app_le.
    by rewrite (Permutation_length Hperm). }
  assert (Hev_len : length evicted = surplus).
  { rewrite Hev. apply length_take_le. by rewrite (Permutation_length Hperm). }
  assert (Hev_sub : evicted ⊆ d).
  { intros kv Hkv. rewrite <- Hperm. rewrite Hev in Hkv.
    by apply (subseteq_take surplus). }
  assert (Hkeys_stored : PyDict.keys stored = PyDict.keys d ++ [sid]).
  { unfold stored, PyDict.keys. by rewrite fmap_app. }
  assert (Hnd_stored : NoDup (PyDict.keys stored)).
  { rewrite Hkeys_stored. apply NoDup_app. split_and!; [done| |apply NoDup_singleton].
    intros k Hk ->%list_elem_of_singleton. done. }
  assert (Hkeys_sub : PyDict.keys evicted ⊆ PyDict.keys d).
  { intros k (kv & -> & Hkv)%list_elem_of_fmap.
    apply list_elem_of_fmap. exists kv. split; [done|]. by apply Hev_sub. }
  assert (Hkeys_nd : NoDup (PyDict.keys evicted)).
  { rewrite Hev. unfold PyDict.keys. rewrite fmap_take.
    eapply sublist_NoDup; [|apply sublist_take].
    change (NoDup (fst <$> sorted by_created_at d)). rewrite Hperm. exact Hnd. }
  assert (Hsid : sid ∉ PyDict.keys evicted) by (intros ?%Hkeys_sub; done).
  assert (Hcount : length (filter (fun kv => fst kv ∉ PyDict.keys evicted) stored)
                   = length stored - surplus).
  { assert (Hkl : length (PyDict.keys evicted) = surplus)
      by (unfold PyDict.keys; by rewrite length_fmap).
    pose proof (dict_filter_length stored (PyDict.keys evicted) Hnd_stored Hkeys_nd) as Hl.
    rewrite Hkl in Hl. rewrite <- Hl; [lia|].
    rewrite Hkeys_stored. by apply list_subseteq_app_l. }
  assert (Holdest : forall e kv, e ∈ evicted ->
            kv ∈ filter (fun kv => fst kv ∉ PyDict.keys evicted) stored ->
            (created_at (snd e) <= created_at (snd kv))%Z).
  { intros e kv He [Hkv Hin]%list_elem_of_filter.
    apply elem_of_app in Hin as [Hin| ->%list_elem_of_singleton].
    - rewrite <- Hperm, <- (take_drop surplus (sorted by_created_at d)) in Hin.
      apply elem_of_app in Hin as [Hin|Hin].
      + exfalso. apply Hkv. rewrite Hev. by apply list_elem_of_fmap_2.
      + pose proof (sorted_sorted by_created_at d) as Hs.
        rewrite <- (take_drop surplus (sorted by_created_at d)) in Hs.
        rewrite Hev in He.
        exact (StronglySorted_app_1_elem_of _ _ _ _ _ Hs He Hin).
    - simpl. rewrite Forall_forall in Hclock. by apply Hclock, Hev_sub. }
  assert (Hget : PyDict.get sid (filter (fun kv => fst kv ∉ PyDict.keys evicted) stored)
                 = Some session).
  { etrans; [exact (dict_get_filter (fun k => k ∉ PyDict.keys evicted) _ stored sid Hsid)|].
    by apply dict_get_app_fresh. }
  unfold create_session. fold session. cbn [sessions max_sessions]. fold d.
  rewrite (dict_set_fresh sid session d Hfresh). fold stored.
  destruct (Z.ltb_spec (max_sessions m) (Z.of_nat (length stored))) as [Hover|Hfit].
  - unfold _cleanup_old_sessions. cbn [sessions max_sessions PyDict.items].
    destruct (Z.leb_spec (Z.of_nat (length stored)) (max_sessions m)) as [|_]; [lia|].
    rewrite slice_to_take by lia. fold by_created_at. fold surplus. fold evicted.
    rewrite (del_all_present evicted stored Hnd_stored Hkeys_nd).
    + eexists. split; [reflexivity|]. cbn [sessions max_sessions].
      split_and!; try done.
      rewrite Hcount. lia.
    + rewrite Hkeys_stored. by apply list_subseteq_app_l.
  - assert (Hzero : surplus = 0) by (unfold surplus; lia).
    assert (Hnil : evicted = []) by (unfold evicted; rewrite Hzero; apply take_0).
    eexists. split; [reflexivity|]. cbn [sessions max_sessions].
    assert (Hsame : filter (fun kv => fst kv ∉ PyDict.keys evicted) stored = stored).
    { rewrite Hnil. apply (filter_notin_nil fst). }
    rewrite Hsame in *.
    by split_and!.
Qed.

Lemma create_session_evicts_oldest_witness :
  let m := mkManager [("a", new_session "a" "u" [] 1); ("b", new_session "b" "u" [] 2)] 2 in
  exists m',
    create_session m "c" "u" None 3 = Some (new_session "c" "u" [] 3, m') /\
    sessions m' = [("b", new_session "b" "u" [] 2); ("c", new_session "c" "u" [] 3)].
Proof.
  intros m.
  destruct (create_session_evicts_oldest m "c" "u" None 3) as (m' & Hc & _ & _ & Hs & _).
  - apply (bool_decide_unpack _). vm_compute. exact I.
  - apply (bool_decide_unpack _). vm_compute. exact I.
  - simpl. lia.
  - repeat constructor; simpl; lia.
  - exists m'. split; [exact Hc|]. rewrite Hs. reflexivity.
Defined.

(** C3 fails as stated: a manager that may hold no session drops the
    session it has just created. *)
Lemma create_session_may_evict_new :
  exists session m',
    create_session (new_manager 0) "a" "u" None 5 = Some (session, m') /\
    id session = "a" /\
    get_session m' "a" = None.
Proof. eexists _, _. split; [reflexivity|]. split; reflexivity. Qed.

(** So does any full manager when the clock has been set back. *)
Example create_session_clock_set_back :
  let m := mkManager [("a", new_session "a" "u" [] 10)] 1 in
  exists session m',
    create_session m "b" "u" None 5 = Some (session, m') /\
    get_session m' "b" = None /\
    get_session m' "a" = Some (new_session "a" "u" [] 10).
Proof. eexists _, _. split; [reflexivity|]. split; reflexivity. Qed.
End CreateSession.

(** * Strings *)
Section StringFacts.
Implicit Types (s p q v : string).

Lemma startswith_spec p s : startswith p s = true <-> exists post, s = p +:+ post.
Proof.
  revert s. induction p as [|a p IH]; intros s; simpl.
  - split; [intros _; by exists s|done].
  - destruct s as [|b s].
    + split; [done|]. by intros [post ?].
    + rewrite andb_true_iff, IH. split.
      * intros [Hab [post ->]]. apply Ascii.eqb_eq in Hab as ->. by exists post.
      * intros [post [= -> ->]]. split; [apply Ascii.eqb_refl|by exists post].
Qed.

Lemma str_in_spec q s : str_in q s = true <-> exists pre post, s = pre +:+ q +:+ post.
Proof.
  induction s as [|b s IH]; simpl.
  - rewrite orb_false_r, startswith_spec. split.
    + intros [post ->]. by exists "", post.
    + intros [pre [post H]]. destruct pre; [by exists post|done].
  - rewrite orb_true_iff, startswith_spec, IH. split.
    + intros [[post ->]|[pre [post ->]]].
      * by exists "", post.
      * by exists (String b pre), post.
    + intros [[|a pre] [post H]].
      * left. by exists post.
      * right. injection H as -> ->. by exists pre, post.
Qed.

Lemma lower_app s1 s2 : lower (s1 +:+ s2) = lower s1 +:+ lower s2.
Proof. induction s1 as [|a s1 IH]; simpl; [done|by rewrite IH]. Qed.

Lemma lower_app_inv s a b :
  lower s = a +:+ b -> exists s1 s2, s = s1 +:+ s2 /\ lower s1 = a /\ lower s2 = b.
Proof.
  revert s. induction a as [|c a IH]; intros s H; simpl in H.
  - by exists "", s.
  - destruct s as [|c' s]; [done|]. simpl in H. injection H as Hc H.
    destruct (IH s H) as (s1 & s2 & -> & <- & <-).
    exists (String c' s1), s2. simpl. by rewrite Hc.
Qed.

(** What [query.lower() in value.lower()] decides. *)
Lemma str_in_lowered str_lower q v :
  str_in (str_lower q) (str_lower v) = true <-> occurs_lowered str_lower q v.
Proof. apply str_in_spec. Qed.

(** With the case mapping of the letters A-Z, that is containment up to
    the case of the letters. *)
Lemma occurs_lowered_ascii q v : occurs_lowered lower q v <-> occurs_ignoring_case q v.
Proof.
  unfold occurs_lowered, occurs_ignoring_case. split.
  - intros (pre' & post' & H).
    apply lower_app_inv in H as (pre & rest & -> & <- & H).
    apply lower_app_inv in H as (mid & post & -> & Hmid & <-).
    by exists pre, mid, post.
  - intros (pre & mid & post & -> & Hmid).
    exists (lower pre), (lower post). by rewrite !lower_app, Hmid.
Qed.
End StringFacts.

(** * The memory bank *)
Section MemoryFacts.
Import memory_bank.

Lemma fold_left_keep {A} (f : A -> bool) (l : list A) : forall init,
  fold_left (fun results x => if f x then results ++ [x] else results) l init
  = init ++ List.filter f l.
Proof.
  induction l as [|x l IH]; intros init; simpl.
  - by rewrite app_nil_r.
  - rewrite IH. destruct (f x); [|done]. by rewrite <- app_assoc.
Qed.

Lemma search_filter str_lower b cat query :
  search str_lower b cat query
  = List.filter (search_keeps str_lower cat query) (PyDict.values (memories b)).
Proof. unfold search. by rewrite fold_left_keep. Qed.

Lemma given_spec (a : option string) :
  given a = true <-> exists s, a = Some s /\ s <> "".
Proof.
  destruct a as [s|]; simpl.
  - rewrite negb_true_iff. destruct (String.eqb_spec s "") as [->|Hne].
    + split; [done|]. by intros (s & [= <-] & ?).
    + split; [by exists s|done].
  - split; [done|]. by intros (s & ? & _).
Qed.

Lemma search_keeps_spec str_lower cat query entry :
  cat <> Some "" ->
  search_keeps str_lower cat query entry = true <->
  (forall c, cat = Some c -> category entry = c) /\
  (forall q, query = Some q -> q <> "" -> occurs_lowered str_lower q (value entry)).
Proof.
  intros Hcat. unfold search_keeps.
  assert (Hc : given cat && negb (String.eqb (category entry) (arg cat)) = false
               <-> forall c, cat = Some c -> category entry = c).
  { destruct cat as [c|]; simpl; [|by split].
    destruct (String.eqb_spec c "") as [->|Hc]; [done|]. simpl.
    destruct (String.eqb_spec (category entry) c) as [Heq|Hne]; simpl.
    - split; [|done]. by intros _ ? [= <-].
    - split; [done|]. intros H. by specialize (H c eq_refl). }
  assert (Hq : given query
               && negb (str_in (str_lower (arg query)) (str_lower (value entry))) = false
               <-> forall q, query = Some q -> q <> "" ->
                             occurs_lowered str_lower q (value entry)).
  { destruct query as [q|]; simpl; [|by split].
    destruct (String.eqb_spec q "") as [->|Hne]; simpl.
    - split; [|done]. by intros _ ? [= <-].
    - rewrite negb_false_iff, str_in_lowered. split.
      + by intros H ? [= <-] _.
      + intros H. by apply H. }
  destruct (given cat && _) eqn:E1.
  - split; [done|]. intros [H _]. apply Hc in H. done.
  - destruct (given query && _) eqn:E2.
    + split; [done|]. intros [_ H]. apply Hq in H. done.
    + split; [|done]. intros _. split; [by apply Hc|by apply Hq].
Qed.

Lemma filter_all {A} (l : list A) : List.filter (fun _ => true) l = l.
Proof. induction l as [|x l IH]; simpl; [done|by rewrite IH]. Qed.

(** C7 (search filter), for a category that is omitted or not empty.
    [search] returns, in the insertion order of the mapping, exactly the
    entries the loop keeps; the loop keeps an entry if and only if its
    category is the given one (when one is given) and its lowered value
    contains the lowered query (when a query other than the empty one is
    given), whatever [str.lower] maps a text to; with neither given it
    returns every entry.  Where [str.lower] is the case mapping of the
    letters A-Z, as it is on ASCII text, the test on the lowered texts is
    containment up to the case of the letters. *)
Theorem search_filters (str_lower : string -> string) (b : MemoryBank)
    (cat query : option string) :
  cat <> Some "" ->
  search str_lower b cat query
  = List.filter (search_keeps str_lower cat query) (PyDict.values (memories b)) /\
  (forall entry,
      search_keeps str_lower cat query entry = true <->
      (forall c, cat = Some c -> category entry = c) /\
      (forall q, query = Some q -> q <> "" ->
                 occurs_lowered str_lower q (value entry))) /\
  (forall q v, occurs_lowered lower q v <-> occurs_ignoring_case q v) /\
  search str_lower b None None = PyDict.values (memories b).
Proof.
  intros Hcat. split_and!.
  - apply search_filter.
  - intros entry. by apply search_keeps_spec.
  - apply occurs_lowered_ascii.
  - rewrite search_filter. apply filter_all.
Qed.

Lemma search_filters_witness :
  search lower two_entries (Some "insight") None
  = [mkEntry "k1" "sales up" "insight" 1 []] /\
  search lower two_entries None (Some "SALES")
  = [mkEntry "k1" "sales up" "insight" 1 []; mkEntry "k2" "likes sales" "preference" 2 []].
Proof.
  split.
  - destruct (search_filters lower two_entries (Some "insight") None) as [-> _];
      [|reflexivity].
    intros [=].
  - destruct (search_filters lower two_entries None (Some "SALES")) as [-> _];
      [|reflexivity].
    intros [=].
Defined.

(** C7 fails as stated: an empty category string is read as "no category
    given", and entries of every category are returned. *)
Lemma search_empty_category_keeps_all :
  search lower two_entries (Some "") (Some "sales")
  = [mkEntry "k1" "sales up" "insight" 1 []; mkEntry "k2" "likes sales" "preference" 2 []] /\
  category (mkEntry "k1" "sales up" "insight" 1 []) <> "".
Proof. split; [reflexivity|]. intros [=]. Qed.

(** The in-memory mutation of [store] stands whatever the storage does. *)
Lemma store_mutation_stands b k v cat md now st :
  PyDict.get k (memories (snd (fst (store b k v cat md now st))))
  = Some (mkEntry k v cat now (or_empty md)).
Proof.
  unfold store. destruct (_save_memories _ st) as [r st']. simpl.
  apply dict_get_set_eq.
Qed.

(** What the [try] block catches is printed and not raised: an error of
    [open] leaves the file as it was, an error of [json.dump] leaves it
    with a part of the text. *)
Lemma store_swallows_write_error b k v cat md now doc out oe de :
  oe <> None \/ de <> None ->
  let st := mkStorage doc out None oe de in
  fst (fst (store b k v cat md now st)) = Returns tt /\
  (exists e, printed (snd (store b k v cat md now st))
             = out ++ ["Error saving memories: " +:+ e]) /\
  document (snd (store b k v cat md now st))
  = match oe with Some _ => doc | None => Some Partial end.
Proof.
  intros H st. destruct oe as [e|]; [|destruct de as [e|]; [|by destruct H]];
    (split_and!; [done|by exists e|done]).
Qed.

Lemma store_returns_when_mkdir_succeeds b k v cat md now st :
  mkdir_error st = None ->
  fst (fst (store b k v cat md now st)) = Returns tt.
Proof.
  intros Hm. unfold store, _save_memories. rewrite Hm.
  by destruct (open_error st), (dump_error st).
Qed.

(** C9, when the parent directory cannot be made.  [Path.mkdir] is called
    before the [try] block of [_save_memories], so its error leaves [store]
    as an exception; the entry is in the in-memory mapping all the same,
    and nothing is written or printed. *)
Theorem store_raises_when_mkdir_fails b k v cat md now doc out e oe de :
  let st := mkStorage doc out (Some e) oe de in
  fst (fst (store b k v cat md now st)) = Raises e /\
  PyDict.get k (memories (snd (fst (store b k v cat md now st))))
  = Some (mkEntry k v cat now (or_empty md)) /\
  snd (store b k v cat md now st) = st.
Proof. intros st. split_and!; [done|apply store_mutation_stands|done]. Qed.
End MemoryFacts.

(** * The metrics collector *)
Section MetricsFacts.
Import metrics.

Lemma get_summary_disabled c now : enabled c = false -> get_summary c now = [].
Proof. intros H. unfold get_summary. by rewrite H. Qed.

(** C6 (repeatable summary).  Two calls of [get_summary] on the same
    collector, at clock readings [now1] and [now2], return mappings with
    the same keys, the same counters and the same timer statistics; the
    [timestamp] is that of each call, so the mappings are equal as a whole
    exactly when the collector is disabled or the two readings coincide. *)
Theorem get_summary_repeatable (c : MetricsCollector) (now1 now2 : Z) :
  PyDict.get "counters" (get_summary c now1) = PyDict.get "counters" (get_summary c now2) /\
  PyDict.get "timers" (get_summary c now1) = PyDict.get "timers" (get_summary c now2) /\
  PyDict.keys (get_summary c now1) = PyDict.keys (get_summary c now2) /\
  (enabled c = true -> PyDict.get "timestamp" (get_summary c now1) = Some (VTime now1)) /\
  (get_summary c now1 = get_summary c now2 <-> enabled c = false \/ now1 = now2).
Proof.
  unfold get_summary. destruct (enabled c); simpl.
  - split_and!; try done. split.
    + intros [= ->]. by right.
    + intros [[=]| ->]. done.
  - split_and!; try done. split; [by left|done].
Qed.

(** C6 fails as stated: two summaries of an untouched collector differ in
    their [timestamp]. *)
Lemma get_summary_differs_by_timestamp :
  get_summary one_request 1 <> get_summary one_request 2 /\
  PyDict.get "timestamp" (get_summary one_request 1) = Some (VTime 1) /\
  PyDict.get "timestamp" (get_summary one_request 2) = Some (VTime 2).
Proof. split_and!; [intros [=]|done|done]. Qed.

(** Counters: [increment] adds its value to the counter of that name and
    leaves the others as they are. *)
Lemma counter_increment c nm v tg now :
  enabled c = true -> counter (increment c nm v tg now) nm = (counter c nm + v)%Z.
Proof.
  intros H. unfold increment. rewrite H. simpl. unfold counter at 1. simpl.
  by rewrite dict_get_set_eq.
Qed.

Lemma counter_increment_ne c nm nm' v tg now :
  nm <> nm' -> counter (increment c nm v tg now) nm' = counter c nm'.
Proof.
  intros Hne. unfold increment. destruct (enabled c); simpl; [|done].
  unfold counter. simpl. by rewrite dict_get_set_ne.
Qed.

Lemma timer_increment c nm nm' v tg now : timer (increment c nm v tg now) nm' = timer c nm'.
Proof. unfold increment. by destruct (enabled c). Qed.

Lemma counter_record_timing c nm nm' d tg now :
  counter (record_timing c nm d tg now) nm' = counter c nm'.
Proof. unfold record_timing. by destruct (enabled c). Qed.

Lemma timer_record_timing c nm d tg now :
  enabled c = true -> timer (record_timing c nm d tg now) nm = timer c nm ++ [d].
Proof.
  intros H. unfold record_timing. rewrite H. simpl. unfold timer at 1. simpl.
  by rewrite dict_get_set_eq.
Qed.

Lemma timer_record_timing_ne c nm nm' d tg now :
  nm <> nm' -> timer (record_timing c nm d tg now) nm' = timer c nm'.
Proof.
  intros Hne. unfold record_timing. destruct (enabled c); simpl; [|done].
  unfold timer. simpl. by rewrite dict_get_set_ne.
Qed.

Lemma enabled_increment c nm v tg now : enabled (increment c nm v tg now) = enabled c.
Proof. unfold increment. by destruct (enabled c) eqn:E. Qed.

Lemma enabled_record_timing c nm d tg now :
  enabled (record_timing c nm d tg now) = enabled c.
Proof. unfold record_timing. by destruct (enabled c) eqn:E. Qed.
End MetricsFacts.

(** * Runs that keep a relation *)
Section RunFacts.
Context (R : relation World) `{!PreOrder R}.

Lemma Run_ret {A} (a : A) : Run R (mret a).
Proof. by intros w res w' [= _ <-]. Qed.

Lemma Run_raise {A} e : Run R (@raise A e).
Proof. by intros w res w' [= _ <-]. Qed.

Lemma Run_lift {A} (b : behaviour A) : Run R (lift b).
Proof. by intros w res w' [= _ <-]. Qed.

Lemma Run_bind {A B} (m : M A) (f : A -> M B) :
  Run R m -> (forall a, Run R (f a)) -> Run R (m ≫= f).
Proof.
  intros Hm Hf w res w' Hrun. unfold mbind, M_bind in Hrun.
  destruct (m w) as [[a|e] w1] eqn:Hmw.
  - etrans; [by eapply Hm|by eapply Hf].
  - injection Hrun as _ <-. by eapply Hm.
Qed.

Lemma Run_try_except {A} (body : M A) handler :
  Run R body -> (forall e, Run R (handler e)) -> Run R (try_except body handler).
Proof.
  intros Hb Hh w res w' Hrun. unfold try_except in Hrun.
  destruct (body w) as [[a|[e|e]] w1] eqn:Hbw.
  - injection Hrun as _ <-. by eapply Hb.
  - etrans; [by eapply Hb|by eapply Hh].
  - injection Hrun as _ <-. by eapply Hb.
Qed.
End RunFacts.

(** * Scoped use of the tracer *)
Section ScopedFacts.
Import tracer.

Lemma grown_refl sp : grown sp sp.
Proof. by constructor. Qed.

Lemma grown_trans sp1 sp2 sp3 : grown sp1 sp2 -> grown sp2 sp3 -> grown sp1 sp3.
Proof.
  intros [] []. constructor; try congruence. by etrans.
Qed.

Lemma heap_length_le w w' :
  scoped w w' -> length (heap (_global_tracer w)) <= length (heap (_global_tracer w')).
Proof.
  intros H.
  destruct (decide (length (heap (_global_tracer w)) <= length (heap (_global_tracer w'))))
    as [|Hgt]; [done|].
  assert (Hlt : length (heap (_global_tracer w')) < length (heap (_global_tracer w))) by lia.
  apply lookup_lt_is_Some_2 in Hlt as [sp Hsp].
  destruct (scoped_old _ _ H _ _ Hsp) as (sp' & Hsp' & _).
  apply lookup_lt_Some in Hsp, Hsp'. lia.
Qed.

(** Code that leaves the tracer alone. *)
Lemma scoped_same_tracer w w' :
  clock w' = clock w -> ticks w <= ticks w' ->
  _global_tracer w' = _global_tracer w -> scoped w w'.
Proof.
  intros Hc Ht Htr. constructor; rewrite ?Htr; try done.
  - intros r sp Hsp. exists sp. split_and!; [done|apply grown_refl|done].
  - intros r sp' Hr Hsp'. apply lookup_lt_Some in Hsp'. lia.
  - unfold tidy, refs_valid. by rewrite Htr.
Qed.

Lemma scoped_refl w : scoped w w.
Proof. by apply scoped_same_tracer. Qed.

Lemma scoped_trans w1 w2 w3 : scoped w1 w2 -> scoped w2 w3 -> scoped w1 w3.
Proof.
  intros H12 H23.
  pose proof (heap_length_le _ _ H12) as Hlen12.
  destruct H12 as [Hc1 Ht1 He1 Ha1 Hr1 Hn1 Ho1 Hnew1 Htidy1].
  destruct H23 as [Hc2 Ht2 He2 Ha2 Hr2 Hn2 Ho2 Hnew2 Htidy2].
  constructor.
  - congruence.
  - lia.
  - congruence.
  - congruence.
  - by etrans.
  - intros Hne. rewrite Hn2, Hn1; [done|done|]. by rewrite Ha1.
  - intros r sp Hsp.
    destruct (Ho1 r sp Hsp) as (sp1 & Hsp1 & Hg1 & Hch1).
    destruct (Ho2 r sp1 Hsp1) as (sp2 & Hsp2 & Hg2 & Hch2).
    exists sp2. split_and!; [done|by eapply grown_trans|].
    intros Hlast. rewrite Hch2, Hch1; [done|done|]. by rewrite Ha1.
  - intros r sp' Hr Hsp'.
    destruct (decide (r < length (heap (_global_tracer w2)))) as [Hlt|Hge].
    + apply lookup_lt_is_Some_2 in Hlt as [sp1 Hsp1].
      destruct (Hnew1 r sp1 Hr Hsp1) as (j & k & Hj & Hjk & Hk & Hs & He).
      destruct (Ho2 r sp1 Hsp1) as (sp2 & Hsp2 & [] & _).
      assert (sp2 = sp') as -> by congruence.
      exists j, k. split_and!; [lia|lia|lia|congruence|congruence].
    + destruct (Hnew2 r sp' ltac:(lia) Hsp') as (j & k & Hj & Hjk & Hk & Hs & He).
      exists j, k. rewrite <- Hc1. split_and!; [lia|lia|lia|done|done].
  - auto.
Qed.

#[export] Instance scoped_preorder : PreOrder scoped.
Proof. split; [exact scoped_refl|exact scoped_trans]. Qed.
End ScopedFacts.

Section SpanFacts.
Import tracer.

(** ** Opening a span *)

Lemma span_enter_ref t nm md now : snd (span_enter t nm md now) = length (heap t).
Proof. unfold span_enter. by destruct (last (active_spans t)). Qed.

Lemma span_enter_enabled t nm md now :
  enabled (fst (span_enter t nm md now)) = enabled t.
Proof. unfold span_enter. by destruct (last (active_spans t)). Qed.

Lemma span_enter_active t nm md now :
  active_spans (fst (span_enter t nm md now)) = active_spans t ++ [length (heap t)].
Proof. unfold span_enter. by destruct (last (active_spans t)). Qed.

Lemma span_enter_length t nm md now :
  length (heap (fst (span_enter t nm md now))) = S (length (heap t)).
Proof.
  unfold span_enter. destruct (last (active_spans t)); simpl;
    rewrite ?length_alter, length_app; simpl; lia.
Qed.

Lemma span_enter_roots t nm md now :
  spans (fst (span_enter t nm md now))
  = match last (active_spans t) with
    | Some _ => spans t
    | None => spans t ++ [length (heap t)]
    end.
Proof. unfold span_enter. by destruct (last (active_spans t)). Qed.

(** The new span object. *)
Lemma span_enter_new t nm md now :
  Forall (fun r => r < length (heap t)) (active_spans t) ->
  heap (fst (span_enter t nm md now)) !! length (heap t)
  = Some (mkSpan nm now None (or_empty md) []).
Proof.
  intros Hwf. unfold span_enter. destruct (last (active_spans t)) as [p|] eqn:Hlast; simpl.
  - assert (p < length (heap t)).
    { apply last_Some in Hlast as [l' Hl']. rewrite Hl' in Hwf.
      apply Forall_app in Hwf as [_ Hp]. by inversion Hp. }
    rewrite list_lookup_alter_ne by lia. by apply list_lookup_middle.
  - by apply list_lookup_middle.
Qed.

Lemma span_enter_new_fields t nm md now :
  exists sp,
    heap (fst (span_enter t nm md now)) !! length (heap t) = Some sp /\
    name sp = nm /\ start_time sp = now /\ end_time sp = None /\
    metadata sp = or_empty md.
Proof.
  unfold span_enter. destruct (last (active_spans t)) as [p|]; simpl.
  - destruct (decide (p = length (heap t))) as [->|Hne].
    + rewrite list_lookup_alter_eq, list_lookup_middle by done. by eexists.
    + rewrite list_lookup_alter_ne, list_lookup_middle by done. by eexists.
  - rewrite list_lookup_middle by done. by eexists.
Qed.

(** The span objects that were there: the innermost open span gets the
    new child at the end of its list, the others are untouched. *)
Lemma span_enter_old t nm md now r sp :
  heap t !! r = Some sp ->
  heap (fst (span_enter t nm md now)) !! r
  = Some (if decide (last (active_spans t) = Some r)
          then add_child (length (heap t)) sp else sp).
Proof.
  intros Hsp. pose proof (lookup_lt_Some _ _ _ Hsp) as Hlt.
  unfold span_enter. destruct (last (active_spans t)) as [p|] eqn:Hlast; simpl.
  - destruct (decide (Some p = Some r)) as [Heq|Hne].
    + injection Heq as ->.
      rewrite list_lookup_alter_eq, lookup_app_l by done. by rewrite Hsp.
    + rewrite list_lookup_alter_ne by congruence. by rewrite lookup_app_l.
  - by rewrite lookup_app_l.
Qed.

(** ** Closing a span *)

Lemma span_exit_pushed t r now l :
  active_spans t = l ++ [r] ->
  span_exit t r now
  = (Returns tt, mkTracer (enabled t) (alter (set_end_time now) r (heap t)) (spans t) l).
Proof.
  intros Ha. unfold span_exit. rewrite Ha.
  destruct (l ++ [r]) eqn:E; [by destruct l|]. rewrite <- E.
  by rewrite removelast_last.
Qed.
End SpanFacts.

Section TidyFacts.
Import tracer.

(** Opening a span keeps the store tidy: the new object has no children
    and is the youngest child of its parent. *)
Lemma tidy_entered w nm md : tidy w -> tidy (entered w nm md).
Proof.
  intros [Hv Ho]. split.
  { unfold refs_valid, entered in *. cbn [set_tracer _global_tracer].
    rewrite span_enter_active, span_enter_length. apply Forall_app. split.
    - eapply Forall_impl; [exact Hv|]. simpl. intros; lia.
    - apply Forall_singleton. lia. }
  unfold entered, heap_ordered. cbn [set_tracer set_ticks _global_tracer].
  set (t := _global_tracer w) in *. intros r sp Hsp. rewrite span_enter_length.
  destruct (decide (r < length (heap t))) as [Hlt|Hge].
  - destruct (lookup_lt_is_Some_2 _ _ Hlt) as [sp0 Hsp0].
    rewrite (span_enter_old t nm md _ r sp0 Hsp0) in Hsp. injection Hsp as <-.
    specialize (Ho r sp0 Hsp0).
    assert (Hold : Forall (fun c => r < c < S (length (heap t))) (children sp0)).
    { eapply Forall_impl; [exact Ho|]. simpl. intros; lia. }
    destruct (decide _); [|done]. simpl. apply Forall_app. split; [done|].
    apply Forall_singleton. lia.
  - assert (r = length (heap t)) as ->.
    { apply lookup_lt_Some in Hsp. rewrite span_enter_length in Hsp. lia. }
    rewrite span_enter_new in Hsp by exact Hv. injection Hsp as <-. constructor.
Qed.

(** Closing a span keeps the store tidy. *)
Lemma tidy_exited w2 r active :
  tidy w2 ->
  Forall (fun a => a < length (heap (_global_tracer w2))) active ->
  tidy (exited w2 r active).
Proof.
  intros [Hv Ho] Hact. split.
  { unfold refs_valid, exited. cbn [set_tracer _global_tracer heap active_spans].
    by rewrite length_alter. }
  unfold exited, heap_ordered. cbn [set_tracer _global_tracer heap]. intros i sp Hsp.
  assert (Hkept : exists sp0, heap (_global_tracer w2) !! i = Some sp0
                              /\ children sp = children sp0).
  { destruct (decide (r = i)) as [->|Hne].
    - rewrite list_lookup_alter_eq in Hsp.
      destruct (heap (_global_tracer w2) !! i) as [sp0|] eqn:Hsp0; [|done].
      injection Hsp as <-. by exists sp0.
    - rewrite list_lookup_alter_ne in Hsp by done. by exists sp. }
  destruct Hkept as (sp0 & Hsp0 & ->).
  eapply Forall_impl; [exact (Ho i sp0 Hsp0)|].
  simpl. intros c Hc. by rewrite length_alter.
Qed.
End TidyFacts.

Section WithSpan.
Import tracer.
Context {A : Type}.
Implicit Types (body : M A) (w : World).

Lemma with_span_disabled nm md body w :
  enabled (_global_tracer w) = false -> with_span nm md body w = body w.
Proof. intros H. unfold with_span. by rewrite H. Qed.

(** With the tracer enabled, the statement runs its body between the
    two halves of [Tracer.span]; the [finally] half never raises and
    passes the body's outcome on, be it a value or an exception. *)
Lemma with_span_run nm md body w res w' :
  Scoped body ->
  enabled (_global_tracer w) = true ->
  with_span nm md body w = (res, w') ->
  exists w2,
    body (entered w nm md) = (res, w2) /\
    w' = exited w2 (length (heap (_global_tracer w))) (active_spans (_global_tracer w)).
Proof.
  intros Hbody Hen Hrun. unfold with_span in Hrun. rewrite Hen in Hrun.
  cbn [negb read_clock] in Hrun.
  rewrite (surjective_pairing (span_enter _ _ _ _)) in Hrun.
  rewrite span_enter_ref in Hrun. cbn [set_ticks _global_tracer] in Hrun.
  fold (entered w nm md) in Hrun.
  destruct (body (entered w nm md)) as [res2 w2] eqn:Hb.
  pose proof (Hbody _ _ _ Hb) as Hsc.
  assert (Hact : active_spans (_global_tracer w2)
                 = active_spans (_global_tracer w) ++ [length (heap (_global_tracer w))]).
  { rewrite (scoped_active _ _ Hsc). unfold entered. cbn [set_tracer _global_tracer].
    apply span_enter_active. }
  cbn [set_ticks _global_tracer] in Hrun.
  rewrite (span_exit_pushed _ _ _ _ Hact) in Hrun.
  injection Hrun as <- <-. by exists w2.
Qed.

Lemma Scoped_with_span nm md body : Scoped body -> Scoped (with_span nm md body).
Proof.
  intros Hbody w res w' Hrun.
  destruct (enabled (_global_tracer w)) eqn:Hen.
  2:{ rewrite with_span_disabled in Hrun by done. by eapply Hbody. }
  destruct (with_span_run _ _ _ _ _ _ Hbody Hen Hrun) as (w2 & Hb & ->).
  pose proof (Hbody _ _ _ Hb) as Hsc.
  pose proof (heap_length_le _ _ Hsc) as Hlen.
  destruct Hsc as [Hc Ht He Ha Hr Hn Ho Hnew Htidy].
  unfold entered in *. cbn [set_tracer set_ticks _global_tracer clock ticks] in *.
  set (t := _global_tracer w) in *. set (r := length (heap t)) in *.
  rewrite span_enter_length in Hlen. rewrite span_enter_active in Ha, Ho, Hn.
  rewrite span_enter_enabled in He. rewrite span_enter_roots in Hr, Hn.
  rewrite span_enter_length in Hnew. rewrite last_snoc in Ho.
  assert (Hroots : spans (_global_tracer w2)
                   = match last (active_spans t) with
                     | Some _ => spans t
                     | None => spans t ++ [r]
                     end).
  { apply Hn. by destruct (active_spans t). }
  unfold exited. constructor; cbn [set_tracer set_ticks _global_tracer clock ticks
                                    enabled active_spans spans heap].
  - done.
  - lia.
  - done.
  - done.
  - rewrite Hroots. destruct (last (active_spans t)); [done|]. by apply prefix_app_r.
  - intros Hne. rewrite Hroots. destruct (last (active_spans t)) eqn:E; [done|].
    by apply last_None in E.
  - intros i sp Hsp. pose proof (lookup_lt_Some _ _ _ Hsp) as Hi. change (i < r) in Hi.
    destruct (Ho i _ (span_enter_old t nm md (clock w (ticks w)) i sp Hsp))
      as (sp' & Hsp' & Hg & Hch).
    exists sp'. rewrite list_lookup_alter_ne by lia. split; [done|].
    specialize (Hch ltac:(intros [= ?]; lia)).
    destruct (decide (last (active_spans t) = Some i)) as [Hlast|Hlast].
    + split; [|done]. destruct Hg as [? ? ? ? Hp]. constructor; try done.
      etrans; [|exact Hp]. simpl. by apply prefix_app_r.
    + split; [done|]. by intros _.
  - intros i sp' Hi Hsp'. change (r <= i) in Hi.
    destruct (decide (i = r)) as [->|Hne].
    + destruct (span_enter_new_fields t nm md (clock w (ticks w)))
        as (sp1 & Hsp1 & _ & Hstart & Hend & _).
      destruct (Ho r sp1 Hsp1) as (sp2 & Hsp2 & [_ Hs2 He2 _ _] & _).
      rewrite list_lookup_alter_eq, Hsp2 in Hsp'. injection Hsp' as <-.
      exists (ticks w), (ticks w2). cbn [set_end_time start_time end_time].
      split_and!; [lia|lia|lia|congruence|by rewrite Hc].
    + rewrite list_lookup_alter_ne in Hsp' by done.
      destruct (Hnew i sp' ltac:(lia) Hsp') as (j & k & Hj & Hjk & Hk & Hs & Hend).
      exists j, k. split_and!; [lia|lia|lia|done|done].
  - intros Hw.
    assert (Hw2 : tidy w2) by apply Htidy, (tidy_entered w nm md Hw).
    apply (tidy_exited w2 r (active_spans t) Hw2).
    destruct Hw as [Hv _]. eapply Forall_impl; [exact Hv|].
    simpl. intros a Ha'. fold t in Ha'. fold r in Ha'. lia.
Qed.
End WithSpan.

Section ScopedPrograms.
Import tracer.

Lemma Scoped_time_now : Scoped time_now.
Proof.
  intros w res w' [= _ <-]. apply scoped_same_tracer; simpl; [done|lia|done].
Qed.

Lemma Scoped_trace_summary : Scoped trace_summary.
Proof.
  intros w res w' Hrun. unfold trace_summary in Hrun.
  destruct (enabled (_global_tracer w)); simpl in Hrun; injection Hrun as _ <-.
  - apply scoped_same_tracer; simpl; [done|lia|done].
  - apply scoped_refl.
Qed.

Lemma Scoped_metrics_increment nm : Scoped (metrics_increment nm).
Proof.
  intros w res w' Hrun. unfold metrics_increment in Hrun.
  destruct (metrics.enabled (_global_metrics w)); simpl in Hrun; injection Hrun as _ <-.
  - apply scoped_same_tracer; simpl; [done|lia|done].
  - apply scoped_refl.
Qed.

Lemma Scoped_metrics_record_timing nm d : Scoped (metrics_record_timing nm d).
Proof.
  intros w res w' Hrun. unfold metrics_record_timing in Hrun.
  destruct (metrics.enabled (_global_metrics w)); simpl in Hrun; injection Hrun as _ <-.
  - apply scoped_same_tracer; simpl; [done|lia|done].
  - apply scoped_refl.
Qed.

Lemma Scoped_metrics_summary : Scoped metrics_summary.
Proof.
  intros w res w' Hrun. unfold metrics_summary in Hrun.
  destruct (metrics.enabled (_global_metrics w)); simpl in Hrun; injection Hrun as _ <-.
  - apply scoped_same_tracer; simpl; [done|lia|done].
  - apply scoped_refl.
Qed.

(** Every program of [with] blocks uses the tracer in the scoped way. *)
Lemma Scoped_exec s : Scoped (exec s).
Proof.
  induction s as [|s1 IH1 s2 IH2|nm md body IH|e|body IHb handler IHh|]; simpl.
  - apply Run_ret, _.
  - apply Run_bind; [apply _|done|]. by intros _.
  - by apply Scoped_with_span.
  - apply Run_raise, _.
  - apply Run_try_except; [apply _|done|]. by intros _.
  - apply Run_bind; [apply _|apply Scoped_trace_summary|]. intros _. apply Run_ret, _.
Qed.

(** ** Validity of the references on the stack *)

Lemma refs_valid_scoped w w' : scoped w w' -> refs_valid w -> refs_valid w'.
Proof.
  intros Hsc Hv. pose proof (heap_length_le _ _ Hsc) as Hlen.
  unfold refs_valid in *. rewrite (scoped_active _ _ Hsc).
  eapply Forall_impl; [exact Hv|]. simpl. intros; lia.
Qed.

Lemma refs_valid_entered w nm md : refs_valid w -> refs_valid (entered w nm md).
Proof.
  intros Hv. unfold refs_valid, entered in *. cbn [set_tracer _global_tracer].
  rewrite span_enter_active, span_enter_length. apply Forall_app. split.
  - eapply Forall_impl; [exact Hv|]. simpl. intros; lia.
  - apply Forall_singleton. lia.
Qed.

Lemma monotone_clock_scoped w w' : scoped w w' -> monotone_clock w -> monotone_clock w'.
Proof. intros Hsc Hm. unfold monotone_clock. by rewrite (scoped_clock _ _ Hsc). Qed.

(** A closed span never ends before it starts. *)
Lemma scoped_new_ordered w w' r sp :
  scoped w w' -> monotone_clock w ->
  length (heap (_global_tracer w)) <= r ->
  heap (_global_tracer w') !! r = Some sp ->
  exists e, end_time sp = Some e /\ (start_time sp <= e)%Z.
Proof.
  intros Hsc Hm Hr Hsp.
  destruct (scoped_new _ _ Hsc r sp Hr Hsp) as (j & k & _ & Hjk & _ & Hs & He).
  exists (clock w k). split; [done|]. rewrite Hs. apply Hm. lia.
Qed.

(** ** One [with] statement *)

Lemma with_span_spec {A} nm md (body : M A) w res w' :
  Scoped body ->
  enabled (_global_tracer w) = true -> refs_valid w ->
  with_span nm md body w = (res, w') ->
  let r := length (heap (_global_tracer w)) in
  (exists w2, body (entered w nm md) = (res, w2)) /\
  (exists sp stop,
      heap (_global_tracer w') !! r = Some sp /\
      name sp = nm /\ metadata sp = or_empty md /\
      start_time sp = clock w (ticks w) /\ end_time sp = Some stop) /\
  attached w w' r.
Proof.
  intros Hbody Hen Hv Hrun r. subst r.
  destruct (with_span_run _ _ _ _ _ _ Hbody Hen Hrun) as (w2 & Hb & ->).
  pose proof (Hbody _ _ _ Hb) as Hsc.
  split; [by exists w2|].
  destruct Hsc as [Hc Ht He Ha Hr Hn Ho Hnew Htidy].
  unfold entered in *. cbn [set_tracer set_ticks _global_tracer clock ticks] in *.
  set (t := _global_tracer w) in *. set (r := length (heap t)) in *.
  rewrite span_enter_active, last_snoc in Ho. rewrite span_enter_active in Hn.
  rewrite span_enter_roots in Hn.
  split.
  - destruct (span_enter_new_fields t nm md (clock w (ticks w)))
      as (sp1 & Hsp1 & Hnm & Hstart & Hend & Hmd).
    destruct (Ho r sp1 Hsp1) as (sp2 & Hsp2 & [Hn2 Hs2 He2 Hm2 _] & _).
    exists (set_end_time (clock w2 (ticks w2)) sp2), (clock w2 (ticks w2)).
    unfold exited. cbn [set_tracer _global_tracer heap].
    rewrite list_lookup_alter_eq, Hsp2. simpl.
    split_and!; [done|congruence|congruence|congruence|done].
  - unfold attached, exited. cbn [set_tracer _global_tracer heap spans]. fold t.
    specialize (Hn ltac:(by destruct (active_spans t))).
    destruct (last (active_spans t)) as [p|] eqn:Hlast; [|done].
    split; [done|].
    assert (Hp : p < r).
    { apply last_Some in Hlast as [l' Hl']. unfold refs_valid in Hv. fold t in Hv.
      rewrite Hl' in Hv. apply Forall_app in Hv as [_ Hp]. by inversion Hp. }
    destruct (lookup_lt_is_Some_2 (heap t) p Hp) as [parent Hparent].
    pose proof (span_enter_old t nm md (clock w (ticks w)) p parent Hparent) as H1.
    rewrite Hlast, decide_True in H1 by done.
    destruct (Ho p _ H1) as (parent' & Hparent' & _ & Hch).
    exists parent, parent'. rewrite list_lookup_alter_ne by lia.
    split_and!; [done|done|]. rewrite Hch; [done|]. intros [= ?]. lia.
Qed.
End ScopedPrograms.

Section SpanNesting.
Import tracer.

(** C5 (span nesting integrity).  Let [s] be any program of nested
    [with tracer.span(..)] blocks, sequences, raising operations and
    handlers, run with the tracer enabled.  However [s] ends, the stack of
    open spans is what it was, every span opened by [s] is closed, its
    start and its end being two readings of the clock taken in that order,
    and the spans recorded before are kept.  So [end_time >= start_time]
    holds of these spans when the clock does not run backwards, which
    [time.time()] does not promise.  For a [with] statement the span is
    pushed on entry, the body's outcome (value or exception, of either
    kind) is the statement's, and on exit the span carries both times and
    is the last child of the innermost span that was open on entry, or the
    last root if none was. *)
Theorem span_nesting_integrity (s : stmt) (w : World) (res : behaviour unit) (w' : World) :
  enabled (_global_tracer w) = true ->
  refs_valid w ->
  exec s w = (res, w') ->
(* the stack of open spans is what it was, whether or not [s] raised *)
  active_spans (_global_tracer w') = active_spans (_global_tracer w) /\
(* every span opened by [s] is closed: it has both times, read in that order *)
  (forall r sp,
      length (heap (_global_tracer w)) <= r ->
      heap (_global_tracer w') !! r = Some sp ->
      exists j k, ticks w <= j /\ j < k /\ k < ticks w' /\
                  start_time sp = clock w j /\ end_time sp = Some (clock w k)) /\
(* and not before it started, on a clock that does not run backwards *)
  (monotone_clock w ->
   forall r sp,
      length (heap (_global_tracer w)) <= r ->
      heap (_global_tracer w') !! r = Some sp ->
      exists e, end_time sp = Some e /\ (start_time sp <= e)%Z) /\
(* the spans recorded before are still there *)
  (forall r sp,
      heap (_global_tracer w) !! r = Some sp ->
      exists sp', heap (_global_tracer w') !! r = Some sp' /\ grown sp sp') /\
(* the tracer is left fit for the next statement *)
  (enabled (_global_tracer w') = true /\ refs_valid w' /\
   (monotone_clock w -> monotone_clock w')) /\
(* one [with tracer.span(nm, md): body] *)
  (forall nm md body, s = Span nm md body ->
      let r := length (heap (_global_tracer w)) in
      (* on entry the span is pushed, and the body runs under it *)
      active_spans (_global_tracer (entered w nm md))
      = active_spans (_global_tracer w) ++ [r] /\
      (enabled (_global_tracer (entered w nm md)) = true /\
       refs_valid (entered w nm md)) /\
      (* the body's outcome, value or exception, is the statement's *)
      (exists w2, exec body (entered w nm md) = (res, w2)) /\
      (* the span is recorded with both times *)
      (exists sp stop,
          heap (_global_tracer w') !! r = Some sp /\
          name sp = nm /\ metadata sp = or_empty md /\
          start_time sp = clock w (ticks w) /\ end_time sp = Some stop /\
          (monotone_clock w -> (clock w (ticks w) <= stop)%Z)) /\
      (* as the last child of the innermost open span, or the last root *)
      attached w w' r).
Proof.
  intros Hen Hv Hrun.
  pose proof (Scoped_exec s _ _ _ Hrun) as Hsc.
  split_and!.
  - apply (scoped_active _ _ Hsc).
  - intros r sp Hr Hsp. by eapply (scoped_new _ _ Hsc).
  - intros Hm r sp Hr Hsp. by eapply scoped_new_ordered.
  - intros r sp Hsp. destruct (scoped_old _ _ Hsc r sp Hsp) as (sp' & ? & ? & _).
    by exists sp'.
  - by rewrite (scoped_enabled _ _ Hsc).
  - by eapply refs_valid_scoped.
  - by eapply monotone_clock_scoped.
  - intros nm md body -> r. simpl in Hrun.
    destruct (with_span_spec nm md (exec body) w res w' (Scoped_exec body) Hen Hv Hrun)
      as (Hbody & (sp & stop & Hsp & Hnm & Hmd & Hstart & Hstop) & Hatt).
    split_and!.
    + unfold entered. cbn [set_tracer _global_tracer]. apply span_enter_active.
    + unfold entered. cbn [set_tracer _global_tracer]. by rewrite span_enter_enabled.
    + by apply refs_valid_entered.
    + exact Hbody.
    + exists sp, stop. split_and!; try done. intros Hm.
      destruct (scoped_new_ordered w w' r sp Hsc Hm ltac:(done) Hsp) as (e & He & Hle).
      rewrite <- Hstart. congruence.
    + exact Hatt.
Qed.

Lemma span_nesting_integrity_witness :
  exists res w',
    exec nested_example world0 = (res, w') /\
    active_spans (_global_tracer w') = [] /\
    attached world0 w' 0 /\
    spans (_global_tracer w') = [0] /\
    children <$> heap (_global_tracer w') !! 0 = Some [1; 2] /\
    end_time <$> heap (_global_tracer w') !! 2 = Some (Some 4%Z).
Proof.
  assert (Hv : refs_valid world0) by constructor.
  destruct (exec nested_example world0) as [res w'] eqn:Hrun.
  exists res, w'. split; [reflexivity|].
  destruct (span_nesting_integrity nested_example world0 res w' eq_refl Hv Hrun)
    as (Ha & _ & _ & _ & _ & Hspan).
  destruct (Hspan "outer" None _ eq_refl) as (_ & _ & _ & _ & Hatt).
  split; [exact Ha|]. split; [exact Hatt|].
  vm_compute in Hrun. injection Hrun as <- <-. split_and!; reflexivity.
Defined.

(** C5 fails as stated: when the clock is set back between the two
    readings, a closed span ends before it starts. *)
Lemma span_ends_before_it_starts :
  let w' := snd (exec (Span "step" None Pass) world_clock_back) in
  start_time <$> heap (_global_tracer w') !! 0 = Some 10%Z /\
  end_time <$> heap (_global_tracer w') !! 0 = Some (Some 9%Z) /\
  active_spans (_global_tracer w') = [].
Proof. vm_compute. by split_and!. Qed.
End SpanNesting.

(** * The fuel of [summarize_span] *)
Section SummaryFuel.
Import tracer.

(** In a tidy store the recursion of [summarize_span] from span [r] is not
    deeper than the number of spans created after [r]: any fuel from there
    on gives the same summary. *)
Lemma summarize_span_stable t : heap_ordered t ->
  forall n r f1 f2,
    length (heap t) <= r + n -> n <= f1 -> n <= f2 ->
    summarize_span f1 (heap t) r = summarize_span f2 (heap t) r.
Proof.
  intros Ho. induction n as [|n IH]; intros r f1 f2 Hr H1 H2.
  - assert (Hnone : heap t !! r = None) by (apply lookup_ge_None_2; lia).
    destruct f1, f2; simpl; by rewrite ?Hnone.
  - destruct f1 as [|f1]; [lia|]. destruct f2 as [|f2]; [lia|]. simpl.
    destruct (heap t !! r) as [sp|] eqn:Hsp; [|done].
    do 7 f_equal. apply map_ext_in. intros c Hc%list_elem_of_In.
    specialize (Ho r sp Hsp). rewrite Forall_forall in Ho. specialize (Ho c Hc).
    apply IH; lia.
Qed.

(** So with the fuel [get_trace_summary] gives, the summary of a span is
    its own fields and the summaries of its children: the recursion of the
    source, never cut short. *)
Lemma summarize_span_unfold t r sp :
  heap_ordered t ->
  heap t !! r = Some sp ->
  summarize_span (length (heap t)) (heap t) r
  = VDict [("name", VStr (name sp));
           ("duration", match duration sp with
                        | Some d => VFloat (total_seconds d)
                        | None => VNone
                        end);
           ("metadata", VDict (metadata sp));
           ("children",
            VList (map (summarize_span (length (heap t)) (heap t)) (children sp)))].
Proof.
  intros Ho Hsp.
  rewrite (summarize_span_stable t Ho (length (heap t) - r) r
             (length (heap t)) (S (length (heap t)))) by lia.
  simpl. by rewrite Hsp.
Qed.

Lemma tidy_world0 : tidy world0.
Proof. split; [constructor|]. intros r sp Hsp. done. Qed.

(** Scoped code keeps the store tidy. *)
Lemma exec_tidy s w res w' : tidy w -> exec s w = (res, w') -> tidy w'.
Proof. intros Hw Hrun. exact (scoped_tidy _ _ (Scoped_exec s _ _ _ Hrun) Hw). Qed.
End SummaryFuel.

(** * The steps of a request *)
Section Frames.
Import coordinator.

Lemma steady_refl w : steady w w.
Proof. by constructor. Qed.

Lemma steady_trans w1 w2 w3 : steady w1 w2 -> steady w2 w3 -> steady w1 w3.
Proof. intros [] []. constructor; congruence. Qed.

#[export] Instance steady_preorder : PreOrder steady.
Proof. split; [exact steady_refl|exact steady_trans]. Qed.

#[export] Instance quiet_preorder : PreOrder quiet.
Proof.
  split.
  - intros w. split; reflexivity.
  - intros w1 w2 w3 [] []. split; by etrans.
Qed.

Lemma Run_quiet {A} (m : M A) : Run scoped m -> Run steady m -> Run quiet m.
Proof. intros Hs Hk w res w' Hrun. split; [by eapply Hs|by eapply Hk]. Qed.

Lemma Run_quiet_scoped {A} (m : M A) : Run quiet m -> Run scoped m.
Proof. intros H w res w' Hrun. by destruct (H _ _ _ Hrun). Qed.

Lemma Run_quiet_steady {A} (m : M A) : Run quiet m -> Run steady m.
Proof. intros H w res w' Hrun. by destruct (H _ _ _ Hrun). Qed.

(** Code that touches neither the metrics nor the coordinator's session. *)
Lemma steady_same w w' :
  _global_metrics w' = _global_metrics w -> self_session_id w' = self_session_id w ->
  steady w w'.
Proof.
  intros Hm Hs. constructor; unfold requests, successes, errors, durations; by rewrite ?Hm.
Qed.

Lemma quiet_same w w' :
  clock w' = clock w -> ticks w <= ticks w' ->
  _global_tracer w' = _global_tracer w ->
  _global_metrics w' = _global_metrics w ->
  self_session_id w' = self_session_id w ->
  quiet w w'.
Proof. intros. split; [by apply scoped_same_tracer|by apply steady_same]. Qed.

(** A [with] statement is [steady] when its body is. *)
Lemma steady_with_span {A} nm md (body : M A) :
  Run steady body -> Run steady (with_span nm md body).
Proof.
  intros Hbody w res w' Hrun. unfold with_span in Hrun.
  destruct (tracer.enabled (_global_tracer w)); simpl in Hrun; [|by eapply Hbody].
  destruct (tracer.span_enter _ _ _ _) as [t1 r].
  destruct (body _) as [res2 w2] eqn:Hb.
  apply Hbody in Hb. simpl in Hrun.
  destruct (tracer.span_exit _ _ _) as [out t3].
  assert (w' = set_tracer (set_ticks w2 (S (ticks w2))) t3) as ->
    by (by destruct out; injection Hrun as _ <-).
  etrans; [|etrans; [exact Hb|]]; by apply steady_same.
Qed.

Lemma quiet_with_span {A} nm md (body : M A) :
  Run quiet body -> Run quiet (with_span nm md body).
Proof.
  intros Hbody. apply Run_quiet.
  - by apply Scoped_with_span, Run_quiet_scoped.
  - by apply steady_with_span, Run_quiet_steady.
Qed.

Lemma quiet_time_now : Run quiet time_now.
Proof. intros w res w' [= _ <-]. apply quiet_same; simpl; [done|lia|done..]. Qed.

Lemma quiet_trace_summary : Run quiet trace_summary.
Proof.
  intros w res w' Hrun. unfold trace_summary in Hrun.
  destruct (tracer.enabled (_global_tracer w)); simpl in Hrun; injection Hrun as _ <-.
  - apply quiet_same; simpl; [done|lia|done..].
  - reflexivity.
Qed.

Lemma quiet_metrics_summary : Run quiet metrics_summary.
Proof.
  intros w res w' Hrun. unfold metrics_summary in Hrun.
  destruct (metrics.enabled (_global_metrics w)); simpl in Hrun; injection Hrun as _ <-.
  - apply quiet_same; simpl; [done|lia|done..].
  - reflexivity.
Qed.

Lemma quiet_update_session r c : Run quiet (update_session r c).
Proof.
  intros w res w' Hrun. unfold update_session in Hrun.
  destruct (session_manager.get_session _ _); simpl in Hrun; injection Hrun as _ <-.
  - apply quiet_same; simpl; [done|lia|done..].
  - reflexivity.
Qed.

Lemma quiet_store_insight insight md : Run quiet (store_insight insight md).
Proof.
  intros w res w' Hrun. unfold store_insight in Hrun. simpl in Hrun.
  destruct (memory_bank.store_insight _ _ _ _ _ _) as [[r b] st].
  injection Hrun as _ <-. apply quiet_same; simpl; [done|lia|done..].
Qed.

Lemma quiet_metrics_increment nm : foreign nm -> Run quiet (metrics_increment nm).
Proof.
  intros (H1 & H2 & H3) w res w' Hrun. unfold metrics_increment in Hrun.
  destruct (metrics.enabled (_global_metrics w)) eqn:Hen; simpl in Hrun;
    injection Hrun as _ <-; [|reflexivity].
  split; [apply scoped_same_tracer; simpl; [done|lia|done]|].
  constructor; unfold requests, successes, errors, durations; simpl.
  - by rewrite enabled_increment.
  - by apply counter_increment_ne.
  - by apply counter_increment_ne.
  - by apply counter_increment_ne.
  - apply timer_increment.
  - done.
Qed.

Lemma quiet_attr_get v k : Run quiet (attr_get v k).
Proof. destruct v; simpl; try apply Run_raise, _. apply Run_ret, _. Qed.

Lemma quiet_analyze_data_body block data query :
  Run quiet (analyze_data_body block data query).
Proof.
  apply Run_bind; [apply _| |intros _].
  { apply quiet_metrics_increment. by split_and!. }
  apply Run_try_except; [apply _| |intros e].
  - apply Run_bind; [apply _|apply Run_lift, _|]. intros [[insights statistics] shape].
    apply Run_bind; [apply _| |intros _; apply Run_ret, _].
    apply quiet_metrics_increment. by split_and!.
  - apply Run_bind; [apply _| |intros _; apply Run_ret, _].
    apply quiet_metrics_increment. by split_and!.
Qed.

Lemma quiet_analyze_data a data query : Run quiet (analyze_data a data query).
Proof.
  destruct a as [block|reply]; simpl; [|apply Run_lift, _].
  apply quiet_with_span, quiet_analyze_data_body.
Qed.

Lemma quiet_generate_report_body block title ar :
  Run quiet (generate_report_body block title ar).
Proof.
  apply Run_bind; [apply _| |intros _].
  { apply quiet_metrics_increment. by split_and!. }
  apply Run_try_except; [apply _| |intros e].
  - apply Run_bind; [apply _|apply Run_lift, _|]. intros [report sections].
    apply Run_bind; [apply _| |intros _; apply Run_ret, _].
    apply quiet_metrics_increment. by split_and!.
  - apply Run_bind; [apply _| |intros _; apply Run_ret, _].
    apply quiet_metrics_increment. by split_and!.
Qed.

Lemma quiet_generate_report g title ar : Run quiet (generate_report g title ar).
Proof.
  destruct g as [block|reply]; simpl; [|apply Run_lift, _].
  apply quiet_with_span, quiet_generate_report_body.
Qed.

Lemma quiet_load_data env path : Run quiet (_load_data env path).
Proof. apply quiet_with_span, Run_lift, _. Qed.

Lemma quiet_step3 env query workflow data : Run quiet (step3_analysis env query workflow data).
Proof.
  unfold step3_analysis. destruct (truthy_get "perform_analysis" workflow); [|apply Run_ret, _].
  apply Run_bind; [apply _|apply quiet_analyze_data|]. intros ar.
  apply Run_bind; [apply _| |intros _; apply Run_ret, _].
  destruct (_ && _); [|apply Run_ret, _].
  apply Run_bind; [apply _| |intros sid].
  { intros w res w' [= _ <-]. reflexivity. }
  apply Run_bind; [apply _|apply quiet_store_insight|]. intros _. apply Run_ret, _.
Qed.

Lemma quiet_step4 env workflow ar : Run quiet (step4_report env workflow ar).
Proof.
  unfold step4_report. destruct (truthy_get "generate_report" workflow); [|apply Run_ret, _].
  apply quiet_generate_report.
Qed.

Lemma quiet_compile_response query ar rr workflow :
  Run quiet (_compile_response query ar rr workflow).
Proof.
  unfold _compile_response.
  apply Run_bind; [apply _| |intros sid].
  { intros w res w' [= _ <-]. reflexivity. }
  apply Run_bind; [apply _| |intros response].
  { destruct (truthy_get "success" rr); [|apply Run_ret, _].
    apply Run_bind; [apply _|apply quiet_attr_get|]. intros filepath.
    apply Run_bind; [apply _|apply quiet_attr_get|]. intros format. apply Run_ret, _. }
  apply Run_bind; [apply _|apply quiet_trace_summary|]. intros trace.
  apply Run_bind; [apply _|apply quiet_metrics_summary|]. intros ms. apply Run_ret, _.
Qed.
End Frames.

(** * Outcomes that do not depend on the world *)
Section YieldsFacts.

Lemma Yields_ret {A} (a : A) : Yields (mret a) (Returns a).
Proof. by intros w. Qed.

Lemma Yields_raise {A} e : Yields (@raise A e) (Raises e).
Proof. by intros w. Qed.

Lemma Yields_lift {A} (b : behaviour A) : Yields (lift b) b.
Proof. by intros w. Qed.

Lemma Yields_bind {A B} (m : M A) (f : A -> M B) a r :
  Yields m (Returns a) -> Yields (f a) r -> Yields (m ≫= f) r.
Proof.
  intros Hm Hf w. unfold mbind, M_bind. specialize (Hm w).
  destruct (m w) as [[a'|e] w1]; simpl in Hm; [|done].
  injection Hm as ->. apply Hf.
Qed.

Lemma Yields_bind_raises {A B} (m : M A) (f : A -> M B) e :
  Yields m (Raises e) -> Yields (m ≫= f) (Raises e).
Proof.
  intros Hm w. unfold mbind, M_bind. specialize (Hm w).
  destruct (m w) as [[a'|e'] w1]; simpl in Hm; [done|]. by injection Hm as ->.
Qed.

Lemma Yields_try_returns {A} (body : M A) handler a :
  Yields body (Returns a) -> Yields (try_except body handler) (Returns a).
Proof.
  intros Hb w. unfold try_except. specialize (Hb w).
  destruct (body w) as [[a'|e] w1]; simpl in Hb; [|done]. by injection Hb as ->.
Qed.

(** An [Exception] goes to the handler, any other exception passes. *)
Lemma Yields_try_raises {A} (body : M A) handler (e : string) r :
  Yields body (Raises e) -> Yields (handler e) r -> Yields (try_except body handler) r.
Proof.
  intros Hb Hh w. unfold try_except. specialize (Hb w).
  destruct (body w) as [[a'|[e'|e']] w1]; simpl in Hb; [done| |done].
  injection Hb as ->. apply Hh.
Qed.

Lemma Yields_try_passes {A} (body : M A) handler e :
  Yields body (Raises (BaseException e)) ->
  Yields (try_except body handler) (Raises (BaseException e)).
Proof.
  intros Hb w. unfold try_except. specialize (Hb w).
  destruct (body w) as [[a'|[e'|e']] w1]; simpl in Hb; [done|done|].
  by injection Hb as ->.
Qed.

Lemma Yields_metrics_increment nm : Yields (metrics_increment nm) (Returns tt).
Proof. intros w. unfold metrics_increment. by destruct (metrics.enabled _). Qed.

(** A [with] statement around scoped code passes the outcome of its body
    on and runs it in the entered world. *)
Lemma with_span_body {A} nm md (body : M A) w res w' :
  Scoped body ->
  with_span nm md body w = (res, w') ->
  exists w2, body (span_entered w nm md) = (res, w2) /\ w' = span_exited w w2.
Proof.
  intros Hbody Hrun. unfold span_entered, span_exited.
  destruct (tracer.enabled (_global_tracer w)) eqn:Hen.
  - destruct (with_span_run _ _ _ _ _ _ Hbody Hen Hrun) as (w2 & Hb & ->). by exists w2.
  - rewrite with_span_disabled in Hrun by done. by exists w'.
Qed.

Lemma Yields_with_span {A} nm md (body : M A) r :
  Scoped body -> Yields body r -> Yields (with_span nm md body) r.
Proof.
  intros Hs Hy w. destruct (with_span nm md body w) as [res w'] eqn:Hrun.
  destruct (with_span_body _ _ _ _ _ _ Hs Hrun) as (w2 & Hb & _).
  simpl. rewrite <- (Hy (span_entered w nm md)). by rewrite Hb.
Qed.

Lemma Yields_analyze_data a data query :
  Yields (analyze_data a data query) (analysis_outcome a data query).
Proof.
  destruct a as [block|reply]; simpl; [|apply Yields_lift].
  apply Yields_with_span; [apply Run_quiet_scoped, quiet_analyze_data_body|].
  eapply Yields_bind; [apply Yields_metrics_increment|].
  destruct (block data query) as [[[insights statistics] shape]|[e|e]].
  - apply Yields_try_returns. eapply Yields_bind; [apply Yields_lift|]. simpl.
    eapply Yields_bind; [apply Yields_metrics_increment|]. apply Yields_ret.
  - eapply Yields_try_raises.
    + apply Yields_bind_raises, Yields_lift.
    + eapply Yields_bind; [apply Yields_metrics_increment|]. apply Yields_ret.
  - apply Yields_try_passes, Yields_bind_raises, Yields_lift.
Qed.

Lemma Yields_generate_report g title ar :
  Yields (generate_report g title ar) (report_outcome g title ar).
Proof.
  destruct g as [block|reply]; simpl; [|apply Yields_lift].
  apply Yields_with_span; [apply Run_quiet_scoped, quiet_generate_report_body|].
  eapply Yields_bind; [apply Yields_metrics_increment|].
  destruct (block title ar) as [[report sections]|[e|e]].
  - apply Yields_try_returns. eapply Yields_bind; [apply Yields_lift|]. simpl.
    eapply Yields_bind; [apply Yields_metrics_increment|]. apply Yields_ret.
  - eapply Yields_try_raises.
    + apply Yields_bind_raises, Yields_lift.
    + eapply Yields_bind; [apply Yields_metrics_increment|]. apply Yields_ret.
  - apply Yields_try_passes, Yields_bind_raises, Yields_lift.
Qed.

Lemma Yields_step4 env workflow ar :
  Yields (coordinator.step4_report env workflow ar) (step4_value env workflow ar).
Proof.
  unfold coordinator.step4_report, step4_value.
  destruct (truthy_get "generate_report" workflow); [|apply Yields_ret].
  apply Yields_generate_report.
Qed.
End YieldsFacts.

(** * The stages of [analyze] *)
Section Stages.
Import coordinator.

Lemma bind_inv {A B} (m : M A) (f : A -> M B) w res w' :
  (m ≫= f) w = (res, w') ->
  (exists a w1, m w = (Returns a, w1) /\ f a w1 = (res, w')) \/
  (exists e, m w = (Raises e, w') /\ res = Raises e).
Proof.
  unfold mbind, M_bind. destruct (m w) as [[a|e] w1].
  - intros H. left. by exists a, w1.
  - intros [= <- <-]. right. by exists e.
Qed.

Lemma run_yields {A} (m : M A) r w res w' : Yields m r -> m w = (res, w') -> res = r.
Proof. intros Hy Hrun. rewrite <- (Hy w). by rewrite Hrun. Qed.

(** The bank raises nothing but the error of [mkdir]. *)
Lemma store_insight_raises insight md w e w' :
  store_insight insight md w = (Raises e, w') ->
  exists msg, e = Exception msg /\ memory_bank.mkdir_error (storage w) = Some msg.
Proof.
  unfold store_insight, read_clock, memory_bank.store_insight, memory_bank.store,
    memory_bank._save_memories.
  cbn [set_ticks storage self_memory_bank].
  destruct (memory_bank.mkdir_error (storage w)) as [msg|] eqn:Hmk.
  - intros [= <- _]. by exists msg.
  - by destruct (memory_bank.open_error (storage w)), (memory_bank.dump_error (storage w)).
Qed.

Lemma step3_spec env query workflow data w res w' :
  step3_analysis env query workflow data w = (res, w') ->
  quiet w w' /\
  match step3_value env query workflow data with
  | Raises e => res = Raises e
  | Returns ar =>
      res = Returns ar \/ (stores_insight ar = true /\ exists msg : string, res = Raises msg)
  end.
Proof.
  intros Hrun. split; [by eapply quiet_step3|].
  unfold step3_analysis, step3_value in *.
  destruct (truthy_get "perform_analysis" workflow).
  2:{ injection Hrun as <- _. by left. }
  apply bind_inv in Hrun as [(ar & w1 & Ha & Hrest)|(e & Ha & ->)].
  - rewrite <- (run_yields _ _ _ _ _ (Yields_analyze_data _ _ _) Ha).
    apply bind_inv in Hrest as [([] & w2 & Hs & Hret)|(e & Hs & ->)].
    + injection Hret as <- _. by left.
    + right. fold (stores_insight ar) in Hs.
      destruct (stores_insight ar); [|done]. split; [done|].
      apply bind_inv in Hs as [(sid & w2 & _ & Hs)|(e' & [=] & _)].
      apply bind_inv in Hs as [(k & w3 & _ & [=])|(e' & Hs & [= ->])].
      apply store_insight_raises in Hs as (msg & -> & _). by exists msg.
  - by rewrite <- (run_yields _ _ _ _ _ (Yields_analyze_data _ _ _) Ha).
Qed.

(** [_compile_response], run in world [w]. *)
Lemma compile_run query ar rr workflow w :
  _compile_response query ar rr workflow w
  = match report_section rr with
    | Raises e => (Raises e, w)
    | Returns sec =>
        (Returns (compiled_response query (self_session_id w) workflow
                                    (analysis_section ar) sec
                                    (trace_at w) (metrics_at (after_trace_summary w))),
         after_metrics_summary (after_trace_summary w))
    end.
Proof.
  unfold _compile_response, report_section, compiled_response, analysis_section,
    trace_at, metrics_at, after_trace_summary, after_metrics_summary,
    trace_summary, metrics_summary, mbind, M_bind, mret, M_ret, attr_get, raise,
    with_section, read_clock.
  destruct (truthy_get "success" ar);
    destruct (tracer.enabled (_global_tracer w)) eqn:Ht;
    destruct (metrics.enabled (_global_metrics w)) eqn:Hm;
    (destruct (truthy_get "success" rr);
     [destruct (PyDict.get "report" rr) as [[| | | | | | |r]|]|]);
    try reflexivity;
    simpl; rewrite ?Ht, ?Hm; simpl; rewrite ?Ht, ?Hm; reflexivity.
Qed.
End Stages.

Section WrapUp.
Import coordinator.

Lemma Scoped_update_session r c : Scoped (update_session r c).
Proof. apply Run_quiet_scoped, quiet_update_session. Qed.

Lemma Scoped_wrap_up env response start : Scoped (wrap_up env response start).
Proof.
  unfold wrap_up.
  apply Run_bind; [apply _|apply Scoped_update_session|]. intros _.
  apply Run_bind; [apply _|apply Scoped_time_now|]. intros stop.
  apply Run_bind; [apply _|apply Scoped_metrics_record_timing|]. intros _.
  apply Run_bind; [apply _|apply Scoped_metrics_increment|]. intros _.
  apply Run_ret, _.
Qed.

Lemma Scoped_on_exception e : Scoped (on_exception e).
Proof.
  unfold on_exception.
  apply Run_bind; [apply _|apply Scoped_metrics_increment|]. intros _. apply Run_ret, _.
Qed.

(** The end of the [try] block returns the response it was given and
    records one duration and one success. *)
Lemma wrap_up_spec env response start w res w' :
  wrap_up env response start w = (res, w') ->
  res = Returns response /\ scoped w w' /\ success_recorded w w'.
Proof.
  intros Hrun. split_and!; [|by eapply Scoped_wrap_up|].
  - revert Hrun. unfold wrap_up, update_session, time_now, metrics_record_timing,
      metrics_increment, mbind, M_bind, mret, M_ret, read_clock.
    destruct (session_manager.get_session _ _); simpl;
      destruct (metrics.enabled (_global_metrics w)) eqn:Hm; simpl;
      rewrite ?enabled_record_timing, ?Hm; simpl; by intros [= <- _].
  - revert Hrun. unfold wrap_up, update_session, time_now, metrics_record_timing,
      metrics_increment, mbind, M_bind, mret, M_ret, read_clock.
    destruct (session_manager.get_session _ _); simpl;
      destruct (metrics.enabled (_global_metrics w)) eqn:Hm; simpl;
      rewrite ?enabled_record_timing, ?Hm; simpl; intros [= _ <-];
      constructor; unfold requests, successes, errors, durations; simpl;
      rewrite ?Hm, ?enabled_increment, ?enabled_record_timing;
      rewrite ?counter_increment_ne, ?counter_record_timing, ?timer_increment by done;
      try done.
    + rewrite counter_increment by (by rewrite enabled_record_timing).
      by rewrite counter_record_timing.
    + eexists. by apply timer_record_timing.
    + rewrite counter_increment by (by rewrite enabled_record_timing).
      by rewrite counter_record_timing.
    + eexists. by apply timer_record_timing.
Qed.

(** The [except] block returns the failure response and records one error. *)
Lemma on_exception_spec e w res w' :
  on_exception e w = (res, w') ->
  res = Returns (failure e) /\ scoped w w' /\ error_recorded w w'.
Proof.
  intros Hrun. split_and!; [|by eapply Scoped_on_exception|].
  - revert Hrun. unfold on_exception, metrics_increment, mbind, M_bind, mret, M_ret.
    destruct (metrics.enabled (_global_metrics w)); simpl; by intros [= <- _].
  - revert Hrun. unfold on_exception, metrics_increment, mbind, M_bind, mret, M_ret,
      read_clock.
    destruct (metrics.enabled (_global_metrics w)) eqn:Hm; simpl; intros [= _ <-];
      constructor; unfold requests, successes, errors, durations; simpl;
      rewrite ?Hm, ?enabled_increment;
      rewrite ?counter_increment_ne, ?timer_increment by done; try done.
    by rewrite counter_increment.
Qed.

(** The first two statements of the [with] body count the request and
    read the clock. *)
Lemma request_entry_spec w res w' :
  (metrics_increment "coordinator.analysis_requests" ;; time_now) w = (res, w') ->
  (exists start, res = Returns start) /\ scoped w w' /\ request_recorded w w'.
Proof.
  intros Hrun. split_and!.
  - revert Hrun. unfold metrics_increment, time_now, mbind, M_bind, read_clock.
    destruct (metrics.enabled (_global_metrics w)); simpl; intros [= <- _]; by eexists.
  - revert Hrun. apply Run_bind; [apply _|apply Scoped_metrics_increment|].
    intros _. apply Scoped_time_now.
  - revert Hrun. unfold metrics_increment, time_now, mbind, M_bind, read_clock.
    destruct (metrics.enabled (_global_metrics w)) eqn:Hm; simpl; intros [= _ <-];
      constructor; unfold requests, successes, errors, durations; simpl;
      rewrite ?Hm, ?enabled_increment;
      rewrite ?counter_increment_ne, ?timer_increment by done; try done.
    by rewrite counter_increment.
Qed.
End WrapUp.

Section TryBlock.
Import coordinator.

Lemma after_summaries_quiet w : quiet w (after_metrics_summary (after_trace_summary w)).
Proof.
  unfold after_metrics_summary, after_trace_summary.
  destruct (tracer.enabled (_global_tracer w)), (metrics.enabled (_global_metrics w)) eqn:Hm;
    simpl; rewrite ?Hm; try reflexivity; apply quiet_same; simpl; try done; lia.
Qed.

Lemma success_recorded_from w0 w w' :
  steady w0 w -> success_recorded w w' -> success_recorded w0 w'.
Proof.
  intros [He Hr Hs Her Hd Hsid] [He' Hr' Her' Hs' Hd' Hsid'].
  rewrite He in *.
  destruct (metrics.enabled (_global_metrics w0)) eqn:Hen;
    constructor; rewrite ?Hen; try congruence.
  destruct Hd' as [d Hd']. exists d. congruence.
Qed.

Lemma finish_spec env query workflow data start w res w' :
  finish env query workflow data start w = (res, w') ->
  (exists ar rr sec wc,
      step3_value env query workflow data = Returns ar /\
      step4_value env workflow ar = Returns rr /\
      report_section rr = Returns sec /\
      quiet w wc /\ scoped wc w' /\ success_recorded wc w' /\
      res = Returns (compiled_response query (self_session_id w) workflow
                                       (analysis_section ar) sec
                                       (trace_at wc) (metrics_at (after_trace_summary wc))))
  \/ (exists e, res = Raises e /\ quiet w w' /\ raise_reason env query workflow data e).
Proof.
  intros Hrun. unfold finish in Hrun.
  apply bind_inv in Hrun as [(ar & w1 & H3 & Hrun)|(e & H3 & ->)].
  - apply step3_spec in H3 as [Hq1 Hv3].
    assert (Hval3 : step3_value env query workflow data = Returns ar).
    { destruct (step3_value env query workflow data) as [ar'|e]; [|done].
      destruct Hv3 as [[= ->]|(_ & e & [=])]. done. }
    clear Hv3.
    apply bind_inv in Hrun as [(rr & w2 & H4 & Hrun)|(e & H4 & ->)].
    + pose proof (quiet_step4 _ _ _ _ _ _ H4) as Hq2.
      apply (run_yields _ _ _ _ _ (Yields_step4 _ _ _)) in H4.
      apply bind_inv in Hrun as [(response & w3 & H5 & Hrun)|(e & H5 & ->)].
      * rewrite compile_run in H5.
        destruct (report_section rr) as [sec|e] eqn:Hsec; [|done].
        injection H5 as <- <-.
        apply wrap_up_spec in Hrun as (-> & Hsc & Hrec).
        pose proof (after_summaries_quiet w2) as [Hsc' Hst'].
        left. exists ar, rr, sec, w2. split_and!; try done.
        -- by etrans.
        -- by etrans.
        -- by eapply success_recorded_from.
        -- destruct Hq1 as [_ [_ _ _ _ _ Hs1]], Hq2 as [_ [_ _ _ _ _ Hs2]].
           by rewrite Hs2, Hs1.
      * rewrite compile_run in H5.
        destruct (report_section rr) as [sec|e'] eqn:Hsec; [done|].
        injection H5 as -> <-.
        right. exists e. split_and!; [done|by etrans|].
        right. exists ar. split; [done|]. right. right. by exists rr.
    + pose proof (quiet_step4 _ _ _ _ _ _ H4) as Hq2.
      apply (run_yields _ _ _ _ _ (Yields_step4 _ _ _)) in H4.
      right. exists e. split_and!; [done|by etrans|].
      right. exists ar. split; [done|]. right. by left.
  - apply step3_spec in H3 as [Hq1 Hv3].
    right. exists e. split_and!; [done|done|].
    destruct (step3_value env query workflow data) as [ar|e'] eqn:Hval3.
    + destruct Hv3 as [[=]|(Hst & msg & [= ->])]. right. exists ar. split; [done|].
      left. split; [done|]. by exists msg.
    + injection Hv3 as ->. by left.
Qed.

Lemma Yields_update_session r c : Yields (update_session r c) (Returns tt).
Proof. intros w. unfold update_session. by destruct (session_manager.get_session _ _). Qed.

Lemma Yields_load_data env path : Yields (_load_data env path) (load_result env path).
Proof.
  apply Yields_with_span; [apply Run_lift, _|apply Yields_lift].
Qed.

Lemma step2_not_needed env workflow data_file :
  needs_load workflow data_file = false ->
  step2_value env workflow data_file = Returns (GoesOn None).
Proof. intros H. unfold step2_value. by rewrite H. Qed.

Lemma step2_needed env workflow data_file :
  needs_load workflow data_file = true ->
  step2_value env workflow data_file
  = match load_result env (path_to_load data_file) with
    | Returns (Some d) => Returns (GoesOn (Some d))
    | Returns None => Returns LoadFailed
    | Raises e => Raises e
    end.
Proof.
  intros H. unfold step2_value. rewrite H.
  by destruct (load_result env (path_to_load data_file)) as [[d|]|e].
Qed.

(** The [try] block of [analyze] ends in one of five ways. *)
Lemma orchestrate_spec env query data_file start w res w' :
  orchestrate env query data_file start w = (res, w') ->
  try_end env query data_file w res w'.
Proof.
  intros Hrun. unfold orchestrate in Hrun.
  apply bind_inv in Hrun as [([] & w1 & Hu & Hrun)|(e & Hu & ->)].
  2:{ by apply (run_yields _ _ _ _ _ (Yields_update_session _ _)) in Hu. }
  pose proof (quiet_update_session _ _ _ _ _ Hu) as Hq1.
  assert (Hsid : self_session_id w1 = self_session_id w) by (by destruct Hq1 as [_ []]).
  apply bind_inv in Hrun as [(workflow & w1' & Hp & Hrun)|(e & Hp & ->)].
  2:{ injection Hp as Hp <-. by apply try_plan_raised. }
  injection Hp as Hp <-.
  fold (needs_load workflow data_file) in Hrun.
  destruct (needs_load workflow data_file) eqn:Hneed.
  - pose proof (step2_needed env workflow data_file Hneed) as H2.
    apply bind_inv in Hrun as [(data & w2 & Hl & Hrun)|(e & Hl & ->)].
    2:{ pose proof (quiet_load_data _ _ _ _ _ Hl) as Hq2.
        apply (run_yields _ _ _ _ _ (Yields_load_data _ _)) in Hl. rewrite <- Hl in H2.
        eapply try_load_raised; [exact Hp|exact H2|by etrans]. }
    pose proof (quiet_load_data _ _ _ _ _ Hl) as Hq2.
    apply (run_yields _ _ _ _ _ (Yields_load_data _ _)) in Hl. rewrite <- Hl in H2.
    assert (Hsid2 : self_session_id w2 = self_session_id w1) by (by destruct Hq2 as [_ []]).
    destruct data as [d|].
    + apply finish_spec in Hrun
          as [(ar & rr & sec & wc & H3 & H4 & Hsec & Hq & Hsc & Hrec & ->)|(e & -> & Hq & Hreason)].
      * rewrite Hsid2, Hsid.
        eapply (try_finished env query data_file w workflow (Some d) ar rr sec wc w');
          try done.
        etrans; [exact Hq1|]. by etrans.
      * eapply try_raised; [exact Hp|exact H2|exact Hreason|].
        etrans; [exact Hq1|]. by etrans.
    + injection Hrun as <- <-. eapply try_load_failed; [exact Hp|exact H2|by etrans].
  - pose proof (step2_not_needed env workflow data_file Hneed) as H2.
    apply finish_spec in Hrun
        as [(ar & rr & sec & wc & H3 & H4 & Hsec & Hq & Hsc & Hrec & ->)|(e & -> & Hq & Hreason)].
    + rewrite Hsid.
      eapply (try_finished env query data_file w workflow None ar rr sec wc w'); try done.
      by etrans.
    + eapply try_raised; [exact Hp|exact H2|exact Hreason|by etrans].
Qed.

Lemma Scoped_finish env query workflow data start :
  Scoped (finish env query workflow data start).
Proof.
  unfold finish.
  apply Run_bind; [apply _|apply Run_quiet_scoped, quiet_step3|]. intros ar.
  apply Run_bind; [apply _|apply Run_quiet_scoped, quiet_step4|]. intros rr.
  apply Run_bind; [apply _|apply Run_quiet_scoped, quiet_compile_response|]. intros response.
  apply Scoped_wrap_up.
Qed.

Lemma Scoped_orchestrate env query data_file start :
  Scoped (orchestrate env query data_file start).
Proof.
  unfold orchestrate.
  apply Run_bind; [apply _|apply Scoped_update_session|]. intros _.
  apply Run_bind; [apply _|apply Run_lift, _|]. intros workflow.
  destruct (_ || _); [|apply Scoped_finish].
  apply Run_bind; [apply _|apply Run_quiet_scoped, quiet_load_data|]. intros [d|].
  - apply Scoped_finish.
  - apply Run_ret, _.
Qed.

Lemma Scoped_request env query data_file : Scoped (request env query data_file).
Proof.
  unfold request.
  apply Run_bind; [apply _|apply Scoped_metrics_increment|]. intros _.
  apply Run_bind; [apply _|apply Scoped_time_now|]. intros start.
  apply Run_try_except; [apply _|apply Scoped_orchestrate|]. apply Scoped_on_exception.
Qed.

Lemma Scoped_analyze env query data_file : Scoped (analyze env query data_file).
Proof. apply Scoped_with_span, Scoped_request. Qed.

Lemma analyze_tidy env query data_file w res w' :
  tidy w -> analyze env query data_file w = (res, w') -> tidy w'.
Proof. intros Hw Hrun. exact (scoped_tidy _ _ (Scoped_analyze _ _ _ _ _ _ Hrun) Hw). Qed.

(** The whole of [analyze]: the span is entered, the request is counted,
    the [try] block ends in one of its ways, an [Exception] is turned into
    a failure response and counted, any other exception passes, and the
    span is left. *)
Lemma analyze_spec env query data_file w res w' :
  analyze env query data_file w = (res, w') ->
  exists w0 res0 w1 w2,
    let w_in := span_entered w "coordinator.analyze" (Some [("query", VStr query)]) in
    scoped w_in w0 /\ request_recorded w_in w0 /\
    try_end env query data_file w0 res0 w1 /\
    match res0 with
    | Returns r => res = Returns r /\ w2 = w1
    | Raises (Exception e) =>
        res = Returns (failure e) /\ scoped w1 w2 /\ error_recorded w1 w2
    | Raises (BaseException e) => res = Raises (BaseException e) /\ w2 = w1
    end /\
    w' = span_exited w w2.
Proof.
  intros Hrun. unfold analyze in Hrun.
  apply with_span_body in Hrun as (w2 & Hb & ->); [|apply Scoped_request].
  set (w_in := span_entered w _ _) in *.
  unfold request in Hb.
  apply bind_inv in Hb as [([] & wa & Hi & Hb)|(e & Hi & _)].
  2:{ by apply (run_yields _ _ _ _ _ (Yields_metrics_increment _)) in Hi. }
  apply bind_inv in Hb as [(start & w0 & Ht & Hb)|(e & Ht & _)]; [|done].
  assert (Hentry : (metrics_increment "coordinator.analysis_requests" ;; time_now) w_in
                   = (Returns start, w0)).
  { unfold mbind, M_bind. by rewrite Hi. }
  apply request_entry_spec in Hentry as (_ & Hsc0 & Hrec0).
  unfold try_except in Hb.
  destruct (orchestrate env query data_file start w0) as [[r|[e|e]] w1] eqn:Ho;
    apply orchestrate_spec in Ho.
  - injection Hb as <- <-. exists w0, (Returns r), w1, w1. by split_and!.
  - apply on_exception_spec in Hb as (-> & Hsc & Herr).
    exists w0, (Raises e), w1, w2. by split_and!.
  - injection Hb as <- <-. exists w0, (Raises (BaseException e)), w1, w1. by split_and!.
Qed.
End TryBlock.

(** * The request life cycle *)
Section Lifecycle.
Import coordinator.



Lemma get_with_section_ne k k' sec (d : dict) :
  k <> k' -> PyDict.get k' (with_section k sec d) = PyDict.get k' d.
Proof. intros Hne. destruct sec; simpl; [by apply dict_get_set_ne|done]. Qed.

Lemma compiled_success query sid workflow analysis report trace ms :
  PyDict.get "success" (compiled_response query sid workflow analysis report trace ms)
  = Some (VBool true).
Proof. destruct analysis, report; reflexivity. Qed.

Lemma compiled_trace query sid workflow analysis report trace ms :
  PyDict.get "trace" (compiled_response query sid workflow analysis report trace ms)
  = Some (VDict trace).
Proof. destruct analysis, report; reflexivity. Qed.

Lemma compiled_analysis query sid workflow analysis report trace ms :
  PyDict.get "analysis" (compiled_response query sid workflow analysis report trace ms)
  = analysis.
Proof. destruct analysis, report; reflexivity. Qed.

Lemma compiled_report query sid workflow analysis report trace ms :
  PyDict.get "report" (compiled_response query sid workflow analysis report trace ms)
  = report.
Proof. destruct analysis, report; reflexivity. Qed.

(** The ways of the [try] block exclude each other as far as the plan
    and the loading go. *)
Lemma try_end_load_failed env query data_file w0 res0 w1 workflow :
  _plan_workflow env query data_file = Returns workflow ->
  step2_value env workflow data_file = Returns LoadFailed ->
  try_end env query data_file w0 res0 w1 ->
  res0 = Returns load_failure /\ quiet w0 w1.
Proof.
  intros Hp H2 Htry.
  destruct Htry as [wf data ar rr sec wc w1 Hp' H2' _ _ _ _ _ _|wf w1 Hp' H2' Hq
                   |e w1 Hp' _|wf e w1 Hp' H2' _|wf data e w1 Hp' H2' _ _];
    try congruence; try (assert (wf = workflow) as -> by congruence; congruence).
  done.
Qed.

Lemma try_end_plan_raised env query data_file w0 res0 w1 e :
  _plan_workflow env query data_file = Raises e ->
  try_end env query data_file w0 res0 w1 ->
  res0 = Raises e /\ quiet w0 w1.
Proof.
  intros Hp Htry.
  destruct Htry as [wf data ar rr sec wc w1 Hp' _ _ _ _ _ _ _|wf w1 Hp' _ _
                   |e' w1 Hp' Hq|wf e' w1 Hp' _ _|wf data e' w1 Hp' _ _ _];
    try congruence.
  split; [congruence|done].
Qed.

Lemma try_end_goes_on env query data_file w0 res0 w1 workflow data :
  _plan_workflow env query data_file = Returns workflow ->
  step2_value env workflow data_file = Returns (GoesOn data) ->
  try_end env query data_file w0 res0 w1 ->
  (exists ar rr sec wc,
      step3_value env query workflow data = Returns ar /\
      step4_value env workflow ar = Returns rr /\
      report_section rr = Returns sec /\
      quiet w0 wc /\ scoped wc w1 /\ success_recorded wc w1 /\
      res0 = Returns (compiled_response query (self_session_id w0) workflow
                                        (analysis_section ar) sec
                                        (trace_at wc) (metrics_at (after_trace_summary wc))))
  \/ (exists e, res0 = Raises e /\ quiet w0 w1 /\ raise_reason env query workflow data e).
Proof.
  intros Hp H2 Htry.
  destruct Htry as [wf data' ar rr sec wc w1 Hp' H2' H3 H4 Hsec Hq Hsc Hrec|wf w1 Hp' H2' Hq
                   |e w1 Hp' _|wf e w1 Hp' H2' _|wf data' e w1 Hp' H2' Hreason Hq];
    try congruence; try (assert (wf = workflow) as -> by congruence; congruence).
  - assert (wf = workflow) as -> by congruence.
    assert (data' = data) as -> by congruence.
    left. by exists ar, rr, sec, wc.
  - assert (wf = workflow) as -> by congruence.
    assert (data' = data) as -> by congruence.
    right. by exists e.
Qed.

End Lifecycle.

Section LifecycleExamples.
Import coordinator.



(** A request whose data cannot be loaded returns before anything but the
    request itself is counted. *)
Lemma analyze_load_failure_counts_nothing :
  let run := analyze (env_with failing_analyst reporting_double)
                     "summarise the data" None world0 in
  fst run = Returns load_failure /\
  requests (snd run) = 1%Z /\ errors (snd run) = 0%Z /\
  successes (snd run) = 0%Z /\ durations (snd run) = [].
Proof. vm_compute. split_and!; reflexivity. Qed.

(** So does a request that is interrupted: the exception leaves [analyze]. *)
Lemma analyze_interrupted_counts_nothing :
  let run := analyze (env_with interrupted_analyst reporting_double)
                     "generate a report" None world0 in
  fst run = Raises (BaseException "KeyboardInterrupt") /\
  requests (snd run) = 1%Z /\ errors (snd run) = 0%Z /\
  successes (snd run) = 0%Z /\ durations (snd run) = [].
Proof. vm_compute. split_and!; reflexivity. Qed.

(** The plan, when there is one, asks for the analysis. *)
Lemma plan_performs_analysis env query data_file workflow :
  _plan_workflow env query data_file = Returns workflow ->
  truthy_get "perform_analysis" workflow = true.
Proof.
  unfold _plan_workflow.
  destruct (generate_content env) as [reply|[e|e]]; simpl; by intros [= <-].
Qed.

Lemma step3_value_plan env query data_file workflow data :
  _plan_workflow env query data_file = Returns workflow ->
  step3_value env query workflow data
  = analysis_outcome (data_analyst env) data query.
Proof. intros Hp. unfold step3_value. by rewrite (plan_performs_analysis _ _ _ _ Hp). Qed.

(** The repository's analyst raises no [Exception]: a failure of its
    [try] block comes back as a result without success. *)
Lemma analyst_agent_reports_failure block data query (e : string) :
  block data query = Raises e ->
  analysis_outcome (DataAnalystAgent block) data query
  = Returns [("success", VBool false); ("error", VStr e)].
Proof. intros H. simpl. by rewrite H. Qed.

(** C1 (partial-failure continuation).  Take a request with a plan and
    with its data, if it needs any.  If report generation is requested,
    the analysis result comes back without success and the report
    collaborator succeeds with a [report] dictionary, then [analyze]
    returns a response with [success: True], no [analysis] key, and the
    [filepath] and [format] of that [report].  If the call of the analysis
    collaborator raises, nothing continues: an [Exception] is answered by
    the failure response of the [except] block, which has no report; any
    other exception leaves [analyze]. *)
Theorem analysis_failure_keeps_report env query data_file workflow data w res w' :
(* the request is planned, and the data, if any, is there *)
  _plan_workflow env query data_file = Returns workflow ->
  step2_value env workflow data_file = Returns (GoesOn data) ->
  analyze env query data_file w = (res, w') ->
(* the analysis collaborator reports a failure *)
  (forall ar rr r,
      truthy_get "generate_report" workflow = true ->
      analysis_outcome (data_analyst env) data query = Returns ar ->
      truthy_get "success" ar = false ->
      (* the report collaborator succeeds on what there is *)
      report_outcome (report_generator env) (title_of workflow) ar = Returns rr ->
      truthy_get "success" rr = true ->
      PyDict.get "report" rr = Some (VDict r) ->
      exists response,
        res = Returns response /\
        PyDict.get "success" response = Some (VBool true) /\
        PyDict.get "analysis" response = None /\
        PyDict.get "report" response
        = Some (VDict [("filepath", get_or_none "filepath" r);
                       ("format", get_or_none "format" r)])) /\
(* the analysis collaborator raises *)
  (forall e,
      analysis_outcome (data_analyst env) data query = Raises e ->
      match e with
      | Exception msg =>
          res = Returns [("success", VBool false); ("error", VStr msg)]
      | BaseException msg => res = Raises (BaseException msg)
      end).
Proof.
  intros Hp H2 Hrun.
  apply analyze_spec in Hrun as (w0 & res0 & w1 & w2 & _ & _ & Htry & Hres & _).
  apply (try_end_goes_on _ _ _ _ _ _ _ _ Hp H2) in Htry.
  rewrite (step3_value_plan _ _ _ _ _ Hp) in Htry.
  split.
  - intros ar rr r Hflag Han Hfail Hrep Hok Hreport.
    assert (Hstep4 : step4_value env workflow ar = Returns rr).
    { unfold step4_value. by rewrite Hflag. }
    assert (Hsec : report_section rr
                   = Returns (Some (VDict [("filepath", get_or_none "filepath" r);
                                           ("format", get_or_none "format" r)]))).
    { unfold report_section. by rewrite Hok, Hreport. }
    assert (Hnostore : stores_insight ar = false).
    { unfold stores_insight. by rewrite Hfail. }
    destruct Htry as [(ar' & rr' & sec & wc & H3 & H4 & Hsec' & _ & _ & _ & ->)
                     |(e & -> & _ & Hreason)].
    + destruct Hres as [-> _].
      assert (ar' = ar) as -> by congruence.
      assert (rr' = rr) as -> by congruence.
      assert (sec = Some (VDict [("filepath", get_or_none "filepath" r);
                                 ("format", get_or_none "format" r)])) as -> by congruence.
      eexists. split; [done|].
      rewrite compiled_success, compiled_analysis, compiled_report.
      unfold analysis_section. by rewrite Hfail.
    + exfalso. unfold raise_reason in Hreason.
      rewrite (step3_value_plan _ _ _ _ _ Hp) in Hreason.
      destruct Hreason as [H3|(ar' & H3 & Hrest)]; [congruence|].
      assert (ar' = ar) as -> by congruence.
      destruct Hrest as [[Hst _]|[H4|(rr' & H4 & Hsec')]]; [congruence|congruence|].
      assert (rr' = rr) as -> by congruence. congruence.
  - intros e Han.
    destruct Htry as [(ar' & rr' & sec & wc & H3 & _)|(e' & -> & _ & Hreason)];
      [congruence|].
    unfold raise_reason in Hreason.
    rewrite (step3_value_plan _ _ _ _ _ Hp) in Hreason.
    assert (e' = e) as ->.
    { destruct Hreason as [H3|(ar' & H3 & _)]; congruence. }
    destruct e as [msg|msg]; by destruct Hres as [-> _].
Qed.

Lemma analysis_failure_keeps_report_witness :
  exists response w',
    analyze (env_with failing_analyst reporting_double) "generate a report" None world0
    = (Returns response, w') /\
    PyDict.get "success" response = Some (VBool true) /\
    PyDict.get "analysis" response = None /\
    PyDict.get "report" response
    = Some (VDict [("filepath", VStr "x.md"); ("format", VNone)]).
Proof.
  destruct (analyze (env_with failing_analyst reporting_double) "generate a report" None world0)
    as [res w'] eqn:Hrun.
  destruct (analysis_failure_keeps_report
              (env_with failing_analyst reporting_double) "generate a report" None
              (planned "generate a report" None) None world0 res w'
              eq_refl eq_refl Hrun) as [Hkeeps _].
  destruct (Hkeeps [("success", VBool false); ("error", VStr "model unavailable")]
                   [("success", VBool true); ("report", VDict [("filepath", VStr "x.md")])]
                   [("filepath", VStr "x.md")])
    as (response & -> & Hs & Ha & Hr); try reflexivity.
  exists response, w'. by split_and!.
Defined.

(** C1 fails as stated: when the analysis collaborator throws, the
    exception reaches the [except] block of [analyze], and the response is
    a failure without a report. *)
Lemma analysis_exception_aborts_request :
  let run := analyze (env_with throwing_analyst reporting_double)
                     "generate a report" None world0 in
  fst run = Returns [("success", VBool false); ("error", VStr "boom")] /\
  (forall response, fst run = Returns response ->
     PyDict.get "success" response = Some (VBool false) /\
     PyDict.get "report" response = None).
Proof.
  vm_compute. split; [reflexivity|]. intros response [= <-]. by split.
Qed.
End LifecycleExamples.

(** * Accumulation of the trace *)
Section TraceAccumulates.
Import coordinator tracer.

(** The summary of a span object of the store shows its name and metadata. *)
Lemma summarize_span_fields h r sp :
  h !! r = Some sp ->
  exists duration children,
    summarize_span (length h) h r
    = VDict [("name", VStr (name sp)); ("duration", duration);
             ("metadata", VDict (metadata sp)); ("children", children)].
Proof.
  intros Hsp. pose proof (lookup_lt_Some _ _ _ Hsp) as Hlt.
  destruct (length h) as [|n] eqn:Hlen; [lia|]. simpl. rewrite Hsp. by eexists _, _.
Qed.

Lemma trace_at_spans w :
  enabled (_global_tracer w) = true ->
  PyDict.get "spans" (trace_at w)
  = Some (VList (summarize_span (length (heap (_global_tracer w))) (heap (_global_tracer w))
                 <$> spans (_global_tracer w))) /\
  PyDict.get "total_spans" (trace_at w)
  = Some (VInt (Z.of_nat (length (spans (_global_tracer w))))).
Proof. intros Hen. unfold trace_at, get_trace_summary. rewrite Hen. by split. Qed.

(** A response with a trace comes from a request that has reached
    [_compile_response]: the trace is the summary taken there, inside the
    span of the request. *)
Lemma analyze_trace env query data_file w response w' trace :
  analyze env query data_file w = (Returns response, w') ->
  PyDict.get "trace" response = Some (VDict trace) ->
  exists wc,
    scoped (span_entered w "coordinator.analyze" (Some [("query", VStr query)])) wc /\
    trace = trace_at wc.
Proof.
  intros Hrun Htrace.
  apply analyze_spec in Hrun as (wa & res0 & wb & wc' & Hsca & _ & Htry & Hres & _).
  assert (Hraised : forall e, res0 = Raises e -> False).
  { intros [e|e] ->.
    - destruct Hres as ([= ->] & _). done.
    - by destruct Hres as [[=] _]. }
  destruct Htry as [wf data ar rr sec wc wb _ _ _ _ _ [Hq _] _ _|wf wb _ _ _
                   |e wb _ _|wf e wb _ _ _|wf data e wb _ _ _ _];
    try (by destruct (Hraised _ eq_refl)).
  - destruct Hres as [[= ->] _]. rewrite compiled_trace in Htrace. injection Htrace as <-.
    exists wc. split; [by etrans|done].
  - destruct Hres as [[= ->] _]. done.
Qed.

(** C10 (the trace only grows).  No program of tracer operations, and no
    call of [analyze], drops a root span or a span object.  So when two
    calls of [analyze] share the tracer, the first one started with no span
    open, and the second one returns a response with a trace, that trace
    lists the root span of the first request, with its name and its query,
    at the place where it was recorded; the second request's root comes
    after it. *)
Theorem trace_accumulates
    env1 query1 file1 env2 query2 file2 w0 res1 w1 w1' res2 w2 response trace :
  enabled (_global_tracer w0) = true ->
  active_spans (_global_tracer w0) = [] ->
  analyze env1 query1 file1 w0 = (res1, w1) ->
(* the second request finds the tracer as the first one left it *)
  _global_tracer w1' = _global_tracer w1 ->
  analyze env2 query2 file2 w1' = (res2, w2) ->
  res2 = Returns response ->
  PyDict.get "trace" response = Some (VDict trace) ->
(* no program of tracer operations drops a root or a span object *)
  (forall s w res w',
      exec s w = (res, w') ->
      spans (_global_tracer w) `prefix_of` spans (_global_tracer w') /\
      forall r sp, heap (_global_tracer w) !! r = Some sp ->
                   exists sp', heap (_global_tracer w') !! r = Some sp' /\ grown sp sp') /\
(* nor does [analyze] *)
  spans (_global_tracer w0) `prefix_of` spans (_global_tracer w1) /\
  spans (_global_tracer w1') `prefix_of` spans (_global_tracer w2) /\
(* the first request has recorded a root span *)
  spans (_global_tracer w1) = spans (_global_tracer w0) ++ [length (heap (_global_tracer w0))] /\
(* which the trace in the second response shows at its place *)
  exists entries entry,
    PyDict.get "spans" trace = Some (VList entries) /\
    entries !! length (spans (_global_tracer w0)) = Some (VDict entry) /\
    PyDict.get "name" entry = Some (VStr "coordinator.analyze") /\
    PyDict.get "metadata" entry = Some (VDict [("query", VStr query1)]) /\
    PyDict.get "total_spans" trace
    = Some (VInt (Z.of_nat (length (spans (_global_tracer w0)) + 2))).
Proof.
  intros Hen Hact Hrun1 Hsame Hrun2 -> Htrace.
  pose proof (Scoped_analyze _ _ _ _ _ _ Hrun1) as Hsc1.
  pose proof (Scoped_analyze _ _ _ _ _ _ Hrun2) as Hsc2.
  split.
  { intros s w res w' Hrun. pose proof (Scoped_exec s _ _ _ Hrun) as Hsc.
    split; [apply (scoped_roots _ _ Hsc)|].
    intros r sp Hsp. destruct (scoped_old _ _ Hsc r sp Hsp) as (sp' & ? & ? & _).
    by exists sp'. }
  split; [apply (scoped_roots _ _ Hsc1)|].
  split; [apply (scoped_roots _ _ Hsc2)|].
(* the first request *)
  assert (Hvalid : refs_valid w0) by (unfold refs_valid; rewrite Hact; constructor).
  unfold analyze in Hrun1.
  destruct (with_span_spec _ _ _ _ _ _ (Scoped_request _ _ _) Hen Hvalid Hrun1)
    as (_ & (sp & stop & Hsp & Hname & Hmd & _) & Hatt).
  unfold attached in Hatt. rewrite Hact in Hatt. simpl in Hatt.
  split; [exact Hatt|].
  set (r1 := length (heap (_global_tracer w0))) in *.
  assert (Hen1 : enabled (_global_tracer w1') = true)
    by (by rewrite Hsame, (scoped_enabled _ _ Hsc1)).
  assert (Hact1 : active_spans (_global_tracer w1') = [])
    by (by rewrite Hsame, (scoped_active _ _ Hsc1)).
(* the second request *)
  destruct (analyze_trace _ _ _ _ _ _ _ Hrun2 Htrace) as (wc & Hsc & ->).
  unfold span_entered in Hsc. rewrite Hen1 in Hsc.
  assert (Henc : enabled (_global_tracer wc) = true).
  { rewrite (scoped_enabled _ _ Hsc). unfold entered. cbn [set_tracer _global_tracer].
    by rewrite span_enter_enabled. }
  assert (Hroots : spans (_global_tracer wc)
                   = spans (_global_tracer w0) ++ [r1; length (heap (_global_tracer w1))]).
  { rewrite (scoped_roots_nested _ _ Hsc).
    - unfold entered. cbn [set_tracer _global_tracer].
      rewrite span_enter_roots, Hact1, Hsame, Hatt. simpl. by rewrite <- app_assoc.
    - unfold entered. cbn [set_tracer _global_tracer].
      by rewrite span_enter_active, Hact1. }
  assert (Hspan : exists sp', heap (_global_tracer wc) !! r1 = Some sp' /\ grown sp sp').
  { rewrite <- Hsame in Hsp.
    pose proof (span_enter_old (_global_tracer w1') "coordinator.analyze"
                  (Some [("query", VStr query2)]) (clock w1' (ticks w1')) r1 sp Hsp) as Hold.
    rewrite Hact1 in Hold. simpl in Hold.
    destruct (scoped_old _ _ Hsc r1 sp Hold) as (sp' & ? & ? & _). by exists sp'. }
  destruct Hspan as (sp' & Hsp' & [Hn' _ _ Hm' _]).
  destruct (trace_at_spans wc Henc) as [Hspans Htotal].
  destruct (summarize_span_fields _ _ _ Hsp') as (duration & children & Hsum).
  eexists _, _. split; [exact Hspans|].
  rewrite Hroots. split_and!.
  - rewrite list_lookup_fmap, lookup_app_r by done.
    rewrite Nat.sub_diag. simpl. by rewrite Hsum.
  - simpl. by rewrite Hn', Hname.
  - simpl. by rewrite Hm', Hmd.
  - rewrite Htotal, Hroots, length_app. simpl. done.
Qed.
End TraceAccumulates.

Section TraceExample.
Import coordinator tracer.

Lemma trace_accumulates_witness :
  let env := env_with failing_analyst reporting_double in
  exists res1 w1 response w2 trace entries entry,
    analyze env "generate a report" None world0 = (res1, w1) /\
    analyze env "generate another report" None w1 = (Returns response, w2) /\
    PyDict.get "trace" response = Some (VDict trace) /\
    PyDict.get "spans" trace = Some (VList entries) /\
    entries !! 0 = Some (VDict entry) /\
    PyDict.get "name" entry = Some (VStr "coordinator.analyze") /\
    PyDict.get "metadata" entry = Some (VDict [("query", VStr "generate a report")]).
Proof.
  intros env.
  destruct (analyze env "generate a report" None world0) as [res1 w1] eqn:H1.
  destruct (analyze env "generate another report" None w1) as [res2 w2] eqn:H2.
  assert (Hres : exists response trace,
             res2 = Returns response /\ PyDict.get "trace" response = Some (VDict trace)).
  { pose proof H1 as H1'. pose proof H2 as H2'.
    vm_compute in H1'. injection H1' as <- <-.
    vm_compute in H2'. injection H2' as <- <-.
    eexists _, _. split; reflexivity. }
  destruct Hres as (response & trace & -> & Htrace).
  destruct (trace_accumulates env "generate a report" None env "generate another report" None
              world0 res1 w1 w1 (Returns response) w2 response trace
              eq_refl eq_refl H1 eq_refl H2 eq_refl Htrace)
    as (_ & _ & _ & _ & entries & entry & Hspans & Hentry & Hname & Hmd & _).
  exists res1, w1, response, w2, trace, entries, entry. by split_and!.
Defined.
End TraceExample.

(** * More on sessions *)
Section CompactContext.
Import session_manager.

Lemma session_ok_new sid uid md now : session_ok (new_session sid uid md now).
Proof. split; [done|]. simpl. lia. Qed.

Lemma session_ok_add_message s r c md now :
  session_ok s -> session_ok (add_message s r c md now).
Proof.
  intros [Hm Hlen]. split; simpl.
  - by rewrite deque_append_maxlen.
  - rewrite (deque_append_length _ _ capacity Hm Hlen). lia.
Qed.

(** Refilling a cleared deque with some of its own items keeps them all. *)
Lemma deque_refill {A} (d : Deque.t A) (recent : list A) m :
  Deque.maxlen d = Some m -> length recent <= m ->
  Deque.elems (Deque.extend recent (Deque.clear d)) = recent /\
  Deque.maxlen (Deque.extend recent (Deque.clear d)) = Some m.
Proof.
  intros Hm Hlen. split.
  - rewrite (deque_extend_elems recent (Deque.clear d) m); simpl; [|done|lia].
    replace (length recent - m) with 0 by lia. by rewrite drop_0.
  - clear Hlen. unfold Deque.extend.
    assert (H : forall d', Deque.maxlen d' = Some m ->
                Deque.maxlen (fold_left (fun d x => Deque.append x d) recent d') = Some m).
    { induction recent as [|x recent IH]; intros d' Hd'; [done|].
      simpl. apply IH. by rewrite deque_append_maxlen. }
    by apply H.
Qed.

(** X1.  [compact_context(keep_recent)] with [keep_recent >= 1] leaves the
    [keep_recent] most recent messages of the history, in their order (all
    of them when there are no more than that), and the session stays
    within its capacity. *)
Theorem compact_context_keeps_recent (s : Session) (k : nat) :
  session_ok s -> 0 < k ->
  Deque.elems (messages (compact_context s (Z.of_nat k)))
  = drop (length (Deque.elems (messages s)) - k) (Deque.elems (messages s)) /\
  length (Deque.elems (messages (compact_context s (Z.of_nat k))))
  = Nat.min k (length (Deque.elems (messages s))) /\
  session_ok (compact_context s (Z.of_nat k)).
Proof.
  intros [Hm Hlen] Hk. unfold compact_context.
  set (l := Deque.elems (messages s)) in *.
  destruct (Z.ltb_spec (Z.of_nat k) (Z.of_nat (length l))) as [Hlt|Hge].
  - rewrite slice_from_neg by done.
    replace (length l - Nat.min k (length l)) with (length l - k) by lia.
    destruct (deque_refill (messages s) (drop (length l - k) l) capacity Hm) as [He Hm'].
    { rewrite length_drop. lia. }
    cbn [messages set_messages]. rewrite He. split_and!; [done| |].
    + rewrite length_drop. lia.
    + split; cbn [messages set_messages]; [done|]. rewrite He, length_drop. lia.
  - replace (length l - k) with 0 by lia. rewrite drop_0. fold l.
    split_and!; [done|lia|by split].
Qed.

Lemma compact_context_keeps_recent_witness :
  let s := add_messages (new_session "s" "u" [] 0)
             [mkAddMessage "user" "a" None 1; mkAddMessage "assistant" "b" None 2;
              mkAddMessage "user" "c" None 3] in
  Deque.elems (messages (compact_context s 2))
  = drop (length (Deque.elems (messages s)) - 2) (Deque.elems (messages s)) /\
  length (Deque.elems (messages (compact_context s 2)))
  = Nat.min 2 (length (Deque.elems (messages s))) /\
  session_ok (compact_context s 2).
Proof.
  intros s. apply (compact_context_keeps_recent s 2).
  - split; [reflexivity|]. vm_compute. lia.
  - lia.
Defined.

(** X2.  [compact_context(0)] removes nothing: [list(self.messages)[-0:]]
    is the whole history.  A negative [keep_recent] removes that many of
    the oldest messages. *)
Theorem compact_context_nonpositive (s : Session) (k : Z) :
  session_ok s -> (k <= 0)%Z ->
  Deque.elems (messages (compact_context s k))
  = drop (Z.to_nat (- k)) (Deque.elems (messages s)).
Proof.
  intros [Hm Hlen] Hk. unfold compact_context.
  set (l := Deque.elems (messages s)) in *.
  destruct (Z.ltb_spec k (Z.of_nat (length l))) as [Hlt|Hge].
  - set (recent := slice_from (- k) l).
    assert (Hrecent : recent = drop (Z.to_nat (- k)) l).
    { unfold recent, slice_from. destruct (Z.ltb_spec (- k) 0) as [|_]; [lia|].
      destruct (Z.le_ge_cases (- k) (Z.of_nat (length l))) as [Hle|Hgt].
      - by rewrite Z.min_l.
      - rewrite Z.min_r, Nat2Z.id by done. rewrite !drop_ge; [done|lia|lia]. }
    destruct (deque_refill (messages s) recent capacity Hm) as [He _].
    { rewrite Hrecent, length_drop. lia. }
    cbn [messages set_messages]. by rewrite He.
  - assert (length l = 0) as Hnil by lia. fold l.
    destruct l; [|done]. by rewrite drop_nil.
Qed.

Lemma compact_context_nonpositive_witness :
  let s := add_messages (new_session "s" "u" [] 0)
             [mkAddMessage "user" "a" None 1; mkAddMessage "assistant" "b" None 2] in
  Deque.elems (messages (compact_context s 0)) = drop (Z.to_nat (- 0)) (Deque.elems (messages s)).
Proof.
  intros s. apply (compact_context_nonpositive s 0).
  - split; [reflexivity|]. vm_compute. lia.
  - lia.
Defined.

(** X3.  Compacting to [keep_recent] messages does not change what
    [get_context] shows for any [max_messages] between 1 and [keep_recent]. *)
Theorem compact_context_preserves_context (s : Session) (k n : nat) :
  session_ok s -> 0 < n -> n <= k ->
  get_context (compact_context s (Z.of_nat k)) (Z.of_nat n) = get_context s (Z.of_nat n).
Proof.
  intros Hok Hn Hnk.
  assert (Hk : 0 < k) by lia.
  rewrite !get_context_positive by done.
  destruct Hok as [Hm Hlen]. unfold compact_context.
  set (l := Deque.elems (messages s)) in *.
  destruct (Z.ltb_spec (Z.of_nat k) (Z.of_nat (length l))) as [Hlt|Hge]; [|done].
  rewrite slice_from_neg by done.
  replace (length l - Nat.min k (length l)) with (length l - k) by lia.
  destruct (deque_refill (messages s) (drop (length l - k) l) capacity Hm) as [He _].
  { rewrite length_drop. lia. }
  cbn [messages set_messages]. rewrite He. f_equal.
  rewrite length_drop, drop_drop. f_equal. lia.
Qed.

Lemma compact_context_preserves_context_witness :
  let s := add_messages (new_session "s" "u" [] 0)
             [mkAddMessage "user" "a" None 1; mkAddMessage "assistant" "b" None 2;
              mkAddMessage "user" "c" None 3] in
  get_context (compact_context s 2) 1 = get_context s 1.
Proof.
  intros s. apply (compact_context_preserves_context s 2 1).
  - split; [reflexivity|]. vm_compute. lia.
  - lia.
  - lia.
Defined.
End CompactContext.

(** * More on dictionaries *)
Section MoreDictFacts.
Context {V : Type}.
Implicit Types (d : list (string * V)) (k : string) (v : V).

Lemma dict_get_elem k v d : PyDict.get k d = Some v -> (k, v) ∈ d.
Proof.
  induction d as [|[k' v'] d IH]; simpl; [done|].
  destruct (String.eqb_spec k k') as [->|Hne].
  - intros [= ->]. apply list_elem_of_here.
  - intros H. apply list_elem_of_further. by apply IH.
Qed.

Lemma dict_get_Some_key k v d : PyDict.get k d = Some v -> k ∈ PyDict.keys d.
Proof.
  intros H. destruct (decide (k ∈ PyDict.keys d)) as [|Hn]; [done|].
  apply dict_get_None in Hn. congruence.
Qed.

Lemma dict_elem_get k v d : NoDup (PyDict.keys d) -> (k, v) ∈ d -> PyDict.get k d = Some v.
Proof.
  induction d as [|[k' v'] d IH]; cbn [PyDict.keys fmap list_fmap fst PyDict.get].
  - by intros _ ?%elem_of_nil.
  - rewrite NoDup_cons, elem_of_cons. intros [Hnin Hnd] [[= -> ->]|Hin].
    + by rewrite String.eqb_refl.
    + destruct (String.eqb_spec k k') as [->|Hne]; [|by apply IH].
      exfalso. apply Hnin. change k' with (fst (k', v)).
      apply list_elem_of_fmap. by exists (k', v).
Qed.

(** Assigning to a present key changes no key. *)
Lemma dict_set_present k v d : k ∈ PyDict.keys d -> PyDict.keys (PyDict.set k v d) = PyDict.keys d.
Proof.
  induction d as [|[k' v'] d IH]; cbn [PyDict.keys fmap list_fmap fst PyDict.set].
  - by intros ?%elem_of_nil.
  - rewrite elem_of_cons. intros Hin.
    destruct (String.eqb_spec k k') as [->|Hne]; [done|].
    destruct Hin as [?|Hin]; [done|].
    cbn [fmap list_fmap fst]. f_equal. by apply IH.
Qed.

Lemma dict_set_keys k v d :
  PyDict.keys (PyDict.set k v d)
  = if decide (k ∈ PyDict.keys d) then PyDict.keys d else PyDict.keys d ++ [k].
Proof.
  destruct (decide (k ∈ PyDict.keys d)) as [Hin|Hnin].
  - by apply dict_set_present.
  - rewrite dict_set_fresh by done. unfold PyDict.keys. by rewrite fmap_app.
Qed.

Lemma dict_set_NoDup k v d : NoDup (PyDict.keys d) -> NoDup (PyDict.keys (PyDict.set k v d)).
Proof.
  intros Hnd. rewrite dict_set_keys. destruct (decide _) as [|Hnin]; [done|].
  apply NoDup_app. split_and!; [done| |apply NoDup_singleton].
  intros k' Hk' ->%list_elem_of_singleton. done.
Qed.

Lemma dict_set_Forall (P : string * V -> Prop) k v d :
  Forall P d -> P (k, v) -> Forall P (PyDict.set k v d).
Proof.
  intros Hd Hkv. induction d as [|[k' v'] d IH]; simpl.
  - by constructor.
  - apply Forall_cons in Hd as [Hh Ht].
    destruct (String.eqb_spec k k') as [->|Hne]; constructor; auto.
Qed.

Lemma dict_set_length k v d :
  length (PyDict.set k v d) = if decide (k ∈ PyDict.keys d) then length d else S (length d).
Proof.
  rewrite <- (length_fmap fst (PyDict.set k v d)).
  change (fst <$> PyDict.set k v d) with (PyDict.keys (PyDict.set k v d)).
  rewrite dict_set_keys. unfold PyDict.keys.
  destruct (decide _); rewrite ?length_app, length_fmap; simpl; lia.
Qed.

Lemma dict_contains_spec k d : PyDict.contains k d = true <-> k ∈ PyDict.keys d.
Proof.
  unfold PyDict.contains. destruct (PyDict.get k d) eqn:H.
  - split; [intros _; by eapply dict_get_Some_key|done].
  - apply dict_get_None in H. split; [done|intros ?; done].
Qed.

Lemma dict_get_filter_ne k k' d :
  k' <> k -> PyDict.get k' (filter (fun kv => fst kv <> k) d) = PyDict.get k' d.
Proof.
  intros Hne. induction d as [|[k0 v0] d IH]; [done|].
  rewrite filter_cons. cbn [fst]. destruct (decide (k0 <> k)) as [Hk|Hk].
  - cbn [PyDict.get]. by rewrite IH.
  - cbn [PyDict.get]. destruct (String.eqb_spec k' k0) as [->|_]; [|exact IH].
    destruct (decide (k0 = k)) as [->|Hk0]; [done|]. by destruct Hk.
Qed.

Lemma dict_get_filter_out k d : PyDict.get k (filter (fun kv => fst kv <> k) d) = None.
Proof.
  apply dict_get_None. rewrite dict_filter_keys_ne.
  intros [H _]%list_elem_of_filter. done.
Qed.
End MoreDictFacts.

(** * The store of sessions *)
Section ManagerInvariant.
Import session_manager.

Lemma manager_eta m : mkManager (sessions m) (max_sessions m) = m.
Proof. by destruct m. Qed.

(** [_cleanup_old_sessions] on a dictionary: the loop meets no missing
    key, and what it removes are the first sessions of the sort. *)
Lemma cleanup_old_sessions_spec m :
  NoDup (PyDict.keys (sessions m)) ->
  let surplus := Z.to_nat (Z.of_nat (length (sessions m)) - max_sessions m) in
  let victims := take surplus (sorted by_created_at (sessions m)) in
  _cleanup_old_sessions m
  = Some (mkManager (filter (fun kv => fst kv ∉ PyDict.keys victims) (sessions m))
                    (max_sessions m)) /\
  NoDup (PyDict.keys victims) /\ PyDict.keys victims ⊆ PyDict.keys (sessions m) /\
  length victims = Nat.min surplus (length (sessions m)).
Proof.
  intros Hnd surplus victims.
  pose proof (sorted_perm by_created_at (sessions m)) as Hperm.
  assert (Hlen : length victims = Nat.min surplus (length (sessions m))).
  { unfold victims. by rewrite length_take, (Permutation_length Hperm). }
  assert (Hsub : PyDict.keys victims ⊆ PyDict.keys (sessions m)).
  { intros k (kv & -> & Hkv)%list_elem_of_fmap. apply list_elem_of_fmap. exists kv. split; [done|].
    rewrite <- Hperm. eapply elem_of_sublist; [exact Hkv|apply sublist_take]. }
  assert (Hvnd : NoDup (PyDict.keys victims)).
  { unfold victims, PyDict.keys. rewrite fmap_take.
    eapply sublist_NoDup; [|apply sublist_take].
    change (NoDup (fst <$> sorted by_created_at (sessions m))).
    by rewrite Hperm. }
  split_and!; try done.
  unfold _cleanup_old_sessions.
  destruct (Z.leb_spec (Z.of_nat (length (sessions m))) (max_sessions m)) as [Hle|Hgt].
  - assert (surplus = 0) as Hz by (unfold surplus; lia).
    unfold victims. rewrite Hz, take_0.
    change (PyDict.keys (@nil (string * Session))) with (@nil string).
    f_equal. rewrite <- (manager_eta m) at 1. f_equal.
    symmetry. apply (filter_notin_nil fst).
  - unfold PyDict.items.
    change (fun x : string * Session => created_at (snd x)) with by_created_at.
    rewrite slice_to_take by lia. fold surplus. fold victims.
    by rewrite (del_all_present victims (sessions m) Hnd Hvnd Hsub).
Qed.

Lemma Forall_sublist_of {A} (P : A -> Prop) (l1 l2 : list A) :
  l1 `sublist_of` l2 -> Forall P l2 -> Forall P l1.
Proof.
  rewrite !Forall_forall. intros Hsub H x Hx. apply H. by eapply elem_of_sublist.
Qed.

Lemma filter_ok (P : string * Session -> Prop) `{forall kv, Decision (P kv)} m :
  manager_ok m -> manager_ok (mkManager (filter P (sessions m)) (max_sessions m)).
Proof.
  intros [Hk Hi Hh]. split; cbn [sessions].
  - eapply sublist_NoDup; [exact Hk|]. apply (fmap_sublist fst), sublist_filter.
  - eapply Forall_sublist_of; [|exact Hi]. apply sublist_filter.
  - eapply Forall_sublist_of; [|exact Hh]. apply sublist_filter.
Qed.

Lemma dict_get_id m sid s :
  manager_ok m -> get_session m sid = Some s -> id s = sid /\ session_ok s.
Proof.
  intros [_ Hi Hh] Hget. apply dict_get_elem in Hget.
  rewrite Forall_forall in Hi. rewrite Forall_forall in Hh.
  split; [exact (Hi _ Hget)|exact (Hh _ Hget)].
Qed.

(** X4.  What [update_session] does to the store: the message goes to the
    session of that id and to no other; an unknown id is ignored without
    an error; no session is added, removed or moved. *)
Theorem update_session_spec (m : SessionManager) (sid r c : string)
    (md : option dict) (now : Z) :
  let m' := update_session m sid r c md now in
  match get_session m sid with
  | Some s => get_session m' sid = Some (add_message s r c md now)
  | None => m' = m
  end /\
  (forall sid', sid' <> sid -> get_session m' sid' = get_session m sid') /\
  PyDict.keys (sessions m') = PyDict.keys (sessions m) /\
  max_sessions m' = max_sessions m.
Proof.
  intros m'. subst m'. unfold update_session, get_session.
  destruct (PyDict.get sid (sessions m)) as [s|] eqn:Hget; cbn [sessions max_sessions].
  - split_and!; [apply dict_get_set_eq| | |done].
    + intros sid' Hne. by apply dict_get_set_ne.
    + apply dict_set_present. by eapply dict_get_Some_key.
  - by split_and!.
Qed.

(** X5.  [delete_session] removes the session of that id and nothing
    else; for an id that is not in the store it does nothing, and never
    raises. *)
Theorem delete_session_spec (m : SessionManager) (sid : string) :
  NoDup (PyDict.keys (sessions m)) ->
  let m' := delete_session m sid in
  get_session m' sid = None /\
  (forall sid', sid' <> sid -> get_session m' sid' = get_session m sid') /\
  sessions m' = filter (fun kv => fst kv <> sid) (sessions m) /\
  max_sessions m' = max_sessions m /\
  (get_session m sid = None -> m' = m).
Proof.
  intros Hnd m'. subst m'. unfold delete_session, get_session.
  destruct (PyDict.contains sid (sessions m)) eqn:Hc.
  - apply dict_contains_spec in Hc.
    rewrite (dict_del_present sid (sessions m) Hnd Hc). cbn [sessions max_sessions].
    split_and!; [apply dict_get_filter_out| |done|done|].
    + intros sid' Hne. by apply dict_get_filter_ne.
    + intros Hnone. apply dict_get_None in Hnone. done.
  - assert (Hnin : sid ∉ PyDict.keys (sessions m)).
    { intros Hin. apply dict_contains_spec in Hin. congruence. }
    split_and!; [by apply dict_get_None|done| |done|done].
    symmetry. by apply dict_filter_key_absent.
Qed.

Lemma delete_session_spec_witness :
  let m := mkManager [("a", new_session "a" "u" [] 1); ("b", new_session "b" "v" [] 2)] 10 in
  get_session (delete_session m "a") "a" = None /\
  get_session (delete_session m "a") "b" = get_session m "b".
Proof.
  intros m.
  destruct (delete_session_spec m "a") as (H1 & H2 & _).
  - apply (bool_decide_unpack _). vm_compute. exact I.
  - split; [exact H1|]. by apply H2.
Defined.

(** X6.  Creating a session in a store that has room and deleting it
    again gives the store back as it was. *)
Theorem create_then_delete (m : SessionManager) (sid uid : string)
    (md : option dict) (now : Z) :
  NoDup (PyDict.keys (sessions m)) ->
  sid ∉ PyDict.keys (sessions m) ->
  (Z.of_nat (length (sessions m)) < max_sessions m)%Z ->
  exists session m',
    create_session m sid uid md now = Some (session, m') /\
    get_session m' sid = Some session /\
    delete_session m' sid = m.
Proof.
  intros Hnd Hfresh Hroom. unfold create_session. cbn [sessions max_sessions].
  rewrite dict_set_fresh by done.
  destruct (Z.ltb_spec (max_sessions m) (Z.of_nat (length (sessions m ++
              [(sid, new_session sid uid (or_empty md) now)])))) as [Hlt|_].
  { rewrite length_app in Hlt. simpl in Hlt. lia. }
  eexists _, _. split; [done|]. split.
  - unfold get_session. cbn [sessions]. by apply dict_get_app_fresh.
  - unfold delete_session. cbn [sessions max_sessions].
    assert (Hin : sid ∈ PyDict.keys (sessions m ++ [(sid, new_session sid uid (or_empty md) now)])).
    { unfold PyDict.keys. rewrite fmap_app. apply elem_of_app. right. apply list_elem_of_here. }
    assert (Hnd' : NoDup (PyDict.keys (sessions m ++ [(sid, new_session sid uid (or_empty md) now)]))).
    { rewrite <- dict_set_fresh by done. by apply dict_set_NoDup. }
    rewrite (proj2 (dict_contains_spec _ _) Hin).
    rewrite (dict_del_present _ _ Hnd' Hin).
    rewrite filter_app, dict_filter_key_absent by done.
    rewrite filter_cons_False by (simpl; auto). rewrite filter_nil, app_nil_r.
    apply manager_eta.
Qed.

Lemma create_then_delete_witness :
  let m := mkManager [("a", new_session "a" "u" [] 1)] 10 in
  exists session m',
    create_session m "b" "v" None 2 = Some (session, m') /\
    get_session m' "b" = Some session /\
    delete_session m' "b" = m.
Proof.
  intros m. apply (create_then_delete m "b" "v" None 2).
  - apply (bool_decide_unpack _). vm_compute. exact I.
  - apply (bool_decide_unpack _). vm_compute. exact I.
  - vm_compute. reflexivity.
Defined.

(** X7.  The store of a manager stays a well-formed store under all its
    methods, for every id, clock reading and [max_sessions]:
    [create_session] never fails on a missing key, returns the session it
    made, and leaves at most [max(max_sessions, 0)] sessions, each of them
    the new one or one that was there; [update_session] and
    [delete_session] keep the store well formed too.  In a well-formed
    store no key occurs twice, every session is filed under its own id,
    and no history is longer than its capacity. *)
Theorem manager_ok_preserved (m : SessionManager) :
  manager_ok m ->
  (forall sid uid md now,
      exists m',
        create_session m sid uid md now
        = Some (new_session sid uid (or_empty md) now, m') /\
        manager_ok m' /\
        max_sessions m' = max_sessions m /\
        (Z.of_nat (length (sessions m')) <= Z.max 0 (max_sessions m))%Z /\
        sessions m' `sublist_of`
          PyDict.set sid (new_session sid uid (or_empty md) now) (sessions m)) /\
  (forall sid r c md now, manager_ok (update_session m sid r c md now)) /\
  (forall sid, manager_ok (delete_session m sid)).
Proof.
  intros Hok. split_and!.
  - intros sid uid md now. unfold create_session.
    set (session := new_session sid uid (or_empty md) now).
    set (m1 := mkManager (PyDict.set sid session (sessions m)) (max_sessions m)).
    assert (Hok1 : manager_ok m1).
    { destruct Hok as [Hk Hi Hh]. split; cbn [m1 sessions].
      - by apply dict_set_NoDup.
      - by apply dict_set_Forall.
      - apply dict_set_Forall; [done|]. apply session_ok_new. }
    destruct (Z.ltb_spec (max_sessions m1) (Z.of_nat (length (sessions m1)))) as [Hlt|Hge].
    + destruct (cleanup_old_sessions_spec m1 (ok_keys _ Hok1)) as (-> & Hvnd & Hsub & Hlen).
      eexists. split; [done|]. split_and!.
      * by apply filter_ok.
      * done.
      * cbn [sessions max_sessions].
        pose proof (dict_filter_length _ _ (ok_keys _ Hok1) Hvnd Hsub) as Hfl.
        assert (Hk : forall l : list (string * Session), length (PyDict.keys l) = length l)
          by (intros; unfold PyDict.keys; apply length_fmap).
        rewrite Hk, Hlen in Hfl.
        subst m1. cbn [sessions max_sessions] in *.
        match goal with
        | |- (Z.of_nat ?x <= _)%Z =>
            match type of Hfl with
            | _ + ?a = ?b => assert (Hf : x + a = b) by exact Hfl
            end
        end.
        clear Hfl. lia.
      * cbn [sessions]. apply sublist_filter.
    + exists m1. split_and!; [done|done|done| |done].
      subst m1. cbn [sessions max_sessions] in *. lia.
  - intros sid r c md now. unfold update_session.
    destruct (get_session m sid) as [s|] eqn:Hget; [|done].
    destruct (dict_get_id _ _ _ Hok Hget) as [Hid Hs].
    destruct Hok as [Hk Hi Hh]. split; cbn [sessions].
    + by apply dict_set_NoDup.
    + by apply dict_set_Forall.
    + apply dict_set_Forall; [done|]. by apply session_ok_add_message.
  - intros sid. unfold delete_session.
    destruct (PyDict.contains sid (sessions m)) eqn:Hc; [|done].
    apply dict_contains_spec in Hc.
    rewrite (dict_del_present sid (sessions m) (ok_keys _ Hok) Hc).
    by apply filter_ok.
Qed.

Lemma manager_ok_preserved_witness :
  let m := mkManager [("a", new_session "a" "u" [] 10)] 1 in
  exists m',
    create_session m "a" "v" None 5 = Some (new_session "a" "v" [] 5, m') /\
    manager_ok m' /\
    (Z.of_nat (length (sessions m')) <= Z.max 0 1)%Z.
Proof.
  intros m. destruct (manager_ok_preserved m) as [Hc _].
  - split; cbn [m sessions].
    + apply (bool_decide_unpack _). vm_compute. exact I.
    + by repeat constructor.
    + constructor; [|constructor]. split; [reflexivity|]. simpl. lia.
  - destruct (Hc "a" "v" None 5%Z) as (m' & H1 & H2 & _ & H3 & _).
    exists m'. by split_and!.
Defined.
End ManagerInvariant.

(** * More on the memory bank *)
Section MemoryRoundTrips.
Import memory_bank.

Lemma store_memories b k v cat md now st :
  memories (snd (fst (store b k v cat md now st)))
  = PyDict.set k (mkEntry k v cat now (or_empty md)) (memories b) /\
  storage_path (snd (fst (store b k v cat md now st))) = storage_path b.
Proof. unfold store. by destruct (_save_memories _ st). Qed.

(** X8.  [store] then [retrieve]: the value stored under a key is the one
    retrieved, whatever becomes of the file; the other keys read as
    before; a key that was there keeps its place in the mapping and a new
    one goes last. *)
Theorem store_then_retrieve (b : MemoryBank) (k v cat : string) (md : option dict)
    (now : Z) (st : Storage) :
  let b' := snd (fst (store b k v cat md now st)) in
  retrieve b' k = Some v /\
  (forall k', k' <> k -> retrieve b' k' = retrieve b k') /\
  PyDict.keys (memories b')
  = (if decide (k ∈ PyDict.keys (memories b)) then PyDict.keys (memories b)
     else PyDict.keys (memories b) ++ [k]).
Proof.
  intros b'. subst b'. destruct (store_memories b k v cat md now st) as [Hm _].
  unfold retrieve. rewrite Hm. split_and!.
  - by rewrite dict_get_set_eq.
  - intros k' Hne. by rewrite dict_get_set_ne.
  - apply dict_set_keys.
Qed.

Lemma store_bank_ok b k v cat md now st :
  bank_ok b -> bank_ok (snd (fst (store b k v cat md now st))).
Proof.
  intros [Hk Hi]. destruct (store_memories b k v cat md now st) as [Hm _].
  split; rewrite Hm.
  - by apply dict_set_NoDup.
  - by apply dict_set_Forall.
Qed.

Lemma store_insight_memories b insight md now_key now_entry st :
  memories (snd (fst (store_insight b insight md now_key now_entry st)))
  = PyDict.set (insight_key now_key)
      (mkEntry (insight_key now_key) insight "insight" now_entry (or_empty md))
      (memories b).
Proof.
  unfold store_insight.
  pose proof (store_memories b (insight_key now_key) insight "insight" md now_entry st) as [Hm _].
  destruct (store _ _ _ _ _ _ _) as [[r b'] st']. simpl in Hm. by destruct r.
Qed.

Lemma values_elem {V} (k : string) (v : V) (d : list (string * V)) :
  (k, v) ∈ d -> v ∈ PyDict.values d.
Proof. intros H. apply list_elem_of_fmap. by exists (k, v). Qed.

(** X9.  An insight handed to [store_insight] is in the bank afterwards,
    under the key made of the clock reading, with category [insight]; the
    key is what the call returns when it returns; and
    [search(category="insight")] finds the entry, also when writing the
    file fails or raises, and whatever [str.lower] is. *)
Theorem store_insight_found (str_lower : string -> string) (b : MemoryBank)
    (insight : string) (md : option dict) (now_key now_entry : Z) (st : Storage) :
  let k := insight_key now_key in
  let entry := mkEntry k insight "insight" now_entry (or_empty md) in
  let b' := snd (fst (store_insight b insight md now_key now_entry st)) in
  (forall k', fst (fst (store_insight b insight md now_key now_entry st)) = Returns k' ->
              k' = k) /\
  (mkdir_error st = None ->
   fst (fst (store_insight b insight md now_key now_entry st)) = Returns k) /\
  PyDict.get k (memories b') = Some entry /\
  retrieve b' k = Some insight /\
  entry ∈ search str_lower b' (Some "insight") None.
Proof.
  intros k entry b'.
  pose proof (store_insight_memories b insight md now_key now_entry st) as Hm.
  fold k entry b' in Hm.
  assert (Hget : PyDict.get k (memories b') = Some entry)
    by (rewrite Hm; apply dict_get_set_eq).
  split_and!.
  - unfold store_insight. fold k.
    destruct (store b k insight "insight" md now_entry st) as [[[[]|e] b1] st1];
      simpl; congruence.
  - intros Hmk. unfold store_insight. fold k.
    pose proof (store_returns_when_mkdir_succeeds b k insight "insight" md now_entry st Hmk) as Hr.
    destruct (store b k insight "insight" md now_entry st) as [[r b1] st1].
    simpl in Hr. by rewrite Hr.
  - exact Hget.
  - unfold retrieve. by rewrite Hget.
  - rewrite search_filter. apply list_elem_of_In, filter_In. split; [|done].
    apply list_elem_of_In. eapply values_elem, dict_get_elem, Hget.
Qed.

(** X10.  The key of [store_insight] has the resolution of a second: of
    two insights stored within the same second of the clock the second
    replaces the first, and the bank holds no more entries than after the
    first call. *)
Theorem store_insight_same_second (b : MemoryBank) (i1 i2 : string)
    (md1 md2 : option dict) (k1 e1 k2 e2 : Z) (st : Storage) :
  (k1 / 1000000 = k2 / 1000000)%Z ->
  let '(r1, b1, st1) := store_insight b i1 md1 k1 e1 st in
  let '(r2, b2, st2) := store_insight b1 i2 md2 k2 e2 st1 in
  insight_key k2 = insight_key k1 /\
  retrieve b1 (insight_key k1) = Some i1 /\
  retrieve b2 (insight_key k1) = Some i2 /\
  PyDict.keys (memories b2) = PyDict.keys (memories b1).
Proof.
  intros Hsec.
  pose proof (store_insight_memories b i1 md1 k1 e1 st) as Hm1.
  destruct (store_insight b i1 md1 k1 e1 st) as [[r1 b1] st1]. simpl in Hm1.
  pose proof (store_insight_memories b1 i2 md2 k2 e2 st1) as Hm2.
  destruct (store_insight b1 i2 md2 k2 e2 st1) as [[r2 b2] st2]. simpl in Hm2.
  assert (Hk : insight_key k2 = insight_key k1) by (unfold insight_key; by rewrite Hsec).
  rewrite Hk in Hm2. unfold retrieve. rewrite Hm2, Hm1. split_and!.
  - done.
  - by rewrite dict_get_set_eq.
  - by rewrite dict_get_set_eq.
  - apply dict_set_present. eapply dict_get_Some_key, dict_get_set_eq.
Qed.

Lemma store_insight_same_second_witness :
  let b := mkBank "data/memory_bank.json" [] in
  let st := mkStorage None [] None None None in
  let '(r1, b1, st1) := store_insight b "sales rose" None 5000001 5000002 st in
  let '(r2, b2, st2) := store_insight b1 "sales fell" None 5999998 5999999 st1 in
  insight_key 5999998 = insight_key 5000001 /\
  retrieve b1 (insight_key 5000001) = Some "sales rose" /\
  retrieve b2 (insight_key 5000001) = Some "sales fell" /\
  PyDict.keys (memories b2) = PyDict.keys (memories b1).
Proof.
  intros b st.
  apply (store_insight_same_second b "sales rose" "sales fell" None None
           5000001 5000002 5999998 5999999 st).
  reflexivity.
Defined.
End MemoryRoundTrips.

Section MemoryQueries.
Import memory_bank.

Lemma bank_get_elem b k entry :
  bank_ok b ->
  PyDict.get k (memories b) = Some entry <-> entry ∈ PyDict.values (memories b) /\ key entry = k.
Proof.
  intros [Hk Hi]. rewrite Forall_forall in Hi. split.
  - intros Hget. apply dict_get_elem in Hget. split; [by eapply values_elem|].
    exact (Hi _ Hget).
  - intros [Hin Hkey]. apply list_elem_of_fmap in Hin as ([k' e'] & He & Hin).
    simpl in He. subst e'. apply dict_elem_get; [done|].
    pose proof (Hi _ Hin) as Hk'. simpl in Hk'. congruence.
Qed.

Lemma NoDup_fmap_eq {A B} (f : A -> B) (l : list A) x y :
  NoDup (f <$> l) -> x ∈ l -> y ∈ l -> f x = f y -> x = y.
Proof.
  induction l as [|z l IH]; cbn [fmap list_fmap]; [by intros _ ?%elem_of_nil|].
  rewrite NoDup_cons, !elem_of_cons. intros [Hnin Hnd] [->|Hx] [->|Hy] Heq; auto.
  - exfalso. apply Hnin. rewrite Heq. apply list_elem_of_fmap. by exists y.
  - exfalso. apply Hnin. rewrite <- Heq. apply list_elem_of_fmap. by exists x.
Qed.

Lemma bank_values_NoDup b : bank_ok b -> NoDup (key <$> PyDict.values (memories b)).
Proof.
  intros [Hk Hi]. unfold PyDict.values. rewrite <- list_fmap_compose.
  assert (Heq : (key ∘ snd) <$> memories b = PyDict.keys (memories b)); [|by rewrite Heq].
  unfold PyDict.keys. apply Forall_fmap_ext_1.
  eapply Forall_impl; [exact Hi|]. by intros [k e].
Qed.

(** The loop of [get_user_preferences], started with any dictionary. *)
Lemma preferences_loop (keep : MemoryEntry -> bool) (k : string) (es : list MemoryEntry) :
  NoDup (key <$> es) ->
  forall acc : PyDict.t string,
    PyDict.get k (fold_left (fun preferences entry =>
                               if keep entry
                               then PyDict.set (key entry) (value entry) preferences
                               else preferences) es acc)
    = match List.find (fun e => String.eqb (key e) k && keep e) es with
      | Some e => Some (value e)
      | None => PyDict.get k acc
      end.
Proof.
  induction es as [|e es IH]; intros Hnd acc; [done|].
  cbn [fmap list_fmap] in Hnd. apply NoDup_cons in Hnd as [Hnin Hnd].
  cbn [fold_left List.find]. rewrite (IH Hnd).
  destruct (String.eqb_spec (key e) k) as [Hk|Hk]; simpl.
  - destruct (keep e) eqn:Hkeep.
    + assert (Hnone : List.find (fun e0 => String.eqb (key e0) k && keep e0) es = None).
      { destruct (List.find _ es) as [e'|] eqn:Hf; [|done].
        apply find_some in Hf as [Hin He']. apply andb_true_iff in He' as [He' _].
        apply String.eqb_eq in He'. exfalso. apply Hnin. rewrite Hk, <- He'.
        apply list_elem_of_fmap. exists e'. split; [done|by apply list_elem_of_In]. }
      rewrite Hnone, <- Hk. apply dict_get_set_eq.
    + done.
  - destruct (keep e); [|done].
    destruct (List.find _ es); [done|]. by apply dict_get_set_ne.
Qed.

(** X11.  [get_user_preferences(user_id)] maps a key to a value exactly
    when the bank holds, under that key, an entry of category
    [preference] whose metadata names that user, with that value: entries
    of other categories or of other users never show. *)
Theorem get_user_preferences_spec (b : MemoryBank) (user_id k v : string) :
  bank_ok b ->
  PyDict.get k (get_user_preferences b (eq_str user_id)) = Some v <->
  exists entry,
    PyDict.get k (memories b) = Some entry /\
    category entry = "preference" /\
    PyDict.get "user_id" (metadata entry) = Some (VStr user_id) /\
    value entry = v.
Proof.
  intros Hok. set (keep := is_preference_of user_id).
  change (get_user_preferences b (eq_str user_id))
    with (fold_left (fun (preferences : PyDict.t string) entry =>
                       if keep entry
                       then PyDict.set (key entry) (value entry) preferences
                       else preferences) (PyDict.values (memories b)) []).
  rewrite (preferences_loop keep k _ (bank_values_NoDup b Hok) []).
  cbn [PyDict.get].
  assert (Hkeep : forall e, keep e = true <->
            category e = "preference" /\ PyDict.get "user_id" (metadata e) = Some (VStr user_id)).
  { intros e. unfold keep, is_preference_of. rewrite andb_true_iff, String.eqb_eq.
    destruct (PyDict.get "user_id" (metadata e)) as [[| | | |s| | |]|]; simpl;
      try (split; [by intros [_ ?]|by intros [_ ?]]).
    rewrite String.eqb_eq. split; [by intros [? ->]|by intros [? [= ->]]]. }
  split.
  - destruct (List.find _ _) as [e|] eqn:Hf; [|done]. intros [= <-].
    apply find_some in Hf as [Hin He]. apply andb_true_iff in He as [Hk He].
    apply String.eqb_eq in Hk. apply Hkeep in He as [Hc Hu].
    exists e. split_and!; try done.
    apply (bank_get_elem b k e Hok). split; [by apply list_elem_of_In|done].
  - intros (e & Hget & Hc & Hu & <-).
    apply (bank_get_elem b k e Hok) in Hget as [Hin Hk].
    destruct (List.find _ _) as [e'|] eqn:Hf.
    + apply find_some in Hf as [Hin' He']. apply andb_true_iff in He' as [Hk' _].
      apply String.eqb_eq in Hk'. do 2 f_equal.
      apply (NoDup_fmap_eq key (PyDict.values (memories b)));
        [by apply bank_values_NoDup|by apply list_elem_of_In|done|congruence].
    + pose proof (find_none _ _ Hf e (proj1 (list_elem_of_In _ _) Hin)) as Hno.
      simpl in Hno. rewrite (proj2 (String.eqb_eq _ _) Hk) in Hno.
      rewrite (proj2 (Hkeep e) (conj Hc Hu)) in Hno. done.
Qed.

Lemma get_user_preferences_spec_witness :
  let b := mkBank "data/memory_bank.json"
             [("theme", mkEntry "theme" "dark" "preference" 1 [("user_id", VStr "ann")]);
              ("units", mkEntry "units" "metric" "preference" 2 [("user_id", VStr "bob")])] in
  PyDict.get "theme" (get_user_preferences b (eq_str "ann")) = Some "dark" <->
  exists entry,
    PyDict.get "theme" (memories b) = Some entry /\
    category entry = "preference" /\
    PyDict.get "user_id" (metadata entry) = Some (VStr "ann") /\
    value entry = "dark".
Proof.
  intros b. apply (get_user_preferences_spec b "ann" "theme" "dark").
  split; cbn [b memories].
  - apply (bool_decide_unpack _). vm_compute. exact I.
  - by repeat constructor.
Defined.

Lemma search_insights str_lower b :
  search str_lower b (Some "insight") None = insights b.
Proof.
  rewrite search_filter. unfold insights. apply filter_ext. intros e.
  unfold search_keeps. simpl. by destruct (String.eqb _ _).
Qed.

(** X12.  [get_memory_insights(limit)] shows, for [limit >= 1], the last
    [limit] entries of category [insight] in the order of the bank (all of
    them when there are fewer), each with its key, value and timestamp;
    [limit = 0] shows all of them, for [insights[-0:]] is the whole list. *)
Theorem get_memory_insights_recent (str_lower : string -> string) (b : MemoryBank)
    (limit : nat) :
  get_memory_insights str_lower b (Z.of_nat limit)
  = map insight_record
        (if Nat.eqb limit 0 then insights b
         else drop (length (insights b) - limit) (insights b)).
Proof.
  unfold get_memory_insights. rewrite search_insights.
  change (fun entry : MemoryEntry => _) with insight_record. f_equal.
  destruct limit as [|n]; simpl Nat.eqb; cbv iota.
  - unfold slice_from. simpl. by rewrite Z.min_l, drop_0 by lia.
  - rewrite slice_from_neg by lia. f_equal. lia.
Qed.
End MemoryQueries.

(** * More on the metrics collector *)
Section MetricsMore.
Import metrics.

Lemma increments_enabled calls : forall c, enabled (increments c calls) = enabled c.
Proof.
  induction calls as [|i calls IH]; intros c; [done|].
  unfold increments in *. simpl. by rewrite IH, enabled_increment.
Qed.

Lemma increments_disabled calls : forall c, enabled c = false -> increments c calls = c.
Proof.
  induction calls as [|i calls IH]; intros c Hc; [done|].
  unfold increments in *. simpl.
  assert (increment c (inc_name i) (inc_value i) (inc_tags i) (inc_now i) = c) as ->
    by (unfold increment; by rewrite Hc).
  by apply IH.
Qed.

Lemma dict_get_map {V W} (f : V -> W) (k : string) (d : list (string * V)) :
  PyDict.get k (map (fun kv => (fst kv, f (snd kv))) d) = f <$> PyDict.get k d.
Proof.
  induction d as [|[k' v] d IH]; [done|]. simpl.
  by destruct (String.eqb k k').
Qed.

Lemma increments_counted calls nm : forall c,
  enabled c = true ->
  nm ∈ PyDict.keys (counters c) \/ nm ∈ inc_name <$> calls ->
  nm ∈ PyDict.keys (counters (increments c calls)).
Proof.
  induction calls as [|i calls IH]; intros c Hen [Hin|Hin]; try done.
  - by apply elem_of_nil in Hin.
  - unfold increments in *. cbn [fold_left]. apply IH; [by rewrite enabled_increment|].
    left. unfold increment. rewrite Hen. cbn [negb counters]. rewrite dict_set_keys.
    destruct (decide _); [done|]. apply elem_of_app. by left.
  - unfold increments in *. cbn [fold_left]. apply IH; [by rewrite enabled_increment|].
    cbn [fmap list_fmap] in Hin. apply elem_of_cons in Hin as [->|Hin]; [|by right].
    left. unfold increment. rewrite Hen. cbn [negb counters].
    eapply dict_get_Some_key, dict_get_set_eq.
Qed.

(** X13.  Counters add up.  After any sequence of [increment] calls on an
    enabled collector the counter of a name is what it was plus the sum of
    the values given for that name; the log has one record more per call;
    the timers are untouched; and [get_summary] reports that total for
    every name that has been counted. *)
Theorem increments_accumulate (c : MetricsCollector) (calls : list Increment)
    (nm : string) (now : Z) :
  enabled c = true ->
  counter (increments c calls) nm = (counter c nm + total_of nm calls)%Z /\
  length (metrics (increments c calls)) = length (metrics c) + length calls /\
  timers (increments c calls) = timers c /\
  exists cs,
    PyDict.get "counters" (get_summary (increments c calls) now) = Some (VDict cs) /\
    (nm ∈ PyDict.keys (counters c) \/ nm ∈ inc_name <$> calls ->
     PyDict.get nm cs = Some (VInt (counter c nm + total_of nm calls))).
Proof.
  intros Hen.
  assert (H : counter (increments c calls) nm = (counter c nm + total_of nm calls)%Z /\
              length (metrics (increments c calls)) = length (metrics c) + length calls /\
              timers (increments c calls) = timers c).
  { clear now. revert c Hen. induction calls as [|i calls IH]; intros c Hen.
    - simpl. split_and!; [lia|lia|done].
    - unfold increments in *. cbn [fold_left foldr total_of length].
      destruct (IH (increment c (inc_name i) (inc_value i) (inc_tags i) (inc_now i)))
        as (Hc & Hl & Ht); [by rewrite enabled_increment|].
      rewrite Hc, Hl, Ht. split_and!.
      + fold (total_of nm calls).
        destruct (String.eqb_spec (inc_name i) nm) as [->|Hne].
        * rewrite counter_increment by done. lia.
        * by rewrite counter_increment_ne.
      + unfold increment. rewrite Hen. simpl. rewrite length_app. simpl. lia.
      + unfold increment. by rewrite Hen. }
  destruct H as (Hc & Hl & Ht). split_and!; try done.
  unfold get_summary. rewrite increments_enabled, Hen. simpl.
  eexists. split; [done|]. intros Hin. rewrite dict_get_map.
  apply (increments_counted calls nm c Hen) in Hin.
  unfold counter in Hc at 1.
  destruct (PyDict.get nm (counters (increments c calls))) eqn:Hget.
  - simpl. by rewrite Hc.
  - apply dict_get_None in Hget. done.
Qed.

Lemma increments_accumulate_witness :
  let calls := [mkIncrement "hits" 2 None 1; mkIncrement "misses" 1 None 2;
                mkIncrement "hits" 3 None 3] in
  counter (increments (new true) calls) "hits" = (0 + 5)%Z /\
  length (metrics (increments (new true) calls)) = 0 + 3.
Proof.
  intros calls.
  destruct (increments_accumulate (new true) calls "hits" 0) as (H1 & H2 & _).
  - reflexivity.
  - split; [exact H1|exact H2].
Defined.

(** ** Timer statistics *)

Lemma Qltb_true a b : Qltb a b = true <-> (a < b)%Q.
Proof.
  unfold Qltb. rewrite negb_true_iff. split.
  - intros H. apply Qnot_le_lt. intros Hle. apply Qle_bool_iff in Hle. congruence.
  - intros H. destruct (Qle_bool b a) eqn:E; [|done].
    apply Qle_bool_iff in E. exfalso. by apply (Qlt_not_le _ _ H).
Qed.

Lemma Qltb_false a b : Qltb a b = false <-> (b <= a)%Q.
Proof.
  unfold Qltb. rewrite negb_false_iff. apply Qle_bool_iff.
Qed.

Lemma py_min_spec xs : forall x,
  py_min x xs ∈ x :: xs /\ Forall (fun y => (py_min x xs <= y)%Q) (x :: xs).
Proof.
  induction xs as [|y xs IH]; intros x.
  - split; [apply list_elem_of_here|]. constructor; [apply Qle_refl|constructor].
  - unfold py_min in *. cbn [fold_left].
    destruct (Qltb y x) eqn:Hlt.
    + destruct (IH y) as [Hin Hall]. split.
      * apply list_elem_of_further. exact Hin.
      * apply Forall_cons in Hall as [Hy Hrest].
        constructor; [|by constructor].
        apply Qltb_true in Hlt. eapply Qle_trans; [exact Hy|by apply Qlt_le_weak].
    + destruct (IH x) as [Hin Hall]. split.
      * apply elem_of_cons in Hin as [->|Hin]; [apply list_elem_of_here|].
        by do 2 apply list_elem_of_further.
      * apply Forall_cons in Hall as [Hx Hrest].
        constructor; [done|]. constructor; [|done].
        apply Qltb_false in Hlt. by eapply Qle_trans.
Qed.

Lemma py_max_spec xs : forall x,
  py_max x xs ∈ x :: xs /\ Forall (fun y => (y <= py_max x xs)%Q) (x :: xs).
Proof.
  induction xs as [|y xs IH]; intros x.
  - split; [apply list_elem_of_here|]. constructor; [apply Qle_refl|constructor].
  - unfold py_max in *. cbn [fold_left].
    destruct (Qltb x y) eqn:Hlt.
    + destruct (IH y) as [Hin Hall]. split.
      * apply list_elem_of_further. exact Hin.
      * apply Forall_cons in Hall as [Hy Hrest].
        constructor; [|by constructor].
        apply Qltb_true in Hlt. eapply Qle_trans; [by apply Qlt_le_weak|exact Hy].
    + destruct (IH x) as [Hin Hall]. split.
      * apply elem_of_cons in Hin as [->|Hin]; [apply list_elem_of_here|].
        by do 2 apply list_elem_of_further.
      * apply Forall_cons in Hall as [Hx Hrest].
        constructor; [done|]. constructor; [|done].
        apply Qltb_false in Hlt. by eapply Qle_trans.
Qed.

(** The loop of [get_summary] over the timers, started with any dictionary. *)
Lemma timers_loop (k : string) (ts : list (string * list Q)) :
  NoDup (PyDict.keys ts) ->
  forall acc : dict,
    PyDict.get k (fold_left
                    (fun acc kv =>
                       match snd kv with
                       | x :: xs => PyDict.set (fst kv) (VDict (timer_stats x xs)) acc
                       | [] => acc
                       end) ts acc)
    = match PyDict.get k ts with
      | Some (x :: xs) => Some (VDict (timer_stats x xs))
      | _ => PyDict.get k acc
      end.
Proof.
  induction ts as [|[k' l] ts IH]; intros Hnd acc; [done|].
  cbn [PyDict.keys fmap list_fmap fst] in Hnd. apply NoDup_cons in Hnd as [Hnin Hnd].
  cbn [fold_left PyDict.get fst snd]. rewrite (IH Hnd).
  destruct (String.eqb_spec k k') as [->|Hne].
  - apply dict_get_None in Hnin. rewrite Hnin.
    destruct l as [|x xs]; [done|]. apply dict_get_set_eq.
  - destruct (PyDict.get k ts) as [[|x xs]|], l as [|x' xs']; try done;
      by apply dict_get_set_ne.
Qed.

(** X14.  For a timer with recorded durations, [get_summary] reports
    their number as [count], and as [min] and [max] two of the recorded
    durations: none is below [min], none above [max]. *)
Theorem summary_timer_stats (c : MetricsCollector) (nm : string) (x : Q) (xs : list Q)
    (now : Z) :
  enabled c = true ->
  NoDup (PyDict.keys (timers c)) ->
  timer c nm = x :: xs ->
  exists ts stats lo hi,
    PyDict.get "timers" (get_summary c now) = Some (VDict ts) /\
    PyDict.get nm ts = Some (VDict stats) /\
    PyDict.get "count" stats = Some (VInt (Z.of_nat (length (x :: xs)))) /\
    PyDict.get "min" stats = Some (VFloat lo) /\
    PyDict.get "max" stats = Some (VFloat hi) /\
    lo ∈ x :: xs /\ hi ∈ x :: xs /\
    Forall (fun y => (lo <= y)%Q /\ (y <= hi)%Q) (x :: xs).
Proof.
  intros Hen Hnd Ht. unfold get_summary. rewrite Hen. simpl negb. cbv iota.
  eexists _, (timer_stats x xs), (py_min x xs), (py_max x xs).
  split; [reflexivity|].
  unfold PyDict.items. rewrite (timers_loop nm (timers c) Hnd []).
  unfold timer in Ht. destruct (PyDict.get nm (timers c)) as [l|]; [|done]. subst l.
  destruct (py_min_spec xs x) as [Hlo Hlos]. destruct (py_max_spec xs x) as [Hhi Hhis].
  split_and!; try done.
  rewrite Forall_forall in Hlos. rewrite Forall_forall in Hhis.
  apply Forall_forall. intros y Hy. split; [by apply Hlos|by apply Hhis].
Qed.

Lemma summary_timer_stats_witness :
  let c := record_timing (record_timing (new true) "load" (3 # 2) None 1) "load" (1 # 2) None 2 in
  exists ts stats lo hi,
    PyDict.get "timers" (get_summary c 3) = Some (VDict ts) /\
    PyDict.get "load" ts = Some (VDict stats) /\
    PyDict.get "count" stats = Some (VInt 2) /\
    PyDict.get "min" stats = Some (VFloat lo) /\
    PyDict.get "max" stats = Some (VFloat hi) /\
    lo ∈ [3 # 2; 1 # 2]%Q /\ hi ∈ [3 # 2; 1 # 2]%Q /\
    Forall (fun y => (lo <= y)%Q /\ (y <= hi)%Q) [3 # 2; 1 # 2]%Q.
Proof.
  intros c. apply (summary_timer_stats c "load" (3 # 2) [1 # 2]%Q 3).
  - reflexivity.
  - apply (bool_decide_unpack _). vm_compute. exact I.
  - reflexivity.
Defined.

(** X15.  A gauge is logged and never reported.  [collect_metric] with a
    [metric_type] other than [counter] and [timer] — so with its default —
    records a gauge: on an enabled collector the call adds one record to
    the log, with the name and value given, and leaves the counters, the
    timers and with them every [get_summary] as they were; on a disabled
    one it does nothing. *)
Theorem collect_metric_gauge (nm : string) (v : Q) (metric_type : string)
    (tg : option dict) (w : World) :
  metric_type <> "counter" -> metric_type <> "timer" ->
  exists w',
    collect_metric nm v metric_type tg w = (Returns tt, w') /\
    counters (_global_metrics w') = counters (_global_metrics w) /\
    timers (_global_metrics w') = timers (_global_metrics w) /\
    (forall now, get_summary (_global_metrics w') now = get_summary (_global_metrics w) now) /\
    metrics (_global_metrics w')
    = (if enabled (_global_metrics w)
       then metrics (_global_metrics w) ++ [mkMetric nm v (clock w (ticks w)) (or_empty tg)]
       else metrics (_global_metrics w)).
Proof.
  intros Hc Ht. unfold collect_metric.
  destruct (enabled (_global_metrics w)) eqn:Hen; simpl.
  - destruct (String.eqb_spec metric_type "counter"); [done|].
    destruct (String.eqb_spec metric_type "timer"); [done|].
    eexists. split; [reflexivity|]. unfold gauge. rewrite Hen. simpl.
    split_and!; try done. intros now. unfold get_summary. simpl. by rewrite Hen.
  - eexists. split; [reflexivity|]. by split_and!.
Qed.

Lemma collect_metric_gauge_witness :
  exists w',
    collect_metric "queue.depth" (7 # 1) "gauge" None world0 = (Returns tt, w') /\
    (forall now, get_summary (_global_metrics w') now = get_summary (_global_metrics world0) now).
Proof.
  destruct (collect_metric_gauge "queue.depth" (7 # 1) "gauge" None world0)
    as (w' & H1 & _ & _ & H2 & _).
  - intros [=].
  - intros [=].
  - exists w'. by split.
Defined.
End MetricsMore.

(** * Frames: what the steps of a request leave alone *)
Section Keeps.
Context {X : Type} (p : World -> X).

#[export] Instance keeps_preorder : PreOrder (keeps p).
Proof. split; [by intros w|]. intros w1 w2 w3 H1 H2. unfold keeps in *. congruence. Qed.
End Keeps.

Section Blind.
Import coordinator.
Context (R : relation World) `{!PreOrder R}.
Hypothesis R_ticks : forall w n, R w (set_ticks w n).
Hypothesis R_tracer : forall w t, R w (set_tracer w t).
Hypothesis R_metrics : forall w c, R w (set_metrics w c).

Lemma blind_time_now : Run R time_now.
Proof. intros w res w' [= _ <-]. apply R_ticks. Qed.

Lemma blind_with_span {A} nm md (body : M A) : Run R body -> Run R (with_span nm md body).
Proof.
  intros Hbody w res w' Hrun. unfold with_span in Hrun.
  destruct (tracer.enabled (_global_tracer w)); simpl in Hrun; [|by eapply Hbody].
  destruct (tracer.span_enter _ _ _ _) as [t1 r].
  destruct (body _) as [res2 w2] eqn:Hb.
  apply Hbody in Hb. simpl in Hrun.
  destruct (tracer.span_exit _ _ _) as [out t3].
  assert (w' = set_tracer (set_ticks w2 (S (ticks w2))) t3) as ->
    by (by destruct out; injection Hrun as _ <-).
  etrans; [apply (R_ticks w (S (ticks w)))|].
  etrans; [apply R_tracer|]. etrans; [exact Hb|].
  etrans; [apply R_ticks|apply R_tracer].
Qed.

Lemma blind_metrics_increment nm : Run R (metrics_increment nm).
Proof.
  intros w res w' Hrun. unfold metrics_increment in Hrun.
  destruct (metrics.enabled (_global_metrics w)); simpl in Hrun; injection Hrun as _ <-;
    [|reflexivity].
  etrans; [apply R_ticks|apply R_metrics].
Qed.

Lemma blind_metrics_record_timing nm d : Run R (metrics_record_timing nm d).
Proof.
  intros w res w' Hrun. unfold metrics_record_timing in Hrun.
  destruct (metrics.enabled (_global_metrics w)); simpl in Hrun; injection Hrun as _ <-;
    [|reflexivity].
  etrans; [apply R_ticks|apply R_metrics].
Qed.

Lemma blind_trace_summary : Run R trace_summary.
Proof.
  intros w res w' Hrun. unfold trace_summary in Hrun.
  destruct (tracer.enabled (_global_tracer w)); simpl in Hrun; injection Hrun as _ <-;
    [apply R_ticks|reflexivity].
Qed.

Lemma blind_metrics_summary : Run R metrics_summary.
Proof.
  intros w res w' Hrun. unfold metrics_summary in Hrun.
  destruct (metrics.enabled (_global_metrics w)); simpl in Hrun; injection Hrun as _ <-;
    [apply R_ticks|reflexivity].
Qed.

Lemma blind_analyze_data_body block data query :
  Run R (analyze_data_body block data query).
Proof.
  apply Run_bind; [apply _|apply blind_metrics_increment|intros _].
  apply Run_try_except; [apply _| |intros e].
  - apply Run_bind; [apply _|apply Run_lift, _|]. intros [[insights statistics] shape].
    apply Run_bind; [apply _|apply blind_metrics_increment|intros _; apply Run_ret, _].
  - apply Run_bind; [apply _|apply blind_metrics_increment|intros _; apply Run_ret, _].
Qed.

Lemma blind_analyze_data a data query : Run R (analyze_data a data query).
Proof.
  destruct a as [block|reply]; simpl; [|apply Run_lift, _].
  apply blind_with_span, blind_analyze_data_body.
Qed.

Lemma blind_generate_report_body block title ar :
  Run R (generate_report_body block title ar).
Proof.
  apply Run_bind; [apply _|apply blind_metrics_increment|intros _].
  apply Run_try_except; [apply _| |intros e].
  - apply Run_bind; [apply _|apply Run_lift, _|]. intros [report sections].
    apply Run_bind; [apply _|apply blind_metrics_increment|intros _; apply Run_ret, _].
  - apply Run_bind; [apply _|apply blind_metrics_increment|intros _; apply Run_ret, _].
Qed.

Lemma blind_generate_report g title ar : Run R (generate_report g title ar).
Proof.
  destruct g as [block|reply]; simpl; [|apply Run_lift, _].
  apply blind_with_span, blind_generate_report_body.
Qed.

(** The insight goes to the memory bank. *)
Lemma blind_store_insight insight md :
  (forall w b st, R w (set_memory w b st)) ->
  Run R (store_insight insight md).
Proof.
  intros R_memory w res w' Hrun. unfold store_insight in Hrun. simpl in Hrun.
  destruct (memory_bank.store_insight _ _ _ _ _ _) as [[r b] st].
  injection Hrun as _ <-.
  etrans; [apply R_ticks|]. etrans; [apply R_ticks|]. apply R_memory.
Qed.

Lemma blind_load_data env path : Run R (_load_data env path).
Proof. apply blind_with_span, Run_lift, _. Qed.

Lemma blind_step4 env workflow ar : Run R (step4_report env workflow ar).
Proof.
  unfold step4_report. destruct (truthy_get "generate_report" workflow); [|apply Run_ret, _].
  apply blind_generate_report.
Qed.

Lemma blind_compile_response query ar rr workflow :
  Run R (_compile_response query ar rr workflow).
Proof.
  unfold _compile_response.
  apply Run_bind; [apply _| |intros sid].
  { intros w res w' [= _ <-]. reflexivity. }
  apply Run_bind; [apply _| |intros response].
  { destruct (truthy_get "success" rr); [|apply Run_ret, _].
    apply Run_bind; [apply _| |intros filepath].
    { destruct (match PyDict.get "report" rr with Some v => v | None => VDict [] end);
        simpl; try apply Run_raise, _. apply Run_ret, _. }
    apply Run_bind; [apply _| |intros format; apply Run_ret, _].
    destruct (match PyDict.get "report" rr with Some v => v | None => VDict [] end);
      simpl; try apply Run_raise, _. apply Run_ret, _. }
  apply Run_bind; [apply _|apply blind_trace_summary|]. intros trace.
  apply Run_bind; [apply _|apply blind_metrics_summary|]. intros ms. apply Run_ret, _.
Qed.

Lemma blind_on_exception e : Run R (on_exception e).
Proof.
  unfold on_exception.
  apply Run_bind; [apply _|apply blind_metrics_increment|]. intros _. apply Run_ret, _.
Qed.

(** The end of [wrap_up], after the response went to the session. *)
Lemma blind_record_success (response : dict) start :
  Run R (stop ← time_now;
         metrics_record_timing "coordinator.analysis_duration"
                               (total_seconds (stop - start)) ;;
         metrics_increment "coordinator.analysis_success" ;;
         mret response).
Proof.
  apply Run_bind; [apply _|apply blind_time_now|]. intros stop.
  apply Run_bind; [apply _|apply blind_metrics_record_timing|]. intros _.
  apply Run_bind; [apply _|apply blind_metrics_increment|]. intros _. apply Run_ret, _.
Qed.

Lemma blind_request_entry :
  Run R (metrics_increment "coordinator.analysis_requests" ;; time_now).
Proof.
  apply Run_bind; [apply _|apply blind_metrics_increment|]. intros _. apply blind_time_now.
Qed.

Lemma blind_span_entered w nm md : R w (span_entered w nm md).
Proof.
  unfold span_entered, entered. destruct (tracer.enabled _); [|reflexivity].
  etrans; [apply R_ticks|apply R_tracer].
Qed.

Lemma blind_span_exited w w2 : R w2 (span_exited w w2).
Proof.
  unfold span_exited, exited. destruct (tracer.enabled _); [|reflexivity].
  etrans; [apply R_ticks|apply R_tracer].
Qed.

(** Code that stores insights but does not touch the sessions. *)
Lemma blind_step3 env query workflow data :
  (forall w b st, R w (set_memory w b st)) ->
  Run R (step3_analysis env query workflow data).
Proof.
  intros R_memory.
  unfold step3_analysis. destruct (truthy_get "perform_analysis" workflow); [|apply Run_ret, _].
  apply Run_bind; [apply _|apply blind_analyze_data|]. intros ar.
  apply Run_bind; [apply _| |intros _; apply Run_ret, _].
  destruct (_ && _); [|apply Run_ret, _].
  apply Run_bind; [apply _| |intros sid].
  { intros w res w' [= _ <-]. reflexivity. }
  apply Run_bind; [apply _| |intros _; apply Run_ret, _].
  intros w res w' Hrun. unfold store_insight in Hrun. simpl in Hrun.
  destruct (memory_bank.store_insight _ _ _ _ _ _) as [[r b] st].
  injection Hrun as _ <-.
  etrans; [apply R_ticks|]. etrans; [apply R_ticks|]. apply R_memory.
Qed.

(** Code that talks to the session but does not touch the memory. *)
Lemma blind_update_session r c :
  (forall w m, R w (set_session_manager w m)) ->
  Run R (update_session r c).
Proof.
  intros R_sessions w res w' Hrun. unfold update_session in Hrun.
  destruct (session_manager.get_session _ _); simpl in Hrun; injection Hrun as _ <-;
    [|reflexivity].
  etrans; [apply R_ticks|apply R_sessions].
Qed.
End Blind.

(** * The conversation a request leaves in the session *)
Section Transcript.
Import coordinator.

Lemma sessions_ticks w n : sessions_kept w (set_ticks w n).
Proof. done. Qed.
Lemma sessions_tracer w t : sessions_kept w (set_tracer w t).
Proof. done. Qed.
Lemma sessions_metrics w c : sessions_kept w (set_metrics w c).
Proof. done. Qed.
Lemma sessions_memory w b st : sessions_kept w (set_memory w b st).
Proof. done. Qed.

Lemma update_session_said r c w res w' :
  update_session r c w = (res, w') -> res = Returns tt /\ said r c w w'.
Proof.
  unfold update_session, said.
  destruct (session_manager.get_session _ _) eqn:Hget; simpl; intros [= <- <-]; simpl.
  - split; [done|]. split; [done|]. by eexists.
  - split; [done|]. split; [done|]. exists 0%Z.
    unfold session_manager.update_session. by rewrite Hget.
Qed.






End Transcript.

(** * How a request can end *)
Section Answers.
Import coordinator.

Lemma civil_ret {A} (a : A) : civil (mret a : behaviour A).
Proof. by intros msg. Qed.

Lemma civil_Exception {A} (e : string) : civil (Raises e : behaviour A).
Proof. by intros msg. Qed.

Lemma civil_bind {A B} (b : behaviour A) (f : A -> behaviour B) :
  civil b -> (forall a, civil (f a)) -> civil (b ≫= f).
Proof.
  intros Hb Hf msg. destruct b as [a|e]; simpl; [apply Hf|].
  intros [= ->]. by apply (Hb msg).
Qed.

Lemma civil_except {A} (b : behaviour A) handler :
  civil b -> (forall e, civil (handler e)) -> civil (except_Exception b handler).
Proof.
  intros Hb Hh msg. destruct b as [a|[e|e]]; simpl; [done|apply Hh|apply Hb].
Qed.

Lemma civil_plan env query data_file :
  uninterrupted env -> civil (_plan_workflow env query data_file).
Proof.
  intros Henv. apply civil_except.
  - apply civil_bind; [apply (civil_model _ Henv)|]. intros _. apply civil_ret.
  - intros _. apply civil_ret.
Qed.

Lemma civil_load env path : uninterrupted env -> civil (load_result env path).
Proof.
  intros Henv.
  assert (Hframe : forall result, civil (loaded_frame env result)).
  { intros result. unfold loaded_frame.
    destruct (truthy_get "success" result); [|apply civil_ret].
    destruct (PyDict.get "data" result) as [d|]; [|apply civil_Exception].
    apply civil_bind; [apply (civil_frame _ Henv)|]. intros data. apply civil_ret. }
  apply civil_except; [|intros _; apply civil_ret].
  destruct path as [p|]; [|apply civil_Exception].
  destruct (endswith ".csv" p); [by apply civil_bind; [apply (civil_csv _ Henv)|]|].
  destruct (endswith ".json" p); [by apply civil_bind; [apply (civil_json _ Henv)|]|].
  apply civil_ret.
Qed.

Lemma civil_step2 env workflow data_file :
  uninterrupted env -> civil (step2_value env workflow data_file).
Proof.
  intros Henv. unfold step2_value.
  destruct (needs_load workflow data_file); [|apply civil_ret].
  apply civil_bind; [by apply civil_load|]. intros [d|]; apply civil_ret.
Qed.

Lemma civil_steps env query workflow data msg :
  uninterrupted env -> ~ raise_reason env query workflow data (BaseException msg).
Proof.
  intros Henv [H3|(ar & H3 & [[_ [? [=]]]|[H4|(rr & H4 & Hsec)]])].
  - unfold step3_value in H3. destruct (truthy_get "perform_analysis" workflow); [|done].
    by apply (civil_analyst _ Henv) in H3.
  - unfold step4_value in H4. destruct (truthy_get "generate_report" workflow); [|done].
    by apply (civil_reports _ Henv) in H4.
  - unfold report_section in Hsec. destruct (truthy_get "success" rr); [|done].
    by destruct (PyDict.get "report" rr) as [[]|].
Qed.

(** X17.  [analyze] raises no [Exception]: it returns a response, which
    either has [success: True] or is a failure response, [success: False]
    with an [error] text (the latter for a failure to load the data and
    for any [Exception] of its [try] block), or it is left by an exception
    that is not an [Exception].  It always returns when no call into the
    environment ends in such an exception; and such an exception of the
    first of these calls, the planning call, does leave [analyze]. *)
Theorem analyze_always_answers env query data_file w :
  exists res w',
    analyze env query data_file w = (res, w') /\
    match res with
    | Returns response =>
        PyDict.get "success" response = Some (VBool true) \/
        exists e, response = failure e
    | Raises e => exists msg, e = BaseException msg
    end /\
    (uninterrupted env -> exists response, res = Returns response) /\
    (forall msg, generate_content env = Raises (BaseException msg) ->
                 res = Raises (BaseException msg)).
Proof.
  destruct (analyze env query data_file w) as [res w'] eqn:Hrun.
  exists res, w'. split; [done|].
  apply analyze_spec in Hrun as (w0 & res0 & w1 & w2 & _ & _ & Htry & Hres & _).
  apply and_assoc. split; [|intros msg Hplan;
    assert (Hp : _plan_workflow env query data_file = Raises (BaseException msg))
      by (unfold _plan_workflow; by rewrite Hplan);
    apply (try_end_plan_raised _ _ _ _ _ _ _ Hp) in Htry as [-> _];
    by destruct Hres as [-> _]].
  assert (Hraised : forall e, res0 = Raises e ->
            match res with
            | Returns response =>
                PyDict.get "success" response = Some (VBool true) \/
                exists e, response = failure e
            | Raises e => exists msg, e = BaseException msg
            end /\
            ((forall msg, e <> BaseException msg) -> exists response, res = Returns response)).
  { intros [e|e] ->.
    - destruct Hres as (-> & _). split; [right|]; by eexists.
    - destruct Hres as (-> & _). split; [by eexists|]. intros H. by destruct (H e). }
  destruct Htry as [wf data ar rr sec wc w1 _ _ _ _ _ _ _ _|wf w1 _ _ _
                   |e w1 Hp _|wf e w1 _ H2 _|wf data e w1 _ _ Hreason _].
  - destruct Hres as [-> _]. split; [left; apply compiled_success|]. by eexists.
  - destruct Hres as [-> _]. split; [right; by eexists|]. by eexists.
  - destruct (Hraised _ eq_refl) as [H1 H2]. split; [done|]. intros Henv. apply H2.
    intros msg ->. by apply (civil_plan _ _ _ Henv) in Hp.
  - destruct (Hraised _ eq_refl) as [H1 H2']. split; [done|]. intros Henv. apply H2'.
    intros msg ->. by apply (civil_step2 _ _ _ Henv) in H2.
  - destruct (Hraised _ eq_refl) as [H1 H2]. split; [done|]. intros Henv. apply H2.
    intros msg ->. by apply (civil_steps _ _ _ _ _ Henv) in Hreason.
Qed.

Lemma analyze_always_answers_witness :
  exists response w',
    analyze (env_with throwing_analyst reporting_double) "generate a report" None world0
    = (Returns response, w') /\
    response = failure "boom".
Proof.
  destruct (analyze_always_answers (env_with throwing_analyst reporting_double)
              "generate a report" None world0) as (res & w' & Hrun & _ & Hreturns & _).
  destruct Hreturns as [response ->].
  { split; intros; intros msg; discriminate. }
  exists response, w'. split; [exact Hrun|].
  vm_compute in Hrun. by injection Hrun as <- _.
Defined.

(** A request that needs data it cannot load ends with the load failure. *)
Lemma analyze_unloaded env query data_file workflow w res w' :
  _plan_workflow env query data_file = Returns workflow ->
  step2_value env workflow data_file = Returns LoadFailed ->
  analyze env query data_file w = (res, w') ->
  res = Returns load_failure.
Proof.
  intros Hp H2 Hrun.
  apply analyze_spec in Hrun as (w0 & res0 & w1 & w2 & _ & _ & Htry & Hres & _).
  apply (try_end_load_failed _ _ _ _ _ _ _ Hp H2) in Htry as [-> _].
  by destruct Hres as [-> _].
Qed.

(** X18.  A query that mentions data needs a file.  When the planning call
    of the model answers and the query contains [data] in any letter
    case, a request without [data_file] is planned with [needs_data] and
    ends with [Failed to load data], whatever the agents would have done:
    [_load_data] is handed [None]. *)
Theorem analyze_data_query_without_file env query reply w res w' :
  generate_content env = Returns reply ->
  str_in "data" (lower query) = true ->
  analyze env query None w = (res, w') ->
  res = Returns [("success", VBool false); ("error", VStr "Failed to load data")].
Proof.
  intros Hplan Hdata Hrun.
  eapply (analyze_unloaded env query None (planned query None)); [| |exact Hrun].
  - unfold _plan_workflow. by rewrite Hplan.
  - unfold step2_value, needs_load, planned. simpl. by rewrite Hdata.
Qed.

Lemma analyze_data_query_without_file_witness :
  exists res w',
    analyze (env_with answering_analyst reporting_double)
            "What are the key insights from the data?" None world0 = (res, w') /\
    res = Returns [("success", VBool false); ("error", VStr "Failed to load data")].
Proof.
  destruct (analyze (env_with answering_analyst reporting_double)
                    "What are the key insights from the data?" None world0)
    as [res w'] eqn:Hrun.
  exists res, w'. split; [reflexivity|].
  apply (analyze_data_query_without_file
           (env_with answering_analyst reporting_double)
           "What are the key insights from the data?" "plan" world0 res w');
    [reflexivity|reflexivity|exact Hrun].
Defined.

(** X19.  Only [.csv] and [.json] files are loaded, by the spelling of the
    suffix: for a [data_file] that ends in neither, [analyze] ends with
    [Failed to load data] without asking the loader, whatever the file
    holds — unless the planning call before it ends in an exception that
    is not an [Exception], which leaves [analyze]. *)
Theorem analyze_unsupported_file env query path w res w' :
  path <> "" ->
  endswith ".csv" path = false -> endswith ".json" path = false ->
  analyze env query (Some path) w = (res, w') ->
  match generate_content env with
  | Raises (BaseException msg) => res = Raises (BaseException msg)
  | _ => res = Returns [("success", VBool false); ("error", VStr "Failed to load data")]
  end.
Proof.
  intros Hne Hcsv Hjson Hrun.
  assert (Hgiven : given (Some path) = true).
  { unfold given, memory_bank.given. by destruct (String.eqb_spec path ""). }
  assert (H2 : forall workflow, step2_value env workflow (Some path) = Returns LoadFailed).
  { intros workflow. unfold step2_value, needs_load, path_to_load. rewrite Hgiven. simpl.
    unfold load_result. by rewrite Hcsv, Hjson. }
  destruct (generate_content env) as [reply|[e|msg]] eqn:Hplan.
  - eapply (analyze_unloaded env query (Some path)); [|apply H2|exact Hrun].
    unfold _plan_workflow. by rewrite Hplan.
  - eapply (analyze_unloaded env query (Some path)); [|apply H2|exact Hrun].
    unfold _plan_workflow. by rewrite Hplan.
  - apply analyze_spec in Hrun as (w0 & res0 & w1 & w2 & _ & _ & Htry & Hres & _).
    assert (Hp : _plan_workflow env query (Some path) = Raises (BaseException msg)).
    { unfold _plan_workflow. by rewrite Hplan. }
    destruct Htry as [wf data ar rr sec wc w1 Hp' _ _ _ _ _ _ _|wf w1 Hp' _ _
                     |e w1 Hp' _|wf e w1 Hp' _ _|wf data e w1 Hp' _ _ _]; try congruence.
    assert (e = BaseException msg) as -> by congruence. by destruct Hres as [-> _].
Qed.

Lemma analyze_unsupported_file_witness :
  exists res w',
    analyze (env_with answering_analyst reporting_double)
            "summarise" (Some "SALES.CSV") world0 = (res, w') /\
    res = Returns [("success", VBool false); ("error", VStr "Failed to load data")].
Proof.
  destruct (analyze (env_with answering_analyst reporting_double)
                    "summarise" (Some "SALES.CSV") world0)
    as [res w'] eqn:Hrun.
  exists res, w'. split; [reflexivity|].
  apply (analyze_unsupported_file
           (env_with answering_analyst reporting_double) "summarise" "SALES.CSV" world0 res w');
    [discriminate|reflexivity|reflexivity|exact Hrun].
Defined.
End Answers.

(** * The insight a request stores *)
Section RequestMemory.
Import coordinator.

Lemma memory_ticks w n : memory_kept w (set_ticks w n).
Proof. done. Qed.
Lemma memory_tracer w t : memory_kept w (set_tracer w t).
Proof. done. Qed.
Lemma memory_metrics w c : memory_kept w (set_metrics w c).
Proof. done. Qed.
Lemma memory_sessions w m : memory_kept w (set_session_manager w m).
Proof. done. Qed.

Lemma stored_by_frame query ar w0 w w' w'' res :
  self_session_id w = self_session_id w0 -> memory_kept w0 w ->
  stored_by query ar w w' res -> memory_kept w' w'' ->
  stored_by query ar w0 w'' res.
Proof.
  unfold memory_kept, keeps, memory_state, stored_by.
  intros Hs [= Hb Hst] (nk & ne & H) [= Hb' Hst']. exists nk, ne.
  rewrite <- Hs, <- Hb, <- Hst.
  destruct (memory_bank.store_insight _ _ _ _ _ _) as [[r b] st].
  destruct H as [[= Hb2 Hst2] Hr]. split; [|done].
  unfold memory_state. congruence.
Qed.

(** Step 3 with results that carry insights: the bank is called, and an
    exception of the bank is the outcome of the step. *)
Lemma step3_stores env query workflow data w res w' ar :
  step3_value env query workflow data = Returns ar ->
  stores_insight ar = true ->
  step3_analysis env query workflow data w = (res, w') ->
  sessions_kept w w' /\ stored_by query ar w w' res /\
  (forall ar', res = Returns ar' -> ar' = ar).
Proof.
  intros Hval Hst Hrun.
  split.
  { revert Hrun. apply (blind_step3 sessions_kept sessions_ticks sessions_tracer sessions_metrics), sessions_memory. }
  unfold step3_analysis, step3_value in *.
  destruct (truthy_get "perform_analysis" workflow).
  2:{ injection Hval as <-. done. }
  apply bind_inv in Hrun as [(ar0 & w1 & Ha & Hrest)|(e & Ha & ->)].
  2:{ apply (run_yields _ _ _ _ _ (Yields_analyze_data _ _ _)) in Ha. congruence. }
  pose proof (blind_analyze_data sessions_kept sessions_ticks sessions_tracer sessions_metrics _ _ _ _ _ _ Ha) as Hs1.
  pose proof (blind_analyze_data memory_kept memory_ticks memory_tracer memory_metrics
                _ _ _ _ _ _ Ha) as Hm1.
  apply (run_yields _ _ _ _ _ (Yields_analyze_data _ _ _)) in Ha.
  assert (ar0 = ar) as -> by congruence.
  fold (stores_insight ar) in Hrest. rewrite Hst in Hrest.
  revert Hrest. unfold store_insight, mbind, M_bind, mret, M_ret, read_clock.
  cbn [set_ticks self_memory_bank storage ticks clock].
  fold (insight_metadata query (self_session_id w1)).
  intros Hrest.
  assert (Hstored : stored_by query ar w1 w' res /\ (forall ar', res = Returns ar' -> ar' = ar)).
  { unfold stored_by.
    destruct (memory_bank.store_insight (self_memory_bank w1) _ _ _ _ (storage w1))
      as [[r b] st] eqn:Hstore.
    split.
    - exists (clock w1 (ticks w1)), (clock w1 (S (ticks w1))). rewrite Hstore.
      destruct r as [k|e]; injection Hrest as <- <-; split; try done.
      by intros e' [= ->].
    - destruct r as [k|e]; injection Hrest as <- <-; [by intros ar' [= <-]|done]. }
  destruct Hstored as [Hstored Hsame]. split; [|done].
  eapply stored_by_frame; [|exact Hm1|exact Hstored|reflexivity].
  by injection Hs1.
Qed.

Lemma stored_by_returns query ar w w' (x : dict) res :
  stored_by query ar w w' (Returns x) -> stored_by query ar w w' res.
Proof.
  unfold stored_by. intros (nk & ne & H). exists nk, ne.
  destruct (memory_bank.store_insight _ _ _ _ _ _) as [[r b] st].
  destruct H as [Hm Hr]. split; [done|]. intros e ->. by specialize (Hr e eq_refl).
Qed.

Lemma memory_wrap_up env response start : Run memory_kept (wrap_up env response start).
Proof.
  unfold wrap_up.
  apply Run_bind; [apply _| |intros _].
  { apply (blind_update_session memory_kept memory_ticks), memory_sessions. }
  apply (blind_record_success memory_kept memory_ticks memory_metrics).
Qed.

Lemma finish_stores env query workflow data start w res w' ar :
  step3_value env query workflow data = Returns ar ->
  stores_insight ar = true ->
  finish env query workflow data start w = (res, w') ->
  stored_by query ar w w' res.
Proof.
  intros Hval Hst Hrun. unfold finish in Hrun.
  apply bind_inv in Hrun as [(ar' & w1 & H3 & Hrun)|(e & H3 & ->)].
  2:{ by apply (step3_stores _ _ _ _ _ _ _ _ Hval Hst) in H3 as (_ & ? & _). }
  apply (step3_stores _ _ _ _ _ _ _ _ Hval Hst) in H3 as (_ & Hstored & Hsame).
  eapply stored_by_frame; [done|reflexivity|eapply stored_by_returns, Hstored|].
  revert Hrun.
  apply Run_bind; [apply _| |intros rr].
  { apply (blind_step4 memory_kept memory_ticks memory_tracer memory_metrics). }
  apply Run_bind; [apply _| |intros response].
  { apply (blind_compile_response memory_kept memory_ticks). }
  apply memory_wrap_up.
Qed.

Lemma orchestrate_stores env query data_file start w res w' workflow data ar :
  _plan_workflow env query data_file = Returns workflow ->
  step2_value env workflow data_file = Returns (GoesOn data) ->
  step3_value env query workflow data = Returns ar ->
  stores_insight ar = true ->
  orchestrate env query data_file start w = (res, w') ->
  stored_by query ar w w' res.
Proof.
  intros Hp H2 Hval Hst Hrun. unfold orchestrate in Hrun.
  apply bind_inv in Hrun as [([] & w1 & Hu & Hrun)|(e & Hu & ->)].
  2:{ by apply update_session_said in Hu as [[=] _]. }
  pose proof (blind_update_session memory_kept memory_ticks _ _ memory_sessions _ _ _ Hu) as Hm1.
  apply update_session_said in Hu as [_ [Hs1 _]].
  apply bind_inv in Hrun as [(wf & w1' & Hp' & Hrun)|(e & Hp' & ->)].
  2:{ injection Hp' as Hp' _. congruence. }
  injection Hp' as Hp' <-. assert (wf = workflow) as -> by congruence.
  fold (needs_load workflow data_file) in Hrun.
  destruct (needs_load workflow data_file) eqn:Hneed.
  - rewrite (step2_needed _ _ _ Hneed) in H2.
    apply bind_inv in Hrun as [(data' & w2 & Hl & Hrun)|(e & Hl & ->)].
    2:{ apply (run_yields _ _ _ _ _ (Yields_load_data _ _)) in Hl.
        by rewrite <- Hl in H2. }
    pose proof (blind_load_data memory_kept memory_ticks memory_tracer _ _ _ _ _ Hl) as Hm2.
    pose proof (blind_load_data sessions_kept sessions_ticks sessions_tracer _ _ _ _ _ Hl) as Hs2.
    apply (run_yields _ _ _ _ _ (Yields_load_data _ _)) in Hl. rewrite <- Hl in H2.
    destruct data' as [d|]; [|done]. injection H2 as <-.
    apply (finish_stores _ _ _ _ _ _ _ _ _ Hval Hst) in Hrun.
    eapply stored_by_frame; [|etrans; [exact Hm1|exact Hm2]|exact Hrun|reflexivity].
    injection Hs2 as _ Hs2. congruence.
  - rewrite (step2_not_needed _ _ _ Hneed) in H2. injection H2 as <-.
    apply (finish_stores _ _ _ _ _ _ _ _ _ Hval Hst) in Hrun.
    eapply stored_by_frame; [exact Hs1|exact Hm1|exact Hrun|reflexivity].
Qed.

(** The whole request, for an analysis that succeeds with insights. *)
Lemma analyze_stores env query data_file w res w' workflow data ar :
  _plan_workflow env query data_file = Returns workflow ->
  step2_value env workflow data_file = Returns (GoesOn data) ->
  step3_value env query workflow data = Returns ar ->
  stores_insight ar = true ->
  analyze env query data_file w = (res, w') ->
  exists res0,
    stored_by query ar w w' res0 /\
    forall msg : string, res0 = Raises msg -> res = Returns (failure msg).
Proof.
  intros Hp H2 Hval Hst Hrun. unfold analyze in Hrun.
  apply with_span_body in Hrun as (w2 & Hb & ->); [|apply Scoped_request].
  pose proof (blind_span_entered memory_kept memory_ticks memory_tracer w "coordinator.analyze"
                (Some [("query", VStr query)])) as Hin.
  pose proof (blind_span_entered sessions_kept sessions_ticks sessions_tracer w "coordinator.analyze"
                (Some [("query", VStr query)])) as Hsin.
  pose proof (blind_span_exited memory_kept memory_ticks memory_tracer w w2) as Hout.
  set (w_in := span_entered w _ _) in *.
  unfold request in Hb.
  apply bind_inv in Hb as [([] & wa & Hi & Hb)|(e & Hi & _)].
  2:{ by apply (run_yields _ _ _ _ _ (Yields_metrics_increment _)) in Hi. }
  apply bind_inv in Hb as [(start & w0 & Ht & Hb)|(e & Ht & _)]; [|done].
  pose proof (blind_metrics_increment memory_kept memory_ticks memory_metrics _ _ _ _ Hi) as Hma.
  pose proof (blind_metrics_increment sessions_kept sessions_ticks sessions_metrics _ _ _ _ Hi) as Hsa.
  pose proof (blind_time_now memory_kept memory_ticks _ _ _ Ht) as Hm0.
  pose proof (blind_time_now sessions_kept sessions_ticks _ _ _ Ht) as Hs0.
  assert (Hsid : self_session_id w0 = self_session_id w).
  { injection Hs0 as _ Hs0. injection Hsa as _ Hsa. injection Hsin as _ Hsin. congruence. }
  assert (Hmem : memory_kept w w0) by (etrans; [exact Hin|]; by etrans).
  unfold try_except in Hb.
  destruct (orchestrate env query data_file start w0) as [[response|[e|e]] w1] eqn:Ho;
    apply (orchestrate_stores _ _ _ _ _ _ _ _ _ _ Hp H2 Hval Hst) in Ho.
  - injection Hb as <- <-. exists (Returns response). split; [|done].
    eapply stored_by_frame; [exact Hsid|exact Hmem|exact Ho|exact Hout].
  - pose proof (on_exception_spec _ _ _ _ Hb) as (-> & _ & _).
    apply (blind_on_exception memory_kept memory_ticks memory_metrics) in Hb.
    exists (Raises e). split; [|by intros e' [= ->]].
    eapply stored_by_frame; [exact Hsid|exact Hmem|exact Ho|by etrans].
  - injection Hb as <- <-. exists (Raises (BaseException e)). split; [|done].
    eapply stored_by_frame; [exact Hsid|exact Hmem|exact Ho|exact Hout].
Qed.

Lemma agent_outcome env block query data_file workflow data insights statistics shape :
  _plan_workflow env query data_file = Returns workflow ->
  data_analyst env = DataAnalystAgent block ->
  block data query = Returns (insights, statistics, shape) ->
  exists ar,
    step3_value env query workflow data = Returns ar /\
    stores_insight ar = true /\
    text_of (get_or_none "insights" ar) = insights.
Proof.
  intros Hp Ha Hb. rewrite (step3_value_plan _ _ _ _ _ Hp), Ha. simpl. rewrite Hb.
  eexists. split; [reflexivity|]. by split.
Qed.

Lemma store_insight_mkdir b insight md nk ne st (e : string) :
  memory_bank.mkdir_error st = Some e ->
  fst (fst (memory_bank.store_insight b insight md nk ne st)) = Raises e.
Proof.
  intros H. unfold memory_bank.store_insight, memory_bank.store, memory_bank._save_memories.
  by rewrite H.
Qed.

(** X20.  The insights of a successful analysis are in the memory bank
    when [analyze] is left, however the request ends after the analysis:
    as an entry of category [insight] whose metadata holds the query and
    the session id, found by [search(category="insight")]. *)
Theorem analysis_insight_stored (str_lower : string -> string) env block query data_file
    workflow data w res w' insights statistics shape :
  data_analyst env = DataAnalystAgent block ->
  _plan_workflow env query data_file = Returns workflow ->
  step2_value env workflow data_file = Returns (GoesOn data) ->
  block data query = Returns (insights, statistics, shape) ->
  analyze env query data_file w = (res, w') ->
  exists k entry,
    PyDict.get k (memory_bank.memories (self_memory_bank w')) = Some entry /\
    memory_bank.key entry = k /\
    memory_bank.value entry = insights /\
    memory_bank.category entry = "insight" /\
    memory_bank.metadata entry = insight_metadata query (self_session_id w) /\
    entry ∈ memory_bank.search str_lower (self_memory_bank w') (Some "insight") None.
Proof.
  intros Ha Hp H2 Hb Hrun.
  destruct (agent_outcome env block query data_file workflow data _ _ _ Hp Ha Hb)
    as (ar & Hval & Hst & Htext).
  destruct (analyze_stores _ _ _ _ _ _ _ _ _ Hp H2 Hval Hst Hrun) as (res0 & Hstored & _).
  destruct Hstored as (nk & ne & Hstored). rewrite Htext in Hstored.
  pose proof (store_insight_found str_lower (self_memory_bank w) insights
                (Some (insight_metadata query (self_session_id w))) nk ne (storage w))
    as (_ & _ & Hget & _ & Hsearch).
  destruct (memory_bank.store_insight _ _ _ _ _ _) as [[r b] st].
  destruct Hstored as [[= -> _] _]. simpl in Hget, Hsearch.
  eexists _, _. split; [exact Hget|]. by split_and!.
Qed.

Lemma analysis_insight_stored_witness :
  exists res w' k entry,
    analyze (env_with answering_analyst reporting_double) "generate a report" None world0
    = (res, w') /\
    PyDict.get k (memory_bank.memories (self_memory_bank w')) = Some entry /\
    memory_bank.value entry = "sales rose" /\
    memory_bank.metadata entry = insight_metadata "generate a report" "session-0".
Proof.
  destruct (analyze (env_with answering_analyst reporting_double) "generate a report" None world0)
    as [res w'] eqn:Hrun.
  destruct (analysis_insight_stored lower
              (env_with answering_analyst reporting_double)
              (fun _ _ => Returns ("sales rose", VDict [], VList [VInt 0; VInt 0]))
              "generate a report" None (planned "generate a report" None) None
              world0 res w'
              "sales rose" (VDict []) (VList [VInt 0; VInt 0]))
    as (k & entry & Hget & _ & Hv & _ & Hmd & _).
  - reflexivity.
  - reflexivity.
  - reflexivity.
  - reflexivity.
  - exact Hrun.
  - exists res, w', k, entry. by split_and!.
Defined.

(** X21.  When the directory of the memory file cannot be made, a request
    whose analysis succeeds with insights ends as a failure: the error of
    [mkdir] leaves [store_insight], reaches the [except] block of
    [analyze], and becomes the [error] of the response. *)
Theorem analysis_fails_when_memory_dir_fails env block query data_file workflow data
    w res w' insights statistics shape (e : string) :
  data_analyst env = DataAnalystAgent block ->
  _plan_workflow env query data_file = Returns workflow ->
  step2_value env workflow data_file = Returns (GoesOn data) ->
  block data query = Returns (insights, statistics, shape) ->
  memory_bank.mkdir_error (storage w) = Some e ->
  analyze env query data_file w = (res, w') ->
  res = Returns [("success", VBool false); ("error", VStr e)].
Proof.
  intros Ha Hp H2 Hb Hmk Hrun.
  destruct (agent_outcome env block query data_file workflow data _ _ _ Hp Ha Hb)
    as (ar & Hval & Hst & Htext).
  destruct (analyze_stores _ _ _ _ _ _ _ _ _ Hp H2 Hval Hst Hrun) as (res0 & Hstored & Hres).
  destruct Hstored as (nk & ne & Hstored).
  pose proof (store_insight_mkdir (self_memory_bank w) (text_of (get_or_none "insights" ar))
                (Some (insight_metadata query (self_session_id w))) nk ne (storage w) e Hmk)
    as Hraise.
  destruct (memory_bank.store_insight _ _ _ _ _ _) as [[r b] st].
  destruct Hstored as [_ Hr]. simpl in Hraise. by apply Hres, Hr.
Qed.

Lemma analysis_fails_when_memory_dir_fails_witness :
  exists res w',
    analyze (env_with answering_analyst reporting_double) "generate a report" None
            world_readonly = (res, w') /\
    res = Returns [("success", VBool false); ("error", VStr "Permission denied")].
Proof.
  destruct (analyze (env_with answering_analyst reporting_double) "generate a report" None
                    world_readonly) as [res w'] eqn:Hrun.
  exists res, w'. split; [reflexivity|].
  apply (analysis_fails_when_memory_dir_fails
           (env_with answering_analyst reporting_double)
           (fun _ _ => Returns ("sales rose", VDict [], VList [VInt 0; VInt 0]))
           "generate a report" None (planned "generate a report" None) None
           world_readonly res w'
           "sales rose" (VDict []) (VList [VInt 0; VInt 0]) "Permission denied").
  - reflexivity.
  - reflexivity.
  - reflexivity.
  - reflexivity.
  - reflexivity.
  - exact Hrun.
Defined.
End RequestMemory.

(** * The counters of the agents *)
Section AgentCounters.

Lemma metrics_span_entered w nm md : _global_metrics (span_entered w nm md) = _global_metrics w.
Proof. unfold span_entered, entered. by destruct (tracer.enabled _). Qed.

Lemma metrics_span_exited w w2 : _global_metrics (span_exited w w2) = _global_metrics w2.
Proof. unfold span_exited, exited. by destruct (tracer.enabled _). Qed.

(** Two counts in a row, on an enabled collector. *)
Lemma count_twice c nm1 nm2 now1 now2 nm :
  metrics.enabled c = true ->
  metrics.counter
    (metrics.increment (metrics.increment c nm1 1 None now1) nm2 1 None now2) nm
  = (metrics.counter c nm + (if String.eqb nm1 nm then 1 else 0)
     + (if String.eqb nm2 nm then 1 else 0))%Z.
Proof.
  intros Hen.
  destruct (String.eqb_spec nm2 nm) as [->|H2].
  - rewrite counter_increment by (by rewrite enabled_increment).
    destruct (String.eqb_spec nm1 nm) as [->|H1].
    + by rewrite counter_increment.
    + rewrite counter_increment_ne by done. lia.
  - rewrite counter_increment_ne by done.
    destruct (String.eqb_spec nm1 nm) as [->|H1].
    + rewrite counter_increment by done. lia.
    + rewrite counter_increment_ne by done. lia.
Qed.

(** X22.  [DataAnalystAgent.analyze_data] raises no [Exception] and
    keeps its counters in balance: with the metrics enabled, every call
    counts one request, and then one outcome, a success when its [try]
    block ends, with the insights in the result, and an error when the
    block raises an [Exception], with the text of the exception in the
    result.  An exception of the block that is not an [Exception] leaves
    the call, which has counted the request and no outcome. *)
Theorem analyze_data_counts block data query w res w' :
  metrics.enabled (_global_metrics w) = true ->
  analyze_data (DataAnalystAgent block) data query w = (res, w') ->
  count "data_analyst.analysis_requests" w'
  = (count "data_analyst.analysis_requests" w + 1)%Z /\
  match block data query with
  | Returns (insights, statistics, data_shape) =>
      res = Returns [("success", VBool true); ("query", VStr query);
                     ("insights", VStr insights); ("statistics", statistics);
                     ("data_shape", data_shape)] /\
      count "data_analyst.analysis_success" w'
      = (count "data_analyst.analysis_success" w + 1)%Z /\
      count "data_analyst.analysis_errors" w' = count "data_analyst.analysis_errors" w
  | Raises (Exception e) =>
      res = Returns [("success", VBool false); ("error", VStr e)] /\
      count "data_analyst.analysis_errors" w'
      = (count "data_analyst.analysis_errors" w + 1)%Z /\
      count "data_analyst.analysis_success" w' = count "data_analyst.analysis_success" w
  | Raises (BaseException e) =>
      res = Raises (BaseException e) /\
      count "data_analyst.analysis_errors" w' = count "data_analyst.analysis_errors" w /\
      count "data_analyst.analysis_success" w' = count "data_analyst.analysis_success" w
  end.
Proof.
  intros Hen Hrun. cbn [analyze_data] in Hrun.
  apply with_span_body in Hrun as (w2 & Hb & ->);
    [|apply Run_quiet_scoped, quiet_analyze_data_body].
  unfold count. rewrite !metrics_span_exited.
  rewrite <- (metrics_span_entered w "data_analysis" (Some [("query", VStr query)])) in Hen |- *.
  set (w_in := span_entered w _ _) in *. clearbody w_in.
  revert Hb. unfold analyze_data_body, metrics_increment, try_except, lift, mbind, M_bind,
    mret, M_ret, read_clock.
  rewrite Hen. cbn [negb set_metrics set_ticks _global_metrics].
  destruct (block data query) as [[[insights statistics] shape]|[e|e]];
    cbn [set_metrics set_ticks _global_metrics];
    rewrite ?enabled_increment, ?Hen; cbn [negb set_metrics set_ticks _global_metrics];
    intros [= <- <-]; cbn [_global_metrics set_metrics set_ticks];
    rewrite ?count_twice by done;
    rewrite ?counter_increment, ?counter_increment_ne by done;
    simpl; split_and!; try done; lia.
Qed.

Lemma analyze_data_counts_witness :
  exists res w',
    analyze_data failing_analyst None "why" world0 = (res, w') /\
    count "data_analyst.analysis_requests" w' = 1%Z /\
    res = Returns [("success", VBool false); ("error", VStr "model unavailable")] /\
    count "data_analyst.analysis_errors" w' = 1%Z /\
    count "data_analyst.analysis_success" w' = 0%Z.
Proof.
  destruct (analyze_data failing_analyst None "why" world0) as [res w'] eqn:Hrun.
  exists res, w'. split; [reflexivity|].
  destruct (analyze_data_counts (fun _ _ => Raises "model unavailable") None "why"
              world0 res w' eq_refl Hrun) as (H1 & H2 & H3 & H4).
  by split_and!.
Defined.

(** X23.  [ReportGeneratorAgent.generate_report] raises no [Exception]
    and keeps its counters in balance in the same way: one request per
    call, and then a success, or an error when the [try] block raises an
    [Exception], the result saying which.  An exception of the block that
    is not an [Exception] leaves the call, which has counted the request
    and no outcome. *)
Theorem generate_report_counts block title ar w res w' :
  metrics.enabled (_global_metrics w) = true ->
  generate_report (ReportGeneratorAgent block) title ar w = (res, w') ->
  count "report_generator.report_requests" w'
  = (count "report_generator.report_requests" w + 1)%Z /\
  match block title ar with
  | Returns (report_result, sections) =>
      res = Returns [("success", VBool true); ("report", report_result);
                     ("sections", VInt sections)] /\
      count "report_generator.report_success" w'
      = (count "report_generator.report_success" w + 1)%Z /\
      count "report_generator.report_errors" w' = count "report_generator.report_errors" w
  | Raises (Exception e) =>
      res = Returns [("success", VBool false); ("error", VStr e)] /\
      count "report_generator.report_errors" w'
      = (count "report_generator.report_errors" w + 1)%Z /\
      count "report_generator.report_success" w' = count "report_generator.report_success" w
  | Raises (BaseException e) =>
      res = Raises (BaseException e) /\
      count "report_generator.report_errors" w' = count "report_generator.report_errors" w /\
      count "report_generator.report_success" w' = count "report_generator.report_success" w
  end.
Proof.
  intros Hen Hrun. cbn [generate_report] in Hrun.
  apply with_span_body in Hrun as (w2 & Hb & ->);
    [|apply Run_quiet_scoped, quiet_generate_report_body].
  unfold count. rewrite !metrics_span_exited.
  rewrite <- (metrics_span_entered w "report_generation" (Some [("title", title)])) in Hen |- *.
  set (w_in := span_entered w _ _) in *. clearbody w_in.
  revert Hb. unfold generate_report_body, metrics_increment, try_except, lift, mbind, M_bind,
    mret, M_ret, read_clock.
  rewrite Hen. cbn [negb set_metrics set_ticks _global_metrics].
  destruct (block title ar) as [[report sections]|[e|e]];
    cbn [set_metrics set_ticks _global_metrics];
    rewrite ?enabled_increment, ?Hen; cbn [negb set_metrics set_ticks _global_metrics];
    intros [= <- <-]; cbn [_global_metrics set_metrics set_ticks];
    rewrite ?count_twice by done;
    rewrite ?counter_increment, ?counter_increment_ne by done;
    simpl; split_and!; try done; lia.
Qed.

Lemma generate_report_counts_witness :
  exists res w',
    generate_report (ReportGeneratorAgent (fun _ _ => Returns (VDict [], 2%Z)))
                    (VStr "Report") [] world0 = (res, w') /\
    count "report_generator.report_requests" w' = 1%Z /\
    res = Returns [("success", VBool true); ("report", VDict []); ("sections", VInt 2)] /\
    count "report_generator.report_success" w' = 1%Z /\
    count "report_generator.report_errors" w' = 0%Z.
Proof.
  destruct (generate_report (ReportGeneratorAgent (fun _ _ => Returns (VDict [], 2%Z)))
                            (VStr "Report") [] world0) as [res w'] eqn:Hrun.
  exists res, w'. split; [reflexivity|].
  destruct (generate_report_counts (fun _ _ => Returns (VDict [], 2%Z)) (VStr "Report") []
              world0 res w' eq_refl Hrun) as (H1 & H2 & H3 & H4).
  by split_and!.
Defined.
End AgentCounters.

(** * More on the trace *)
Section TraceMore.
Import coordinator tracer.

(** The summary of a span object shows its duration: none while the span
    is open. *)
Lemma summarize_span_top h r sp :
  h !! r = Some sp ->
  exists children,
    summarize_span (length h) h r
    = VDict [("name", VStr (name sp));
             ("duration", match duration sp with
                          | Some d => VFloat (total_seconds d)
                          | None => VNone
                          end);
             ("metadata", VDict (metadata sp)); ("children", children)].
Proof.
  intros Hsp. pose proof (lookup_lt_Some _ _ _ Hsp) as Hlt.
  destruct (length h) as [|n] eqn:Hlen; [lia|]. simpl. rewrite Hsp. by eexists.
Qed.

(** X24.  The trace in a response shows the request itself as still
    running.  [_compile_response] takes the summary inside the span of
    [analyze]: for a request started with no span open, the last root of
    the trace in its response is the span [coordinator.analyze] of this
    very request, with [duration: None]; the span is closed, and has a
    duration, only when [analyze] has returned. *)
Theorem response_trace_shows_request_open env query data_file w response w' trace :
  enabled (_global_tracer w) = true ->
  active_spans (_global_tracer w) = [] ->
  analyze env query data_file w = (Returns response, w') ->
  PyDict.get "trace" response = Some (VDict trace) ->
  (exists entries entry,
      PyDict.get "spans" trace = Some (VList entries) /\
      last entries = Some (VDict entry) /\
      PyDict.get "name" entry = Some (VStr "coordinator.analyze") /\
      PyDict.get "metadata" entry = Some (VDict [("query", VStr query)]) /\
      PyDict.get "duration" entry = Some VNone) /\
  (exists sp stop,
      heap (_global_tracer w') !! length (heap (_global_tracer w)) = Some sp /\
      name sp = "coordinator.analyze" /\
      end_time sp = Some stop).
Proof.
  intros Hen Hact Hrun Htrace.
  assert (Hvalid : refs_valid w) by (unfold refs_valid; rewrite Hact; constructor).
  split.
  - destruct (analyze_trace _ _ _ _ _ _ _ Hrun Htrace) as (wc & Hsc & ->).
    unfold span_entered in Hsc. rewrite Hen in Hsc.
    set (md := Some [("query", VStr query)]) in *.
    assert (Henc : enabled (_global_tracer wc) = true).
    { rewrite (scoped_enabled _ _ Hsc). unfold entered. cbn [set_tracer _global_tracer].
      by rewrite span_enter_enabled. }
    assert (Hroots : spans (_global_tracer wc)
                     = spans (_global_tracer w) ++ [length (heap (_global_tracer w))]).
    { rewrite (scoped_roots_nested _ _ Hsc).
      - unfold entered. cbn [set_tracer _global_tracer]. by rewrite span_enter_roots, Hact.
      - unfold entered. cbn [set_tracer _global_tracer]. by rewrite span_enter_active, Hact. }
    destruct (span_enter_new_fields (_global_tracer w) "coordinator.analyze" md
                (clock w (ticks w))) as (sp1 & Hsp1 & Hnm & Hstart & Hend & Hmd).
    destruct (scoped_old _ _ Hsc (length (heap (_global_tracer w))) sp1)
      as (sp' & Hsp' & [Hn' _ He' Hm' _] & _).
    { unfold entered. cbn [set_tracer _global_tracer]. exact Hsp1. }
    destruct (trace_at_spans wc Henc) as [Hspans _].
    destruct (summarize_span_top _ _ _ Hsp') as (children & Hsum).
    eexists _, _. split; [exact Hspans|].
    rewrite Hroots, fmap_app, list_fmap_singleton, last_snoc, Hsum. split; [done|].
    unfold duration. rewrite He', Hend. simpl. rewrite Hn', Hnm, Hm', Hmd. by split_and!.
  - unfold analyze in Hrun.
    destruct (with_span_spec _ _ _ _ _ _ (Scoped_request _ _ _) Hen Hvalid Hrun)
      as (_ & (sp & stop & Hsp & Hname & _ & _ & Hstop) & _).
    by exists sp, stop.
Qed.

Lemma response_trace_shows_request_open_witness :
  exists response w' trace entries entry,
    analyze (env_with failing_analyst reporting_double) "generate a report" None world0
    = (Returns response, w') /\
    PyDict.get "trace" response = Some (VDict trace) /\
    PyDict.get "spans" trace = Some (VList entries) /\
    last entries = Some (VDict entry) /\
    PyDict.get "name" entry = Some (VStr "coordinator.analyze") /\
    PyDict.get "duration" entry = Some VNone.
Proof.
  destruct (analyze (env_with failing_analyst reporting_double) "generate a report" None world0)
    as [res w'] eqn:Hrun.
  assert (Hres : exists response trace,
             res = Returns response /\ PyDict.get "trace" response = Some (VDict trace)).
  { pose proof Hrun as Hrun'. vm_compute in Hrun'. injection Hrun' as <- <-.
    eexists _, _. split; reflexivity. }
  destruct Hres as (response & trace & -> & Htrace).
  destruct (response_trace_shows_request_open
              (env_with failing_analyst reporting_double) "generate a report" None
              world0 response w' trace eq_refl eq_refl Hrun Htrace)
    as ((entries & entry & H1 & H2 & H3 & _ & H4) & _).
  exists response, w', trace, entries, entry. by split_and!.
Defined.

(** X25.  A function decorated with [trace_execution] behaves as the
    function does: if the function, whatever the state of the process,
    ends with outcome [r] — a value or an exception — and uses the tracer
    only through spans, then so does the decorated function; and each call
    leaves one more span, closed, with the name and metadata of the
    decorator, under the span that was open at the call. *)
Theorem trace_execution_transparent {A B} nm md (func : A -> M B) (args : A)
    (r : behaviour B) (w : World) :
  Scoped (func args) -> Yields (func args) r ->
  enabled (_global_tracer w) = true -> refs_valid w ->
  exists w' sp stop,
    trace_execution nm md func args w = (r, w') /\
    heap (_global_tracer w') !! length (heap (_global_tracer w)) = Some sp /\
    name sp = nm /\ metadata sp = or_empty md /\
    start_time sp = clock w (ticks w) /\ end_time sp = Some stop /\
    active_spans (_global_tracer w') = active_spans (_global_tracer w) /\
    attached w w' (length (heap (_global_tracer w))).
Proof.
  intros Hsc Hy Hen Hvalid. unfold trace_execution.
  destruct (with_span nm md (func args) w) as [res w'] eqn:Hrun.
  pose proof (run_yields _ _ _ _ _ (Yields_with_span nm md _ _ Hsc Hy) Hrun) as ->.
  destruct (with_span_spec _ _ _ _ _ _ Hsc Hen Hvalid Hrun)
    as (_ & (sp & stop & Hsp & Hname & Hmd & Hstart & Hstop) & Hatt).
  exists w', sp, stop. split_and!; try done.
  exact (scoped_active _ _ (Scoped_with_span _ _ _ Hsc _ _ _ Hrun)).
Qed.

Lemma trace_execution_transparent_witness :
  exists w' sp stop,
    trace_execution "load" None (fun _ : unit => exec (Raise "boom")) tt world0
    = (Raises "boom", w') /\
    heap (_global_tracer w') !! 0 = Some sp /\
    name sp = "load" /\ end_time sp = Some stop /\
    active_spans (_global_tracer w') = [].
Proof.
  destruct (trace_execution_transparent "load" None (fun _ : unit => exec (Raise "boom")) tt
              (Raises "boom") world0)
    as (w' & sp & stop & H1 & H2 & H3 & _ & _ & H4 & H5 & _).
  - apply Scoped_exec.
  - intros w. reflexivity.
  - reflexivity.
  - constructor.
  - exists w', sp, stop. by split_and!.
Defined.
End TraceMore.
(** * The spans a request leaves under its own *)
Section Spanned.
Import tracer.

(** One statement under an open span [p]: the new span object is a
    closed leaf, [p] gets it as its last child, and nothing else changes. *)
Lemma spanned_spec t c stack p sp :
  active_spans t = stack ++ [p] -> heap t !! p = Some sp ->
  enabled (spanned t c) = enabled t /\
  active_spans (spanned t c) = active_spans t /\
  spans (spanned t c) = spans t /\
  length (heap (spanned t c)) = S (length (heap t)) /\
  heap (spanned t c) !! p = Some (add_child (length (heap t)) sp) /\
  heap (spanned t c) !! length (heap t)
  = Some (mkSpan (span_nm c) (span_start c) (Some (span_stop c)) (or_empty (span_md c)) []) /\
  (forall q, q <> p -> q < length (heap t) -> heap (spanned t c) !! q = heap t !! q).
Proof.
  intros Hact Hsp. pose proof (lookup_lt_Some _ _ _ Hsp) as Hp.
  unfold spanned. rewrite (surjective_pairing (span_enter _ _ _ _)), span_enter_ref.
  rewrite (span_exit_pushed _ _ _ (active_spans t)) by apply span_enter_active.
  cbn [snd enabled active_spans spans heap].
  rewrite span_enter_enabled, span_enter_roots, Hact, last_snoc.
  unfold span_enter. rewrite Hact, last_snoc. cbn [fst heap].
  split_and!; try done.
  - rewrite !length_alter, length_app. simpl. lia.
  - rewrite list_lookup_alter_ne by lia. rewrite list_lookup_alter_eq.
    by rewrite lookup_app_l, Hsp by done.
  - rewrite list_lookup_alter_eq, list_lookup_alter_ne by lia.
    by rewrite list_lookup_middle.
  - intros q Hqp Hq. rewrite !list_lookup_alter_ne by lia. by rewrite lookup_app_l.
Qed.

(** A sequence of such statements under the open span [p]. *)
Lemma spanned_all calls : forall t stack p sp,
  active_spans t = stack ++ [p] -> heap t !! p = Some sp ->
  let t' := fold_left spanned calls t in
  enabled t' = enabled t /\
  active_spans t' = active_spans t /\
  spans t' = spans t /\
  length (heap t') = length (heap t) + length calls /\
  heap t' !! p
  = Some (mkSpan (name sp) (start_time sp) (end_time sp) (metadata sp)
                 (children sp ++ seq (length (heap t)) (length calls))) /\
  (forall i c, calls !! i = Some c ->
               heap t' !! (length (heap t) + i)
               = Some (mkSpan (span_nm c) (span_start c) (Some (span_stop c))
                              (or_empty (span_md c)) [])) /\
  (forall q, q <> p -> q < length (heap t) -> heap t' !! q = heap t !! q).
Proof.
  induction calls as [|c calls IH]; intros t stack p sp Hact Hsp; cbv zeta; cbn [fold_left length seq].
  - split_and!; try done; try lia.
    + rewrite app_nil_r, Hsp. by destruct sp.
  - destruct (spanned_spec t c stack p sp Hact Hsp)
      as (Hen & Ha & Hs & Hl & Hp & Hr & Hframe).
    pose proof (lookup_lt_Some _ _ _ Hsp) as Hlt.
    destruct (IH (spanned t c) stack p (add_child (length (heap t)) sp))
      as (Hen' & Ha' & Hs' & Hl' & Hp' & Hr' & Hframe'); [congruence|done|].
    split_and!; try congruence.
    + lia.
    + rewrite Hp', Hl. simpl. by rewrite <- app_assoc.
    + intros [|i] c' Hc'.
      * injection Hc' as <-. rewrite Nat.add_0_r.
        rewrite Hframe' by lia. exact Hr.
      * simpl in Hc'. replace (length (heap t) + S i) with (length (heap (spanned t c)) + i)
          by lia. by apply Hr'.
    + intros q Hqp Hq. rewrite Hframe' by lia. by apply Hframe.
Qed.

(** The summary of a leaf. *)
Lemma summarize_leaf h k sp fuel :
  h !! k = Some sp -> children sp = [] ->
  summarize_span (S fuel) h k
  = VDict [("name", VStr (name sp));
           ("duration", match duration sp with
                        | Some d => VFloat (total_seconds d)
                        | None => VNone
                        end);
           ("metadata", VDict (metadata sp)); ("children", VList [])].
Proof. intros Hk Hc. simpl. by rewrite Hk, Hc. Qed.
End Spanned.

Section Traced.
Import coordinator.

Lemma tracer_ticks w n : tracer_kept w (set_ticks w n).
Proof. done. Qed.
Lemma tracer_metrics w c : tracer_kept w (set_metrics w c).
Proof. done. Qed.
Lemma tracer_sessions w m : tracer_kept w (set_session_manager w m).
Proof. done. Qed.
Lemma tracer_memory w b st : tracer_kept w (set_memory w b st).
Proof. done. Qed.

Lemma traced_kept w w' : tracer_kept w w' -> traced [] w w'.
Proof. intros H. by exists []. Qed.

Lemma traced_app l1 l2 w w1 w2 : traced l1 w w1 -> traced l2 w1 w2 -> traced (l1 ++ l2) w w2.
Proof.
  intros (c1 & <- & H1) (c2 & <- & H2). exists (c1 ++ c2).
  split; [by rewrite fmap_app|]. by rewrite fold_left_app, <- H1.
Qed.

Lemma traced_enabled names w w' :
  traced names w w' ->
  tracer.enabled (_global_tracer w') = tracer.enabled (_global_tracer w).
Proof.
  intros (calls & _ & ->). generalize (_global_tracer w).
  induction calls as [|c calls IH]; intros t; [done|]. cbn [fold_left]. rewrite IH.
  unfold spanned. rewrite (surjective_pairing (tracer.span_enter _ _ _ _)).
  unfold tracer.span_exit.
  destruct (tracer.active_spans _); cbn [snd tracer.enabled]; apply span_enter_enabled.
Qed.

(** A [with] statement around code that leaves the tracer alone. *)
Lemma with_span_traced {A} nm md (body : M A) w res w' :
  Run tracer_kept body ->
  tracer.enabled (_global_tracer w) = true ->
  with_span nm md body w = (res, w') ->
  traced [nm] w w'.
Proof.
  intros Hbody Hen Hrun. unfold with_span in Hrun. rewrite Hen in Hrun.
  cbn [negb read_clock] in Hrun.
  destruct (tracer.span_enter _ _ _ _) as [t1 r] eqn:Henter.
  destruct (body _) as [res2 w2] eqn:Hb.
  apply Hbody in Hb. unfold tracer_kept, keeps in Hb. cbn [set_tracer _global_tracer] in Hb.
  cbn [set_ticks _global_tracer] in Hrun, Henter. rewrite Hb in Hrun.
  exists [mkSpanCall nm md (clock w (ticks w)) (clock w2 (ticks w2))].
  split; [done|]. cbn [fold_left]. unfold spanned. cbn [span_nm span_md span_start span_stop].
  rewrite Henter.
  destruct (tracer.span_exit t1 r (clock w2 (ticks w2))) as [out t3].
  by destruct out; injection Hrun as _ <-.
Qed.

Lemma step3_traced env block query workflow data w res w' :
  data_analyst env = DataAnalystAgent block ->
  truthy_get "perform_analysis" workflow = true ->
  tracer.enabled (_global_tracer w) = true ->
  step3_analysis env query workflow data w = (res, w') ->
  traced ["data_analysis"] w w'.
Proof.
  intros Ha Hp Hen Hrun. unfold step3_analysis in Hrun. rewrite Hp, Ha in Hrun.
  apply bind_inv in Hrun as [(ar & w1 & H1 & Hrun)|(e & H1 & _)].
  - cbn [analyze_data] in H1.
    apply with_span_traced in H1;
      [|apply (blind_analyze_data_body tracer_kept tracer_ticks tracer_metrics)|done].
    apply (traced_app ["data_analysis"] [] _ _ _ H1), traced_kept.
    revert Hrun.
    apply Run_bind; [apply _| |intros _; apply Run_ret, _].
    destruct (_ && _); [|apply Run_ret, _].
    apply Run_bind; [apply _| |intros sid].
    { intros w0 res0 w0' [= _ <-]. reflexivity. }
    apply Run_bind; [apply _| |intros _; apply Run_ret, _].
    apply (blind_store_insight tracer_kept tracer_ticks), tracer_memory.
  - cbn [analyze_data] in H1.
    apply with_span_traced in H1;
      [done|apply (blind_analyze_data_body tracer_kept tracer_ticks tracer_metrics)|done].
Qed.

Lemma step4_traced env gblock workflow ar w res w' :
  report_generator env = ReportGeneratorAgent gblock ->
  tracer.enabled (_global_tracer w) = true ->
  step4_report env workflow ar w = (res, w') ->
  traced (if truthy_get "generate_report" workflow then ["report_generation"] else []) w w'.
Proof.
  intros Hg Hen Hrun. unfold step4_report in Hrun. rewrite Hg in Hrun.
  destruct (truthy_get "generate_report" workflow).
  - cbn [generate_report] in Hrun.
    apply with_span_traced in Hrun;
      [done|apply (blind_generate_report_body tracer_kept tracer_ticks tracer_metrics)|done].
  - injection Hrun as _ <-. by apply traced_kept.
Qed.

(** A [try] block that runs to its end: the steps traced up to the point
    where the summary of the trace is taken. *)
Lemma finish_traced env block gblock query workflow data start w response w' :
  data_analyst env = DataAnalystAgent block ->
  report_generator env = ReportGeneratorAgent gblock ->
  truthy_get "perform_analysis" workflow = true ->
  tracer.enabled (_global_tracer w) = true ->
  finish env query workflow data start w = (Returns response, w') ->
  exists wc,
    traced (["data_analysis"]
            ++ (if truthy_get "generate_report" workflow then ["report_generation"] else []))
           w wc /\
    PyDict.get "trace" response = Some (VDict (trace_at wc)).
Proof.
  intros Ha Hg Hp Hen Hrun. unfold finish in Hrun.
  apply bind_inv in Hrun as [(ar & w1 & H3 & Hrun)|(e & _ & [=])].
  apply (step3_traced _ _ _ _ _ _ _ _ Ha Hp Hen) in H3.
  apply bind_inv in Hrun as [(rr & w2 & H4 & Hrun)|(e & _ & [=])].
  apply (step4_traced _ _ _ _ _ _ _ Hg) in H4; [|by rewrite (traced_enabled _ _ _ H3)].
  apply bind_inv in Hrun as [(response0 & w3 & H5 & Hrun)|(e & _ & [=])].
  rewrite compile_run in H5. destruct (report_section rr) as [sec|e]; [|done].
  injection H5 as Hr Hw. subst response0.
  apply wrap_up_spec in Hrun as ([= ->] & _).
  exists w2. split; [by eapply traced_app|apply compiled_trace].
Qed.

Lemma orchestrate_traced env block gblock query data_file start w response w' trace :
  data_analyst env = DataAnalystAgent block ->
  report_generator env = ReportGeneratorAgent gblock ->
  tracer.enabled (_global_tracer w) = true ->
  orchestrate env query data_file start w = (Returns response, w') ->
  PyDict.get "trace" response = Some (VDict trace) ->
  exists workflow wc,
    _plan_workflow env query data_file = Returns workflow /\
    traced (steps_traced workflow data_file) w wc /\ trace = trace_at wc.
Proof.
  intros Ha Hg Hen Hrun Htrace. unfold orchestrate in Hrun.
  apply bind_inv in Hrun as [([] & w1 & Hu & Hrun)|(e & _ & [=])].
  apply (blind_update_session tracer_kept tracer_ticks _ _ tracer_sessions) in Hu.
  assert (Hen1 : tracer.enabled (_global_tracer w1) = true) by (by rewrite Hu).
  apply bind_inv in Hrun as [(workflow & w1' & Hp & Hrun)|(e & _ & [=])].
  injection Hp as Hp <-. exists workflow.
  pose proof (plan_performs_analysis _ _ _ _ Hp) as Hperform.
  unfold steps_traced. fold (needs_load workflow data_file) in Hrun.
  destruct (needs_load workflow data_file).
  - apply bind_inv in Hrun as [(data & w2 & Hl & Hrun)|(e & _ & [=])].
    apply with_span_traced in Hl; [|apply Run_lift, _|done].
    destruct data as [d|]; [|by injection Hrun as <- _].
    apply (finish_traced _ _ _ _ _ _ _ _ _ _ Ha Hg Hperform) in Hrun
        as (wc & Htr & Hget); [|by rewrite (traced_enabled _ _ _ Hl)].
    exists wc. split; [done|]. split; [|congruence].
    apply (traced_app [] _ _ _ _ (traced_kept _ _ Hu)).
    by eapply (traced_app ["data_loading"]).
  - apply (finish_traced _ _ _ _ _ _ _ _ _ _ Ha Hg Hperform Hen1) in Hrun
        as (wc & Htr & Hget).
    exists wc. split; [done|]. split; [|congruence].
    apply (traced_app [] _ _ _ _ (traced_kept _ _ Hu)). exact Htr.
Qed.
End Traced.

Section TraceTree.
Import coordinator tracer.

(** The names in the summaries of a run of closed leaves. *)
Lemma leaves_names h a calls n :
  (calls <> [] -> 0 < n) ->
  (forall i c, calls !! i = Some c ->
               h !! (a + i) = Some (mkSpan (span_nm c) (span_start c) (Some (span_stop c))
                                           (or_empty (span_md c)) [])) ->
  span_name <$> map (summarize_span n h) (seq a (length calls))
  = (fun nm => Some (VStr nm)) <$> (span_nm <$> calls).
Proof.
  intros Hn Hleaf. apply list_eq. intros i.
  change (map (summarize_span n h)) with (fmap (M:=list) (summarize_span n h)).
  rewrite !list_lookup_fmap. destruct (calls !! i) as [c|] eqn:Hc.
  - pose proof (lookup_lt_Some _ _ _ Hc) as Hlt.
    rewrite lookup_seq_lt by done. cbn [fmap option_fmap option_map].
    destruct n as [|n].
    { destruct calls; [done|]. assert (0 < 0) by (by apply Hn). lia. }
    by rewrite (summarize_leaf _ _ _ _ (Hleaf _ _ Hc) eq_refl).
  - apply lookup_ge_None in Hc. by rewrite lookup_seq_ge.
Qed.

(** X30.  The trace in a response lists the steps of the request.  With
    the repository's agents, for a request started with no span open, the
    last root of the trace in the response is the span
    [coordinator.analyze], and its children are the steps that ran, in
    order: [data_loading] when the plan asks for data or a file was given,
    then [data_analysis], then [report_generation] when the plan asks for
    a report — and nothing else. *)
Theorem response_trace_lists_steps env block gblock query data_file w response w' trace :
  data_analyst env = DataAnalystAgent block ->
  report_generator env = ReportGeneratorAgent gblock ->
  enabled (_global_tracer w) = true ->
  active_spans (_global_tracer w) = [] ->
  analyze env query data_file w = (Returns response, w') ->
  PyDict.get "trace" response = Some (VDict trace) ->
  exists workflow entries entry kids,
    _plan_workflow env query data_file = Returns workflow /\
    PyDict.get "spans" trace = Some (VList entries) /\
    last entries = Some entry /\
    span_name entry = Some (VStr "coordinator.analyze") /\
    span_children entry = Some (VList kids) /\
    span_name <$> kids
    = (fun nm => Some (VStr nm)) <$> steps_traced workflow data_file.
Proof.
  intros Ha Hg Hen Hact Hrun Htrace. unfold analyze in Hrun.
  apply with_span_body in Hrun as (w2 & Hb & _); [|apply Scoped_request].
  unfold span_entered in Hb. rewrite Hen in Hb.
  set (md := Some [("query", VStr query)]) in *.
  set (we := entered w "coordinator.analyze" md) in *.
  unfold request in Hb.
  apply bind_inv in Hb as [([] & wa & Hinc & Hb)|(e & _ & [=])].
  apply (blind_metrics_increment tracer_kept tracer_ticks tracer_metrics) in Hinc.
  apply bind_inv in Hb as [(start & wb & Hnow & Hb)|(e & _ & [=])].
  apply (blind_time_now tracer_kept tracer_ticks) in Hnow.
  assert (Hkept : tracer_kept we wb) by (by etrans).
  assert (Hene : enabled (_global_tracer we) = true).
  { unfold we, entered. cbn [set_tracer _global_tracer]. by rewrite span_enter_enabled. }
  unfold try_except in Hb.
  destruct (orchestrate env query data_file start wb) as [[r|[e|e]] wo] eqn:Ho.
  2:{ apply on_exception_spec in Hb as ([= ->] & _). done. }
  2:{ by injection Hb. }
  injection Hb as -> ->.
  destruct (orchestrate_traced _ _ _ _ _ _ _ _ _ _ Ha Hg ltac:(by rewrite Hkept) Ho Htrace)
    as (workflow & wc & Hp & Htr & ->).
  apply (traced_app [] _ _ _ _ (traced_kept _ _ Hkept)) in Htr.
  cbn [app] in Htr. destruct Htr as (calls & Hnames & Htc).
  set (t1 := _global_tracer we) in *.
  assert (Hact1 : active_spans t1 = [] ++ [length (heap (_global_tracer w))]).
  { unfold t1, we, entered. cbn [set_tracer _global_tracer].
    by rewrite span_enter_active, Hact. }
  assert (Hsp1 : heap t1 !! length (heap (_global_tracer w))
                 = Some (mkSpan "coordinator.analyze" (clock w (ticks w)) None (or_empty md) [])).
  { unfold t1, we, entered. cbn [set_tracer _global_tracer].
    apply span_enter_new. rewrite Hact. constructor. }
  assert (Hlen1 : length (heap t1) = S (length (heap (_global_tracer w)))).
  { unfold t1, we, entered. cbn [set_tracer _global_tracer]. apply span_enter_length. }
  assert (Hroots1 : spans t1 = spans (_global_tracer w) ++ [length (heap (_global_tracer w))]).
  { unfold t1, we, entered. cbn [set_tracer _global_tracer].
    by rewrite span_enter_roots, Hact. }
  destruct (spanned_all calls t1 _ _ _ Hact1 Hsp1)
    as (Hen' & _ & Hroots' & Hlen' & Hroot & Hleaf & _).
  rewrite <- Htc in Hen', Hroots', Hlen', Hroot, Hleaf.
  destruct (trace_at_spans wc) as [Hspans _]; [congruence|].
  exists workflow. eexists _, _, _. split; [exact Hp|]. split; [exact Hspans|].
  rewrite Hroots', Hroots1, fmap_app, list_fmap_singleton, last_snoc.
  rewrite Hlen', Hlen1. cbn [Nat.add summarize_span]. rewrite Hroot.
  cbn [children name span_name span_children PyDict.get].
  split_and!; [done|done|done|]. rewrite <- Hnames.
  apply leaves_names; [|exact Hleaf].
  intros Hne. destruct calls; [done|]. simpl. lia.
Qed.

Lemma response_trace_lists_steps_witness :
  exists response w' trace entries entry kids,
    analyze (env_with answering_analyst
                      (ReportGeneratorAgent (fun _ _ => Returns (VDict [], 2%Z))))
            "generate a report" None world0
    = (Returns response, w') /\
    PyDict.get "trace" response = Some (VDict trace) /\
    PyDict.get "spans" trace = Some (VList entries) /\
    last entries = Some entry /\
    span_name entry = Some (VStr "coordinator.analyze") /\
    span_children entry = Some (VList kids) /\
    span_name <$> kids = [Some (VStr "data_analysis"); Some (VStr "report_generation")].
Proof.
  set (env := env_with answering_analyst
                       (ReportGeneratorAgent (fun _ _ => Returns (VDict [], 2%Z)))).
  destruct (analyze env "generate a report" None world0) as [res w'] eqn:Hrun.
  assert (Hres : exists response trace,
             res = Returns response /\ PyDict.get "trace" response = Some (VDict trace)).
  { pose proof Hrun as Hrun'. vm_compute in Hrun'. injection Hrun' as <- <-.
    eexists _, _. split; reflexivity. }
  destruct Hres as (response & trace & -> & Htrace).
  destruct (response_trace_lists_steps env _ _ "generate a report" None
              world0 response w' trace eq_refl eq_refl eq_refl eq_refl Hrun Htrace)
    as (workflow & entries & entry & kids & Hp & H1 & H2 & H3 & H4 & H5).
  injection Hp as <-.
  exists response, w', trace, entries, entry, kids. by split_and!.
Defined.
End TraceTree.

(** * Making a coordinator *)
Section Init.
Import coordinator.

(** X26.  A coordinator cannot be made for an existing session.
    [__init__] looks the [session_id] up in the [SessionManager] it has
    just made, which holds no session: whenever a non-empty [session_id]
    is given, [__init__] raises, whatever the environment; with an API
    key and a working [genai.configure] the error is
    [Session <id> not found].  The process state is left as it was. *)
Theorem init_with_session_id_raises (sid : string) (user_id api_key GEMINI_API_KEY : option string)
    (configure : behaviour unit) (uuid4 : string)
    (load : memory_bank.Storage -> memory_bank.MemoryBank * memory_bank.Storage)
    (collaborators : behaviour unit) (w : World) :
  sid <> "" ->
  exists e,
    __init__ (Some sid) user_id api_key GEMINI_API_KEY configure uuid4 load collaborators w
    = (Raises e, w) /\
    (memory_bank.given (if memory_bank.given api_key then api_key else GEMINI_API_KEY) = true ->
     configure = Returns tt ->
     e = "Session " +:+ sid +:+ " not found").
Proof.
  intros Hsid. unfold __init__.
  assert (Hgiven : memory_bank.given (Some sid) = true).
  { simpl. by destruct (String.eqb_spec sid ""). }
  rewrite Hgiven.
  destruct (memory_bank.given (if memory_bank.given api_key then api_key else GEMINI_API_KEY)).
  - destruct configure as [[]|e]; simpl.
    + eexists. split; [reflexivity|]. done.
    + exists e. split; [reflexivity|]. by intros _ [=].
  - eexists. split; [reflexivity|]. by intros [=].
Qed.

Lemma init_with_session_id_raises_witness :
  exists e,
    __init__ (Some "session-0") None (Some "key") None (Returns tt) "uuid"
             (fun st => (memory_bank.mkBank "data/memory_bank.json" [], st)) (Returns tt) world1
    = (Raises e, world1) /\
    (memory_bank.given (Some "key") = true -> Returns tt = Returns tt ->
     e = "Session session-0 not found").
Proof.
  apply (init_with_session_id_raises "session-0" None (Some "key") None (Returns tt) "uuid"
           (fun st => (memory_bank.mkBank "data/memory_bank.json" [], st)) (Returns tt) world1).
  discriminate.
Defined.
End Init.

Section SessionContext.
Import session_manager.

Lemma add_messages_ids calls : forall s,
  id (add_messages s calls) = id s /\ user_id (add_messages s calls) = user_id s.
Proof.
  induction calls as [|c calls IH]; intros s; [done|].
  unfold add_messages in *. cbn [fold_left]. by destruct (IH (add_message s (call_role c)
    (call_content c) (call_metadata c) (call_now c))) as [-> ->].
Qed.

(** X27.  What [get_session_context] shows of a session that has been
    given messages: the count is the number of messages kept, at most 100
    however many were added, and the context is the last 20 of them, as
    role and content, in the order they were added. *)
Theorem get_session_context_recent (sid uid : string) (md : dict) (now : Z)
    (calls : list AddMessage) :
  get_session_context (add_messages (new_session sid uid md now) calls)
  = [("session_id", VStr sid);
     ("user_id", VStr uid);
     ("message_count", VInt (Z.of_nat (Nat.min (length calls) capacity)));
     ("context",
      VList (map (fun c => VDict (context_entry (message_of c)))
                 (drop (length calls - 20) calls)))].
Proof.
  set (s := add_messages (new_session sid uid md now) calls).
  assert (Hel : Deque.elems (messages s) = drop (length calls - capacity) (map message_of calls)).
  { unfold s. rewrite add_messages_extend.
    rewrite (deque_extend_elems _ _ capacity); simpl; [|done|lia].
    by rewrite length_map. }
  destruct (add_messages_ids calls (new_session sid uid md now)) as [Hid Huid].
  fold s in Hid, Huid. simpl in Hid, Huid.
  assert (Hlen : length (Deque.elems (messages s)) = Nat.min (length calls) capacity)
    by (rewrite Hel, length_drop, length_map; lia).
  unfold get_session_context. rewrite Hid, Huid, Hlen. do 3 f_equal.
  f_equal. f_equal.
  change 20%Z with (Z.of_nat 20).
  rewrite (get_context_positive s 20) by lia. rewrite Hlen, Hel, drop_drop.
  replace (length calls - capacity + (Nat.min (length calls) capacity
                                      - Nat.min 20 (Nat.min (length calls) capacity)))
    with (length calls - 20) by (unfold capacity; lia).
  by rewrite skipn_map, !map_map.
Qed.
End SessionContext.

(** * The statistics tool *)
Section GroupBy.
Import statistical.

(** The table of aggregations maps each of its five names to itself. *)
Lemma agg_func_map_spec (name : string) :
  match PyDict.get name agg_func_map with
  | Some f => f
  | None => "sum"
  end
  = if decide (name ∈ aggregations) then name else "sum".
Proof.
  unfold agg_func_map, aggregations. cbn [PyDict.get].
  repeat match goal with
         | |- context [String.eqb name ?k] =>
             destruct (String.eqb_spec name k) as [->|?]; [done|]
         end.
  rewrite decide_False; [done|].
  intros Hin. repeat (apply elem_of_cons in Hin as [->|Hin]; [done|]).
  by apply elem_of_nil in Hin.
Qed.

(** X28.  Which aggregation [group_by_analysis] performs and which it
    reports.  On data that has the two columns, the aggregation handed to
    pandas is the lowered [agg_func] when that is one of [sum], [mean],
    [count], [max] and [min], and [sum] for every other name; the result
    of a grouping that succeeds holds what pandas gave for that
    aggregation, but its [aggregation] entry is [agg_func] as it was
    given: for an unknown name the sums are reported under that name.  An
    [Exception] of the grouping comes back as a failure; and when a column
    is missing pandas is not asked. *)
Theorem group_by_analysis_label (data : DataFrame) (group_by agg_column agg_func : string) :
  (has_column group_by data = true -> has_column agg_column data = true ->
   let func := if decide (lower agg_func ∈ aggregations) then lower agg_func else "sum" in
   group_by_analysis data group_by agg_column agg_func
   = match groupby_agg data group_by agg_column func with
     | Returns results =>
         Returns [("success", VBool true);
                  ("results", results);
                  ("group_by", VStr group_by);
                  ("aggregation", VStr agg_func)]
     | Raises (Exception e) => Returns [("success", VBool false); ("error", VStr e)]
     | Raises (BaseException e) => Raises (BaseException e)
     end) /\
  (has_column group_by data = false \/ has_column agg_column data = false ->
   group_by_analysis data group_by agg_column agg_func
   = Returns [("success", VBool false); ("error", VStr "Required columns not found")]).
Proof.
  split.
  - intros Hg Hc func. unfold group_by_analysis. rewrite Hg, Hc. cbn [negb orb].
    rewrite agg_func_map_spec. fold func.
    by destruct (groupby_agg data group_by agg_column func) as [results|[e|e]].
  - intros H. unfold group_by_analysis.
    by destruct H as [-> | ->]; [|rewrite orb_true_r].
Qed.

Lemma group_by_analysis_label_witness :
  let data := mkDataFrame ["region"; "sales"] (fun _ _ func => Returns (VStr func)) in
  group_by_analysis data "region" "sales" "MEAN"
  = Returns [("success", VBool true); ("results", VStr "mean");
             ("group_by", VStr "region"); ("aggregation", VStr "MEAN")] /\
  group_by_analysis data "region" "sales" "median"
  = Returns [("success", VBool true); ("results", VStr "sum");
             ("group_by", VStr "region"); ("aggregation", VStr "median")].
Proof.
  intros data. split.
  - destruct (group_by_analysis_label data "region" "sales" "MEAN") as [H _].
    rewrite H by reflexivity. reflexivity.
  - destruct (group_by_analysis_label data "region" "sales" "median") as [H _].
    rewrite H by reflexivity. reflexivity.
Defined.
End GroupBy.

(** * The report formatter *)
Section CreateReport.
Import report_formatter.

(** The text [create_report] has formatted for a supported format. *)
Lemma create_report_formats str_of str_lower title sections format save stamp fs content :
  (format = "markdown" /\
   format_markdown str_of title sections (Some [("timestamp", VStr stamp)]) stamp
   = Returns content) \/
  (format = "html" /\
   format_html str_of title sections (Some [("timestamp", VStr stamp)]) stamp
   = Returns content) ->
  create_report str_of str_lower title sections format save stamp fs
  = if save then
      let '(save_result, fs') :=
        save_report content (replace_char " " "_" (str_lower title)) format fs in
      (Returns [("success", VBool true); ("content", VStr content); ("format", VStr format);
                ("filepath", get_or_none "filepath" save_result)], fs')
    else (Returns [("success", VBool true); ("content", VStr content);
                   ("format", VStr format)], fs).
Proof.
  intros [[-> Hc]|[-> Hc]]; unfold create_report; simpl String.eqb; cbv iota; rewrite Hc;
    destruct save; [|done| |done];
    by destruct (save_report _ _ _ _).
Qed.

(** X29.  The [success] of [create_report] says nothing about the file.
    For a supported format whose text can be made, [create_report] with
    [save] set returns [success: True] with the text whether or not the
    file could be written: [filepath] is the path of the file when it was
    written, and [None] when opening or writing it raised, and no error is
    reported.  When opening raised, the file system is as it was; when
    writing raised, the file has been opened for writing and holds only
    what had reached it.  The name of the file is the lowered title with
    its spaces replaced. *)
Theorem create_report_unsaved str_of str_lower title sections format stamp fs content :
  (format = "markdown" /\
   format_markdown str_of title sections (Some [("timestamp", VStr stamp)]) stamp
   = Returns content) \/
  (format = "html" /\
   format_html str_of title sections (Some [("timestamp", VStr stamp)]) stamp
   = Returns content) ->
  let name := replace_char " " "_" (str_lower title)
              +:+ (if String.eqb format "markdown" then ".md" else ".html") in
  let path := path_str fs name in
  let result filepath :=
    Returns [("success", VBool true); ("content", VStr content);
             ("format", VStr format); ("filepath", filepath)] in
  create_report str_of str_lower title sections format true stamp fs
  = match open_error fs path with
    | Some e => (result VNone, fs)
    | None =>
        match write_error fs path with
        | Some (e, part) => (result VNone, write fs path part)
        | None => (result (VStr path), write fs path content)
        end
    end.
Proof.
  intros Hfmt name path result. rewrite (create_report_formats _ _ _ _ _ _ _ _ _ Hfmt).
  subst result path name. unfold save_report.
  destruct Hfmt as [[-> _]|[-> _]]; simpl String.eqb; cbv iota;
    (destruct (open_error fs _); [done|]);
    by destruct (write_error fs _) as [[e part]|].
Qed.

Lemma create_report_unsaved_witness :
  let fs := mkFiles (fun name => "outputs/reports/" +:+ name)
                    (fun _ => None) (fun _ => Some ("No space left on device", "# Sal"))
                    [("outputs/reports/sales_report.md", "# Sales Report of last year")] in
  create_report coordinator.text_of lower "Sales Report" [] "markdown" true
                "2024-01-01 00:00:00" fs
  = (Returns [("success", VBool true);
              ("content", VStr ("# Sales Report" +:+ nl +:+ nl
                                +:+ "**Generated:** 2024-01-01 00:00:00" +:+ nl +:+ nl));
              ("format", VStr "markdown"); ("filepath", VNone)],
     write fs "outputs/reports/sales_report.md" "# Sal").
Proof.
  intros fs.
  apply (create_report_unsaved coordinator.text_of lower "Sales Report" [] "markdown"
           "2024-01-01 00:00:00" fs).
  left. split; reflexivity.
Defined.
End CreateReport.
